(** * Fire-Extinguisher-Planner: the geometric coverage-planning engine

    A shallow embedding of the placement generators, the coverage repair,
    the point-insertion search, the solution set builder and the coverage
    verifier of [src/Fire_Extinguisher_Planner.py].

    - Python [float] is IEEE 754 binary64: it is modelled by Rocq's primitive
      [float], with the same operations and the same rounding.
    - [while] loops run on fuel; a call either returns, raises or runs out
      of fuel ([outcome]).
    - shapely and [math.hypot] are libraries the program calls: their
      operations are the fields of three interfaces ([PyMath], [Shapely],
      [Overlay]), instantiated on axis-aligned rectangles where a concrete
      run is evaluated. *)

From Stdlib Require Import Floats ZArith List Bool Lia String.
Import ListNotations.

Set Warnings "-inexact-float".

Open Scope float_scope.

(** ** Outcomes of a Python call *)

Inductive exn : Type :=
| OverflowError (msg : string)
| ValueError (msg : string)
| GEOSException (msg : string).

Definition exn_msg (e : exn) : string :=
  match e with
  | OverflowError m | ValueError m | GEOSException m => m
  end.

Inductive outcome (A : Type) : Type :=
| Ret (a : A)
| Raise (e : exn)
| OutOfFuel.

Arguments Ret {A} a.
Arguments Raise {A} e.
Arguments OutOfFuel {A}.

Definition bind {A B : Type} (o : outcome A) (k : A -> outcome B) : outcome B :=
  match o with
  | Ret a => k a
  | Raise e => Raise e
  | OutOfFuel => OutOfFuel
  end.

Notation "x <- o ;; k" := (bind o (fun x => k))
  (at level 61, o at next level, right associativity).

Fixpoint mapM {A B : Type} (f : A -> outcome B) (l : list A) : outcome (list B) :=
  match l with
  | [] => Ret []
  | a :: l' => b <- f a ;; bs <- mapM f l' ;; Ret (b :: bs)
  end.

(** [terminates o]: the call ended, with a value or with an exception. *)
Definition terminates {A : Type} (o : outcome A) : Prop := o <> OutOfFuel.

(** ** Python numbers *)

Module Py.

(** [int(x)] for a float [x]: truncation toward zero; a NaN raises
    ValueError and an infinity raises OverflowError. *)
Definition int_of_float (x : float) : outcome Z :=
  match Prim2SF x with
  | S754_nan => Raise (ValueError "cannot convert float NaN to integer")
  | S754_infinity _ => Raise (OverflowError "cannot convert float infinity to integer")
  | S754_zero _ => Ret 0%Z
  | S754_finite s m e =>
      let a := match e with
               | Z0 => Zpos m
               | Zpos _ => Z.shiftl (Zpos m) e
               | Zneg _ => Z.shiftr (Zpos m) (- e)
               end in
      Ret (if s then (- a)%Z else a)
  end.

(** The float an [int] becomes in mixed arithmetic ([i * 2.0]): the nearest
    binary64 value, ties to even. *)
Definition float_of_int (z : Z) : float :=
  SF2Prim (binary_normalize prec emax z 0 false).

(** [math.isfinite(x)] *)
Definition isfinite (x : float) : bool :=
  match Prim2SF x with
  | S754_nan | S754_infinity _ => false
  | _ => true
  end.

(** [range(a, b)], through its first element and its length. *)
Fixpoint range_from (a : Z) (n : nat) : list Z :=
  match n with
  | O => []
  | S n' => a :: range_from (a + 1)%Z n'
  end.

Definition range (a b : Z) : list Z := range_from a (Z.to_nat (b - a)).

End Py.

(** ** The order of binary64 values

    Every float that is not a NaN has a rank in [Z]; the comparisons of
    floats are the comparisons of ranks.  The two zeros share rank 0. *)

Module FloatOrder.

Definition two53 : Z := 9007199254740992.

Definition mag (m : positive) (e : Z) : Z := ((e + 1075) * two53 + Zpos m)%Z.

Definition sf_rank (x : spec_float) : Z :=
  match x with
  | S754_zero _ => 0
  | S754_nan => 0
  | S754_infinity s => if s then (- (2048 * two53)) else (2048 * two53)
  | S754_finite s m e => if s then (- mag m e) else mag m e
  end%Z.

Definition sf_is_nan (x : spec_float) : bool :=
  match x with S754_nan => true | _ => false end.

Definition rank (x : float) : Z := sf_rank (Prim2SF x).

Definition is_NaN (x : float) : bool := sf_is_nan (Prim2SF x).

End FloatOrder.

(** ** The libraries the program calls *)

Definition point : Type := float * float.

(** [math.hypot] *)
Class PyMath : Type := {
  hypot : float -> float -> float
}.

(** The shapely operations of the generators and of the repair:
    [poly.bounds], [poly.contains(Point(x, y))], [poly.centroid],
    [poly.representative_point()], [list(poly.exterior.coords)] and
    [MultiPoint(points).distance(Point(p))]. *)
Class Shapely : Type := {
  Polygon : Type;
  bounds : Polygon -> float * float * float * float;
  contains : Polygon -> point -> bool;
  centroid : Polygon -> point;
  representative_point : Polygon -> point;
  exterior_coords : Polygon -> list point;
  distance : list point -> point -> float
}.

(** The shapely operations of the verifier, which run inside its [try]:
    [Point(p).buffer(r)], [unary_union(circles)], [coverage.contains(poly)],
    [coverage.intersection(poly)], [.area] of a geometry and [poly.area]. *)
Class Overlay (Geo : Shapely) : Type := {
  Geometry : Type;
  buffer : point -> float -> outcome Geometry;
  unary_union : list Geometry -> outcome Geometry;
  geom_contains : Geometry -> Polygon -> outcome bool;
  intersection : Geometry -> Polygon -> outcome Geometry;
  geom_area : Geometry -> outcome float;
  area : Polygon -> outcome float
}.

(** ** The program *)

(** [while v < bound: body; v += step], the shape of the four scan loops.
    [fuel] bounds the iterations of one execution of the loop; an inner
    loop has the same allowance each time it is entered. *)
Fixpoint while_lt {A : Type} (fuel : nat) (bound step : float) (v : float) (acc : A)
  (body : float -> A -> outcome A) : outcome A :=
  match fuel with
  | O => OutOfFuel
  | S fuel' =>
      if v <? bound then
        acc' <- body v acc ;;
        while_lt fuel' bound step (v + step) acc' body
      else Ret acc
  end.

Record solution : Type := { name : string; points : list point }.

Section Planner.

Context {Math : PyMath} {Geo : Shapely}.

(** The body of both inner loops:
    [p = Point(x, y); if poly.contains(p): points.append((x, y))]. *)
Definition keep_inside (poly : Polygon) (x y : float) (points : list point) : list point :=
  if contains poly (x, y) then points ++ [(x, y)] else points.

(** The loops of [calculate_grid_placement], up to the call of
    [ensure_coverage]. *)
Definition grid_scan (fuel : nat) (poly : Polygon) (radius : float)
  (offset_ratio : float * float) : outcome (list point) :=
  let spacing := radius * 1.414 * 0.95 in
  let '(minx, miny, maxx, maxy) := bounds poly in
  let start_x := minx + spacing * fst offset_ratio in
  let start_y := miny + spacing * snd offset_ratio in
  while_lt fuel (maxx + spacing) spacing start_x []
    (fun x points =>
       while_lt fuel (maxy + spacing) spacing start_y points
         (fun y points => Ret (keep_inside poly x y points))).

(** The loops of [calculate_hex_placement], up to the call of
    [ensure_coverage]. *)
Definition hex_scan (fuel : nat) (poly : Polygon) (radius : float) : outcome (list point) :=
  let spacing_x := radius * 1.732 * 0.95 in
  let spacing_y := radius * 1.5 * 0.95 in
  let '(minx, miny, maxx, maxy) := bounds poly in
  st <- while_lt fuel (maxy + radius) spacing_y (miny + radius / 2) ([], 0%Z)
          (fun y st =>
             let '(points, row) := st in
             let offset := if (row mod 2 =? 0)%Z then 0 else spacing_x / 2 in
             points' <- while_lt fuel (maxx + radius) spacing_x (minx + offset + radius / 2) points
                          (fun x points => Ret (keep_inside poly x y points)) ;;
             Ret (points', (row + 1)%Z)) ;;
  Ret (fst st).

(** The [for i in range(1, steps)] loop of [find_internal_spot], over the
    indices that are left; after the loop the target is returned. *)
Fixpoint walk (poly : Polygon) (vertex_pt target : point) (vec_x vec_y dist : float)
  (indices : list Z) : point :=
  match indices with
  | [] => target
  | i :: rest =>
      let ratio := (Py.float_of_int i * 2) / dist in
      let nx := fst vertex_pt + vec_x * ratio in
      let ny := snd vertex_pt + vec_y * ratio in
      if contains poly (nx, ny) then (nx, ny)
      else walk poly vertex_pt target vec_x vec_y dist rest
  end.

Definition find_internal_spot (poly : Polygon) (vertex_pt : point) (radius : float)
  : outcome point :=
  let target := representative_point poly in
  let vec_x := fst target - fst vertex_pt in
  let vec_y := snd target - snd vertex_pt in
  let dist := hypot vec_x vec_y in
  if dist =? 0 then Ret target
  else
    steps <- Py.int_of_float (dist / 2) ;;
    Ret (walk poly vertex_pt target vec_x vec_y dist (Py.range 1 steps)).

(** The [for tp in test_points] loop of [ensure_coverage]; [mp] is always
    [MultiPoint(final_points)], and [new_pt], a pair, is always true. *)
Fixpoint cover_vertices (poly : Polygon) (radius : float) (test_points final_points : list point)
  : outcome (list point) :=
  match test_points with
  | [] => Ret final_points
  | tp :: rest =>
      if radius <? distance final_points tp then
        new_pt <- find_internal_spot poly tp radius ;;
        cover_vertices poly radius rest (final_points ++ [new_pt])
      else cover_vertices poly radius rest final_points
  end.

Definition ensure_coverage (poly : Polygon) (points : list point) (radius : float)
  : outcome (list point) :=
  let final_points :=
    match points with
    | [] =>
        let c := centroid poly in
        if contains poly c then [c] else [representative_point poly]
    | _ => points
    end in
  cover_vertices poly radius (exterior_coords poly) final_points.

Definition calculate_grid_placement (fuel : nat) (poly : Polygon) (radius : float)
  (offset_ratio : float * float) : outcome (list point) :=
  points <- grid_scan fuel poly radius offset_ratio ;;
  ensure_coverage poly points radius.

Definition calculate_hex_placement (fuel : nat) (poly : Polygon) (radius : float)
  : outcome (list point) :=
  points <- hex_scan fuel poly radius ;;
  ensure_coverage poly points radius.

Definition generate_multiple_solutions (fuel : nat) (poly : Polygon)
  (radius safety_factor : float) : outcome (list solution) :=
  let solutions := [] in
  let effective_radius := radius * safety_factor in
  s1 <- calculate_grid_placement fuel poly effective_radius (0, 0) ;;
  let solutions := solutions ++ [{| name := "Option A: Standard Grid"; points := s1 |}] in
  s2 <- calculate_grid_placement fuel poly effective_radius (0.5, 0.5) ;;
  let solutions := solutions ++ [{| name := "Option B: Offset Grid"; points := s2 |}] in
  s3 <- calculate_hex_placement fuel poly effective_radius ;;
  let solutions := solutions ++ [{| name := "Option C: Hexagonal Packing"; points := s3 |}] in
  Ret solutions.

Context {Ovl : Overlay Geo}.

(** The body of the [try] of [check_geometric_coverage]; [or] does not
    evaluate its right side when the left side is true, and [>=] evaluates
    the intersection area before [poly.area * 0.999]. *)
Definition coverage_test (poly : Polygon) (points : list point) (effective_r : float)
  : outcome bool :=
  circles <- mapM (fun p => buffer p effective_r) points ;;
  coverage <- unary_union circles ;;
  inside <- geom_contains coverage poly ;;
  if inside then Ret true
  else
    common <- intersection coverage poly ;;
    covered <- geom_area common ;;
    total <- area poly ;;
    Ret (total * 0.999 <=? covered).

(** The call returns a result and the records it sent to [logging.error]. *)
Definition check_geometric_coverage (poly : Polygon) (points : list point)
  (radius safety_factor : float) : outcome bool * list string :=
  let effective_r := radius * safety_factor in
  match points with
  | [] => (Ret false, [])
  | _ =>
      match coverage_test poly points effective_r with
      | Raise e => (Ret true, [("Coverage check failed: " ++ exn_msg e)%string])
      | r => (r, [])
      end
  end.

End Planner.

(** ** The lattice of the grid generator, as the specification words it

    The lattice points scanned from [(start_x, start_y)], stepping by [s]
    in both axes up to [max + s], that fall inside the polygon. *)

(** The coordinates [start, start + s, start + s + s, ...] below [bound]. *)
Fixpoint lattice_axis (fuel : nat) (bound s : float) (v : float) : outcome (list float) :=
  match fuel with
  | O => OutOfFuel
  | S fuel' =>
      if v <? bound then
        rest <- lattice_axis fuel' bound s (v + s) ;;
        Ret (v :: rest)
      else Ret []
  end.

Definition lattice_inside {Geo : Shapely} (fuel : nat) (poly : Polygon) (s : float)
  (offset_ratio : float * float) : outcome (list point) :=
  let '(minx, miny, maxx, maxy) := bounds poly in
  xs <- lattice_axis fuel (maxx + s) s (minx + fst offset_ratio * s) ;;
  ys <- lattice_axis fuel (maxy + s) s (miny + snd offset_ratio * s) ;;
  Ret (filter (contains poly) (list_prod xs ys)).

(** ** The insertion search, as the specification words it

    The intermediate points of the walk from the vertex toward the target
    in steps of length 2, and the first one inside the polygon, or the
    target when none is. *)

Definition step_point (vertex_pt : point) (vec_x vec_y dist : float) (i : Z) : point :=
  let ratio := (Py.float_of_int i * 2) / dist in
  (fst vertex_pt + vec_x * ratio, snd vertex_pt + vec_y * ratio).

Definition first_inside {Geo : Shapely} (poly : Polygon) (candidates : list point)
  (target : point) : point :=
  match find (contains poly) candidates with
  | Some c => c
  | None => target
  end.

(** The distance [find_internal_spot] computes from a vertex to the target. *)
Definition walk_length {Math : PyMath} {Geo : Shapely} (poly : Polygon) (vertex_pt : point)
  : float :=
  let target := representative_point poly in
  hypot (fst target - fst vertex_pt) (snd target - snd vertex_pt).


(** ** When a scan ends

    [visited start step k] is the scan coordinate after [k] additions of
    [step].  A scan advances when every addition made while the loop is
    still running strictly increases the coordinate. *)

Definition visited (start step : float) (k : nat) : float :=
  Nat.iter k (fun v => v + step) start.

Definition advances (start step bound : float) : Prop :=
  forall k : nat,
    (forall j : nat, (j <= k)%nat -> (visited start step j <? bound) = true) ->
    (visited start step k <? visited start step (S k)) = true.

(** The scans of the grid generator and of the hexagonal generator advance.
    An odd row of the hexagonal scan starts half a column further. *)
Definition grid_advances {Geo : Shapely} (poly : Polygon) (radius : float)
  (offset_ratio : float * float) : Prop :=
  let spacing := radius * 1.414 * 0.95 in
  let '(minx, miny, maxx, maxy) := bounds poly in
  advances (minx + spacing * fst offset_ratio) spacing (maxx + spacing) /\
  advances (miny + spacing * snd offset_ratio) spacing (maxy + spacing).

Definition hex_advances {Geo : Shapely} (poly : Polygon) (radius : float) : Prop :=
  let spacing_x := radius * 1.732 * 0.95 in
  let spacing_y := radius * 1.5 * 0.95 in
  let '(minx, miny, maxx, maxy) := bounds poly in
  advances (miny + radius / 2) spacing_y (maxy + radius) /\
  advances (minx + 0 + radius / 2) spacing_x (maxx + radius) /\
  advances (minx + spacing_x / 2 + radius / 2) spacing_x (maxx + radius).

(** A call that ends for no amount of fuel. *)
Definition never_ends {A : Type} (call : nat -> outcome A) : Prop :=
  forall fuel : nat, call fuel = OutOfFuel.

(** ** Concrete libraries: axis-aligned rectangles

    The polygon with the ring [(x0, y0), (x1, y0), (x1, y1), (x0, y1)],
    [x0 < x1] and [y0 < y1], and the answers shapely gives on it. *)

Module Rect.

Record rect : Type := { x0 : float; y0 : float; x1 : float; y1 : float }.

(** [contains] is true in the interior only: a point of the boundary is
    not contained. *)
Definition inside (r : rect) (p : point) : bool :=
  (x0 r <? fst p) && (fst p <? x1 r) && (y0 r <? snd p) && (snd p <? y1 r).

(** The centroid of a rectangle and the point GEOS picks on the scan line
    through the middle of its extent are both its centre. *)
Definition centre (r : rect) : point := ((x0 r + x1 r) / 2, (y0 r + y1 r) / 2).

(** The ring is closed: its first coordinate comes again at the end. *)
Definition ring (r : rect) : list point :=
  [(x0 r, y0 r); (x1 r, y0 r); (x1 r, y1 r); (x0 r, y1 r); (x0 r, y0 r)].

(** GEOS: the distance of two coordinates, and the least one from a
    multipoint to a point. *)
Definition point_distance (p q : point) : float :=
  let dx := fst p - fst q in
  let dy := snd p - snd q in
  sqrt (dx * dx + dy * dy).

Definition nearer (p : point) (m : float) (q : point) : float :=
  let d := point_distance q p in
  if d <? m then d else m.

Definition min_distance (points : list point) (p : point) : float :=
  fold_left (nearer p) points infinity.

#[global] Instance shapely : Shapely := {|
  Polygon := rect;
  bounds r := (x0 r, y0 r, x1 r, y1 r);
  contains := inside;
  centroid := centre;
  representative_point := centre;
  exterior_coords := ring;
  distance := min_distance
|}.

(** [math.hypot] as the rounded square root of the rounded sum of squares.
    CPython scales its arguments first, which changes the result only
    where a square overflows or underflows while the root does not. *)
#[global] Instance math : PyMath := {|
  hypot x y := sqrt (x * x + y * y)
|}.

(** A stand-in for the overlay operations, as a test would patch them.
    Buffering a point by a radius that is not positive gives the empty
    geometry, as in shapely, and the operations on it are the ones of
    shapely; a positive radius is outside what the stand-in computes, and
    its [buffer] raises, which stands for an internal failure of GEOS. *)
Inductive empty_geometry : Type := Empty.

#[global] Instance stub_overlay : Overlay shapely := {|
  Geometry := empty_geometry;
  buffer p r := if 0 <? r then Raise (GEOSException "buffer: not computed") else Ret Empty;
  unary_union gs := Ret Empty;
  geom_contains g poly := Ret false;
  intersection g poly := Ret Empty;
  geom_area g := Ret 0;
  area r := Ret ((x1 r - x0 r) * (y1 r - y0 r))
|}.

(** The floor plans of the examples. *)
Definition hall : rect := {| x0 := 0; y0 := 0; x1 := 100; y1 := 50 |}.
Definition room : rect := {| x0 := 0; y0 := 0; x1 := 10; y1 := 10 |}.
Definition unit_square : rect := {| x0 := 1; y0 := 1; x1 := 2; y1 := 2 |}.
Definition huge : rect :=
  {| x0 := -1.5e308; y0 := -1.5e308; x1 := 1.5e308; y1 := 1.5e308 |}.

End Rect.

(** ** Adequacy, in the words of the specification

    The union of the disks of radius [r] at the placement points, as the
    library builds it from one [buffer] per point; the area it covers of
    the polygon; and adequacy: the union contains the polygon, or the
    covered area is at least 99.9% of the polygon's area. *)

Section Adequacy.

Context {Geo : Shapely} {Ovl : Overlay Geo}.





End Adequacy.

(** ** A stand-in for the overlay of one disk

    What shapely answers for placement sets of one point on a rectangle,
    where the answer does not depend on how GEOS approximates the circle
    by a polygon: [buffer] refuses a distance that is not finite
    (ValueError), gives the empty geometry for a distance that is not
    positive and a disk otherwise; a disk contains the rectangle when its
    farthest corner is nearer than the radius by the margin of the
    approximation, and does not when a corner is farther than the radius.
    Between the two, and for the union of several disks, the stand-in
    gives no answer. *)

Module Disks.






End Disks.

(** ** The lattice of the hexagonal generator

    Rows from [miny + r / 2] stepping by [spacing_y] while below
    [maxy + r]; in a row, columns stepping by [spacing_x] while below
    [maxx + r], from [minx + r / 2] in the rows of even rank and half a
    column further in the others; the points inside the polygon, row by
    row. *)

Fixpoint hex_rows {Geo : Shapely} (poly : Polygon) (even_xs odd_xs : list float)
  (ys : list float) (row : Z) : list point :=
  match ys with
  | [] => []
  | y :: ys' =>
      filter (contains poly)
        (map (fun x => (x, y)) (if (row mod 2 =? 0)%Z then even_xs else odd_xs))
      ++ hex_rows poly even_xs odd_xs ys' (row + 1)%Z
  end.

Definition hex_lattice {Geo : Shapely} (fuel : nat) (poly : Polygon) (radius : float)
  : outcome (list point) :=
  let spacing_x := radius * 1.732 * 0.95 in
  let spacing_y := radius * 1.5 * 0.95 in
  let '(minx, miny, maxx, maxy) := bounds poly in
  ys <- lattice_axis fuel (maxy + radius) spacing_y (miny + radius / 2) ;;
  even_xs <- lattice_axis fuel (maxx + radius) spacing_x (minx + 0 + radius / 2) ;;
  odd_xs <- lattice_axis fuel (maxx + radius) spacing_x (minx + spacing_x / 2 + radius / 2) ;;
  Ret (hex_rows poly even_xs odd_xs ys 0).

(** The set the repair starts from. *)
Definition seeded {Geo : Shapely} (poly : Polygon) (pts : list point) : list point :=
  match pts with
  | [] => [if contains poly (centroid poly) then centroid poly else representative_point poly]
  | _ => pts
  end.

(** * The application around the engine

    The parser of extinguisher ratings, the drawing canvas, and the window
    methods that call the engine: [run_analysis], [change_sol] and
    [update_result].  Widgets are modelled by what is read from them and
    by what is set on them; painting, dialogs' looks and the rendering of
    the report are left out. *)

From Stdlib Require Import Ascii DecimalString DecimalN DecimalZ.

(** ** Python builtins on strings and numbers *)

Module Builtins.

Open Scope string_scope.

Definition is_digit (c : ascii) : bool :=
  let n := nat_of_ascii c in (48 <=? n)%nat && (n <=? 57)%nat.

Definition is_space (c : ascii) : bool :=
  let n := nat_of_ascii c in
  ((9 <=? n)%nat && (n <=? 13)%nat) || ((28 <=? n)%nat && (n <=? 32)%nat).

(** The texts are ASCII: on other characters [upper], [\d] and [int] of
    Python do more than is written here. *)
Definition is_ascii (c : ascii) : bool := (nat_of_ascii c <? 128)%nat.

(** [s.upper()], on ASCII text. *)
Definition upper_char (c : ascii) : ascii :=
  let n := nat_of_ascii c in
  if (97 <=? n)%nat && (n <=? 122)%nat then ascii_of_nat (n - 32) else c.

Fixpoint upper (s : string) : string :=
  match s with
  | EmptyString => EmptyString
  | String c s' => String (upper_char c) (upper s')
  end.

(** [s.replace(" ", "")] *)
Fixpoint remove_spaces (s : string) : string :=
  match s with
  | EmptyString => EmptyString
  | String c s' => if Ascii.eqb c " " then remove_spaces s' else String c (remove_spaces s')
  end.

(** [sub in s] *)
Fixpoint contains_sub (sub s : string) : bool :=
  match s with
  | EmptyString => prefix sub EmptyString
  | String _ s' => prefix sub s || contains_sub sub s'
  end.

(** [s.split()[0]]: the first run of characters that are not white space;
    IndexError has no first word to give. *)
Fixpoint skip_spaces (s : string) : string :=
  match s with
  | String c s' => if is_space c then skip_spaces s' else s
  | EmptyString => EmptyString
  end.

Fixpoint take_word (s : string) : string :=
  match s with
  | String c s' => if is_space c then EmptyString else String c (take_word s')
  | EmptyString => EmptyString
  end.

Definition first_word (s : string) : option string :=
  match skip_spaces s with
  | EmptyString => None
  | w => Some (take_word w)
  end.

(** [str(n)] and [int(digits)] for a run of decimal digits.  CPython
    refuses to convert more than 4300 digits (ValueError). *)
Definition str_of_int (z : Z) : string := NilZero.string_of_int (Z.to_int z).

Definition int_of_digits (digits : string) : outcome Z :=
  if (4300 <? String.length digits)%nat
  then Raise (ValueError "Exceeds the limit (4300 digits) for integer string conversion")
  else
    match NilEmpty.uint_of_string digits with
    | Some d => Ret (Z.of_N (N.of_uint d))
    | None => Raise (ValueError "invalid literal for int() with base 10")
    end.

(** [round(x)] of a float: the nearest integer, ties to the even one. *)
Definition round (x : float) : outcome Z :=
  match Prim2SF x with
  | S754_nan => Raise (ValueError "cannot convert float NaN to integer")
  | S754_infinity _ => Raise (OverflowError "cannot convert float infinity to integer")
  | S754_zero _ => Ret 0%Z
  | S754_finite s m e =>
      let a :=
        match e with
        | Z0 => Zpos m
        | Zpos _ => Z.shiftl (Zpos m) e
        | Zneg k =>
            let q := Z.shiftr (Zpos m) (Zpos k) in
            let r := (Zpos m - Z.shiftl q (Zpos k))%Z in
            let half := Z.shiftl 1 (Zpos k - 1) in
            match (r ?= half)%Z with
            | Lt => q
            | Gt => (q + 1)%Z
            | Eq => if Z.even q then q else (q + 1)%Z
            end
        end in
      Ret (if s then (- a)%Z else a)
  end.

(** [math.ceil(x)] *)
Definition ceil (x : float) : outcome Z :=
  match Prim2SF x with
  | S754_nan => Raise (ValueError "cannot convert float NaN to integer")
  | S754_infinity _ => Raise (OverflowError "cannot convert float infinity to integer")
  | S754_zero _ => Ret 0%Z
  | S754_finite s m e =>
      match e with
      | Z0 => Ret (if s then Zneg m else Zpos m)
      | Zpos _ => Ret (if s then (- Z.shiftl (Zpos m) e)%Z else Z.shiftl (Zpos m) e)
      | Zneg k =>
          let q := Z.shiftr (Zpos m) (Zpos k) in
          let exact := (Z.shiftl q (Zpos k) =? Zpos m)%Z in
          Ret (if s then (- q)%Z else if exact then q else (q + 1)%Z)
      end
  end.

(** [n < x] for an int [n] and a float [x]: Python compares the exact
    values. *)
Definition int_lt_float (n : Z) (x : float) : bool :=
  match Prim2SF x with
  | S754_nan => false
  | S754_infinity s => negb s
  | S754_zero _ => (n <? 0)%Z
  | S754_finite s m e =>
      let v := if s then Zneg m else Zpos m in
      match e with
      | Zneg k => (Z.shiftl n (Zpos k) <? v)%Z
      | _ => (n <? Z.shiftl v e)%Z
      end
  end.

(** Every character of [s] satisfies [p]; [c in s] for a character. *)
Fixpoint all_chars (p : ascii -> bool) (s : string) : bool :=
  match s with
  | EmptyString => true
  | String c s' => p c && all_chars p s'
  end.

Fixpoint occurs (c : ascii) (s : string) : bool :=
  match s with
  | EmptyString => false
  | String x s' => Ascii.eqb x c || occurs c s'
  end.

(** Python indexing [l[i]]: a negative index counts from the end. *)
Definition index {A : Type} (l : list A) (i : Z) : option A :=
  let n := Z.of_nat (List.length l) in
  let j := if (i <? 0)%Z then (i + n)%Z else i in
  if (0 <=? j)%Z && (j <? n)%Z then nth_error l (Z.to_nat j) else None.

End Builtins.

(** ** RatingParser *)

Module RatingParser.

Open Scope string_scope.

(** The dictionary [parse] returns has these five keys. *)
Record ratings : Type := {
  rating_A : Z;
  rating_B : Z;
  rating_C : bool;
  rating_D : bool;
  rating_K : bool
}.

(** The longest run of digits at the head of a text, and the rest. *)
Fixpoint digit_run (s : string) : string * string :=
  match s with
  | String c s' =>
      if Builtins.is_digit c then
        let '(digits, rest) := digit_run s' in (String c digits, rest)
      else (EmptyString, s)
  | EmptyString => (EmptyString, EmptyString)
  end.

(** On ASCII text (Python's [\d], [upper] and [int] also take the digits
    and letters of other scripts, which are outside this model).
    [re.search(r'(\d+)[\-]X', s)], group 1 of the leftmost match: at a
    position the greedy [\d+] takes the whole run of digits, and a shorter
    run is followed by a digit, never by the hyphen. *)
Fixpoint search (letter : ascii) (s : string) : option string :=
  match s with
  | EmptyString => None
  | String _ s' =>
      match digit_run s with
      | (String d ds, String "-" (String l _)) =>
          if Ascii.eqb l letter then Some (String d ds) else search letter s'
      | _ => search letter s'
      end
  end.

Definition number_before (letter : ascii) (s : string) : outcome Z :=
  match search letter s with
  | Some digits => Builtins.int_of_digits digits
  | None => Ret 0%Z
  end.

Definition listed (letter : string) (s : string) : bool :=
  Builtins.contains_sub (":" ++ letter) s || Builtins.contains_sub ("-" ++ letter) s
  || Builtins.contains_sub ("CLASS" ++ letter) s.

Definition parse (rating_str : string) : outcome ratings :=
  let rating_str := Builtins.remove_spaces (Builtins.upper rating_str) in
  a <- number_before "A" rating_str ;;
  b <- number_before "B" rating_str ;;
  Ret {| rating_A := a; rating_B := b;
         rating_C := listed "C" rating_str;
         rating_D := listed "D" rating_str;
         rating_K := listed "K" rating_str |}.

(** How the numbered entries of [STANDARD_RATINGS] are written. *)
Definition standard_text (a b : N) : string :=
  Builtins.str_of_int (Z.of_N a) ++ "-A:" ++ Builtins.str_of_int (Z.of_N b) ++ "-B:C".

Definition STANDARD_RATINGS : list string :=
  [ "1-A:10-B:C"; "2-A:10-B:C"; "3-A:40-B:C"; "4-A:60-B:C";
    "6-A:80-B:C"; "10-A:120-B:C"; "20-A:120-B:C";
    "30-A:160-B:C"; "40-A:240-B:C";
    "Class D (Metal)"; "Class K (Kitchen)" ].

End RatingParser.

(** ** UnitManager *)

Module UnitManager.

Definition IMPERIAL : Z := 0.
Definition METRIC : Z := 1.

Definition FT_TO_M : float := 0.3048.
Definition SQFT_TO_SQM : float := 0.092903.

(** The state is [current_system]; [set_system] stores what it is given. *)
Definition to_ft (current_system : Z) (val : float) : float :=
  if (current_system =? IMPERIAL)%Z then val else val / FT_TO_M.

Definition from_ft (current_system : Z) (val : float) : float :=
  if (current_system =? IMPERIAL)%Z then val else val * FT_TO_M.

Definition to_sqft (current_system : Z) (val : float) : float :=
  if (current_system =? IMPERIAL)%Z then val else val / SQFT_TO_SQM.

Definition from_sqft (current_system : Z) (val : float) : float :=
  if (current_system =? IMPERIAL)%Z then val else val * SQFT_TO_SQM.

Definition dist_label (current_system : Z) : string :=
  if (current_system =? IMPERIAL)%Z then "ft" else "m".

End UnitManager.

(** ** CADCanvas

    A handler changes the state and may raise; what it assigned before
    raising stays assigned.  [self.update()] and [setCursor] only repaint.
    Positions of mouse events are integers in Qt, here the floats of the
    same value. *)

Module CADCanvas.

Record state : Type := {
  points : list point;
  scale_unit_per_grid : float;
  grid_size_logical : float;
  zoom : float;
  offset : point;
  last_mouse_pos : point;
  current_mouse_logical : option point;
  panning : bool;
  drawing_active : bool;
  polygon_closed : bool;
  snap_enabled : bool;
  snapped_pos : option point;
  has_unsaved_changes : bool
}.

(** [__init__] *)
Definition init : state := {|
  points := [];
  scale_unit_per_grid := 5.0;
  grid_size_logical := 40.0;
  zoom := 1.0;
  offset := (0, 0);
  last_mouse_pos := (0, 0);
  current_mouse_logical := None;
  panning := false;
  drawing_active := true;
  polygon_closed := false;
  snap_enabled := true;
  snapped_pos := None;
  has_unsaved_changes := false
|}.

Inductive button : Type := LeftButton | RightButton | MiddleButton | OtherButton.

Definition set_scale (s : state) (val : Z) : state :=
  {| points := points s; scale_unit_per_grid := Py.float_of_int val;
     grid_size_logical := grid_size_logical s; zoom := zoom s; offset := offset s;
     last_mouse_pos := last_mouse_pos s; current_mouse_logical := current_mouse_logical s;
     panning := panning s; drawing_active := drawing_active s;
     polygon_closed := polygon_closed s; snap_enabled := snap_enabled s;
     snapped_pos := snapped_pos s; has_unsaved_changes := has_unsaved_changes s |}.

Definition set_snap (s : state) (enabled : bool) : state :=
  {| points := points s; scale_unit_per_grid := scale_unit_per_grid s;
     grid_size_logical := grid_size_logical s; zoom := zoom s; offset := offset s;
     last_mouse_pos := last_mouse_pos s; current_mouse_logical := current_mouse_logical s;
     panning := panning s; drawing_active := drawing_active s;
     polygon_closed := polygon_closed s; snap_enabled := enabled;
     snapped_pos := snapped_pos s; has_unsaved_changes := has_unsaved_changes s |}.

Definition screen_to_logical (s : state) (screen_pos : point) : point :=
  ((fst screen_pos - fst (offset s)) / zoom s, (snd screen_pos - snd (offset s)) / zoom s).

Definition logical_to_screen (s : state) (logical_pos : point) : point :=
  (fst logical_pos * zoom s + fst (offset s), snd logical_pos * zoom s + snd (offset s)).

Definition get_snapped_logical (s : state) (logical_pos : point) : outcome point :=
  if negb (snap_enabled s) then Ret logical_pos
  else
    kx <- Builtins.round (fst logical_pos / grid_size_logical s) ;;
    let x := Py.float_of_int kx * grid_size_logical s in
    ky <- Builtins.round (snd logical_pos / grid_size_logical s) ;;
    let y := Py.float_of_int ky * grid_size_logical s in
    Ret (x, y).

Definition wheelEvent (s : state) (pos : point) (angle : Z) : state :=
  let old_logical := screen_to_logical s pos in
  let factor := if (0 <? angle)%Z then 1.1 else 0.9 in
  let zoomed :=
    {| points := points s; scale_unit_per_grid := scale_unit_per_grid s;
       grid_size_logical := grid_size_logical s; zoom := zoom s * factor; offset := offset s;
       last_mouse_pos := last_mouse_pos s; current_mouse_logical := current_mouse_logical s;
       panning := panning s; drawing_active := drawing_active s;
       polygon_closed := polygon_closed s; snap_enabled := snap_enabled s;
       snapped_pos := snapped_pos s; has_unsaved_changes := has_unsaved_changes s |} in
  let new_screen_expected := logical_to_screen zoomed old_logical in
  {| points := points s; scale_unit_per_grid := scale_unit_per_grid s;
     grid_size_logical := grid_size_logical s; zoom := zoom zoomed;
     offset := (fst (offset s) + (fst pos - fst new_screen_expected),
                snd (offset s) + (snd pos - snd new_screen_expected));
     last_mouse_pos := last_mouse_pos s; current_mouse_logical := current_mouse_logical s;
     panning := panning s; drawing_active := drawing_active s;
     polygon_closed := polygon_closed s; snap_enabled := snap_enabled s;
     snapped_pos := snapped_pos s; has_unsaved_changes := has_unsaved_changes s |}.

Definition mousePressEvent (s : state) (b : button) (pos : point) : state * option exn :=
  match b with
  | MiddleButton =>
      ({| points := points s; scale_unit_per_grid := scale_unit_per_grid s;
          grid_size_logical := grid_size_logical s; zoom := zoom s; offset := offset s;
          last_mouse_pos := pos; current_mouse_logical := current_mouse_logical s;
          panning := true; drawing_active := drawing_active s;
          polygon_closed := polygon_closed s; snap_enabled := snap_enabled s;
          snapped_pos := snapped_pos s; has_unsaved_changes := has_unsaved_changes s |},
       None)
  | _ =>
      if negb (drawing_active s) || polygon_closed s then (s, None)
      else
        match b with
        | LeftButton =>
            let logical_pos := screen_to_logical s pos in
            match get_snapped_logical s logical_pos with
            | Ret pt =>
                ({| points := points s ++ [pt];
                    scale_unit_per_grid := scale_unit_per_grid s;
                    grid_size_logical := grid_size_logical s; zoom := zoom s;
                    offset := offset s; last_mouse_pos := last_mouse_pos s;
                    current_mouse_logical := current_mouse_logical s;
                    panning := panning s; drawing_active := drawing_active s;
                    polygon_closed := polygon_closed s; snap_enabled := snap_enabled s;
                    snapped_pos := snapped_pos s; has_unsaved_changes := true |},
                 None)
            | Raise e => (s, Some e)
            | OutOfFuel => (s, None)
            end
        | RightButton =>
            if (2 <? List.length (points s))%nat then
              ({| points := points s; scale_unit_per_grid := scale_unit_per_grid s;
                  grid_size_logical := grid_size_logical s; zoom := zoom s;
                  offset := offset s; last_mouse_pos := last_mouse_pos s;
                  current_mouse_logical := current_mouse_logical s;
                  panning := panning s; drawing_active := false;
                  polygon_closed := true; snap_enabled := snap_enabled s;
                  snapped_pos := snapped_pos s;
                  has_unsaved_changes := has_unsaved_changes s |},
               None)
            else (s, None)
        | _ => (s, None)
        end
  end.

Definition mouseMoveEvent (s : state) (pos : point) : state * option exn :=
  let logical_pos := screen_to_logical s pos in
  let moved :=
    {| points := points s; scale_unit_per_grid := scale_unit_per_grid s;
       grid_size_logical := grid_size_logical s; zoom := zoom s; offset := offset s;
       last_mouse_pos := last_mouse_pos s; current_mouse_logical := Some logical_pos;
       panning := panning s; drawing_active := drawing_active s;
       polygon_closed := polygon_closed s; snap_enabled := snap_enabled s;
       snapped_pos := snapped_pos s; has_unsaved_changes := has_unsaved_changes s |} in
  if panning s then
    let delta := (fst pos - fst (last_mouse_pos s), snd pos - snd (last_mouse_pos s)) in
    ({| points := points s; scale_unit_per_grid := scale_unit_per_grid s;
        grid_size_logical := grid_size_logical s; zoom := zoom s;
        offset := (fst (offset s) + fst delta, snd (offset s) + snd delta);
        last_mouse_pos := pos; current_mouse_logical := Some logical_pos;
        panning := panning s; drawing_active := drawing_active s;
        polygon_closed := polygon_closed s; snap_enabled := snap_enabled s;
        snapped_pos := snapped_pos s; has_unsaved_changes := has_unsaved_changes s |},
     None)
  else
    match get_snapped_logical s logical_pos with
    | Ret pt =>
        ({| points := points s; scale_unit_per_grid := scale_unit_per_grid s;
            grid_size_logical := grid_size_logical s; zoom := zoom s; offset := offset s;
            last_mouse_pos := last_mouse_pos s; current_mouse_logical := Some logical_pos;
            panning := panning s; drawing_active := drawing_active s;
            polygon_closed := polygon_closed s; snap_enabled := snap_enabled s;
            snapped_pos := Some pt; has_unsaved_changes := has_unsaved_changes s |},
         None)
    | Raise e => (moved, Some e)
    | OutOfFuel => (moved, None)
    end.

Definition mouseReleaseEvent (s : state) (b : button) : state :=
  match b with
  | MiddleButton =>
      {| points := points s; scale_unit_per_grid := scale_unit_per_grid s;
         grid_size_logical := grid_size_logical s; zoom := zoom s; offset := offset s;
         last_mouse_pos := last_mouse_pos s; current_mouse_logical := current_mouse_logical s;
         panning := false; drawing_active := drawing_active s;
         polygon_closed := polygon_closed s; snap_enabled := snap_enabled s;
         snapped_pos := snapped_pos s; has_unsaved_changes := has_unsaved_changes s |}
  | _ => s
  end.

Definition reset (s : state) : state :=
  {| points := []; scale_unit_per_grid := scale_unit_per_grid s;
     grid_size_logical := grid_size_logical s; zoom := zoom s; offset := offset s;
     last_mouse_pos := last_mouse_pos s; current_mouse_logical := current_mouse_logical s;
     panning := panning s; drawing_active := true;
     polygon_closed := false; snap_enabled := snap_enabled s;
     snapped_pos := snapped_pos s; has_unsaved_changes := false |}.

(** [get_coordinates_in_ft], with the unit system it reads from [UNITS]. *)
Definition get_coordinates_in_ft (current_system : Z) (s : state) : list point :=
  let factor := scale_unit_per_grid s / grid_size_logical s in
  let user_coords := map (fun p => (fst p * factor, snd p * factor)) (points s) in
  if (current_system =? UnitManager.METRIC)%Z then
    map (fun xy => (fst xy / UnitManager.FT_TO_M, snd xy / UnitManager.FT_TO_M)) user_coords
  else user_coords.

(** What the user and the toolbar can do to the canvas. *)
Inductive event : Type :=
| Press (b : button) (pos : point)
| Move (pos : point)
| Release (b : button)
| Wheel (pos : point) (angle : Z)
| Reset
| SetSnap (enabled : bool)
| SetScale (val : Z).

Definition handle (s : state) (ev : event) : state :=
  match ev with
  | Press b pos => fst (mousePressEvent s b pos)
  | Move pos => fst (mouseMoveEvent s pos)
  | Release b => mouseReleaseEvent s b
  | Wheel pos angle => wheelEvent s pos angle
  | Reset => reset s
  | SetSnap enabled => set_snap s enabled
  | SetScale val => set_scale s val
  end.

(** What holds of a canvas whatever the user did. *)
Definition coherent (s : state) : Prop :=
  drawing_active s = negb (polygon_closed s) /\
  (polygon_closed s = true -> (3 <= List.length (points s))%nat) /\
  grid_size_logical s = 40.0 /\
  (has_unsaved_changes s = true -> points s <> []).

(** A node of the grid. *)
Definition on_grid (p : point) : Prop :=
  exists kx ky : Z, p = (Py.float_of_int kx * 40.0, Py.float_of_int ky * 40.0).

End CADCanvas.

(** ** MainWindow: the analysis and the paging of its solutions *)

Module MainWindow.

Open Scope string_scope.
Open Scope list_scope.

(** Exceptions of the window methods, beside the ones of the engine. *)
Inductive app_exn : Type :=
| EngineError (e : exn)
| ZeroDivisionError (msg : string)
| KeyError (key : string)
| IndexError (msg : string).

(** How a method ends: it returns, it raises, or a scan of the engine ran
    out of fuel. *)
Inductive ending (A : Type) : Type :=
| Done (a : A)
| Failed (e : app_exn)
| Unfinished.

Arguments Done {A} a.
Arguments Failed {A} e.
Arguments Unfinished {A}.

Definition of_outcome {A : Type} (o : outcome A) : ending A :=
  match o with
  | Ret a => Done a
  | Raise e => Failed (EngineError e)
  | OutOfFuel => Unfinished
  end.

Definition then_ {A B : Type} (r : ending A) (k : A -> ending B) : ending B :=
  match r with
  | Done a => k a
  | Failed e => Failed e
  | Unfinished => Unfinished
  end.

Notation "x <~ r ;; k" := (then_ r (fun x => k))
  (at level 61, r at next level, right associativity).

(** [x / n] for a float [x] and an int [n]. *)
Definition float_div_int (x : float) (n : Z) : ending float :=
  if (n =? 0)%Z then Failed (ZeroDivisionError "float division by zero")
  else if negb (Py.isfinite (Py.float_of_int n))
       then Failed (EngineError (OverflowError "int too large to convert to float"))
       else Done (x / Py.float_of_int n).

(** A warning of the report: a fixed text, or one of the two texts that
    print a float. *)
Inductive warning : Type :=
| Warning (text : string)
| RatingTooLow (req_b : float)
| NotCovered (safety_factor : float).

(** An entry of [NFPA_DATA["A"]]; a missing key is KeyError. *)
Record nfpa_entry : Type := {
  max_area_per_unit_a : Z;
  max_area_per_ext : Z;
  travel_dist : Z
}.

Definition NFPA_DATA_A (hz_class : string) : option nfpa_entry :=
  if String.eqb hz_class "Light" then
    Some {| max_area_per_unit_a := 3000; max_area_per_ext := 11250; travel_dist := 75 |}
  else if String.eqb hz_class "Ordinary" then
    Some {| max_area_per_unit_a := 1500; max_area_per_ext := 11250; travel_dist := 75 |}
  else if String.eqb hz_class "Extra" then
    Some {| max_area_per_unit_a := 1000; max_area_per_ext := 11250; travel_dist := 75 |}
  else None.

(** The items of the two combo boxes that cannot be edited. *)
Definition hazard_class_items : list string :=
  ["Light Hazard"; "Ordinary Hazard"; "Extra Hazard"].

Definition hazard_type_items : list string :=
  [ "Class A (Ordinary Combustibles)"; "Class B (Spill Fires)";
    "Class B (Appreciable Depth)"; "Class C (Electrical Equipment)";
    "Class K (Cooking)"; "Class D (Metals)" ].

(** [float(text)] of Python. *)
Class PyFloat : Type := {
  float_of_string : string -> outcome float
}.

(** [Polygon(pts)], [poly.is_valid] and [poly.buffer(0)]. *)
Class Builder (Geo : Shapely) : Type := {
  polygon_of_coords : list point -> outcome Polygon;
  is_valid : Polygon -> bool;
  buffer_zero : Polygon -> outcome Polygon
}.

(** What [run_analysis] reads from the input tab. *)
Record form : Type := {
  project_name : string;
  hazard_class : string;
  hazard_type : string;
  rating_combo : string;
  liquid_area : string;
  safety_factor_spin : float
}.

(** The hazard rules of [run_analysis]: the required travel distance, the
    least quantity by area and the warnings, or the dialog of the code
    violation, after which the method returns. *)
Inductive requirements : Type :=
| Required (req_dist min_qty_area : Z) (warnings : list warning)
| CodeViolation.

Definition hazard_rules {Txt : PyFloat} (current_system : Z)
  (hz_class hz_type rating_str : string) (ratings : RatingParser.ratings)
  (area_sqft : float) (liquid_area_text : string) : ending requirements :=
  let warnings : list warning := [] in
  let req_dist := 75%Z in
  let min_qty_area := 0%Z in
  if Builtins.contains_sub "Class A" hz_type then
    match NFPA_DATA_A hz_class with
    | None => Failed (KeyError hz_class)
    | Some reqs =>
        let warnings :=
          if String.eqb hz_class "Light" && (RatingParser.rating_A ratings <? 2)%Z
          then warnings ++ [Warning "Light Hazard requires 2-A min."] else warnings in
        let warnings :=
          if String.eqb hz_class "Ordinary" && (RatingParser.rating_A ratings <? 2)%Z
          then warnings ++ [Warning "Ordinary Hazard requires 2-A min."] else warnings in
        let warnings :=
          if String.eqb hz_class "Extra" && (RatingParser.rating_A ratings <? 4)%Z
          then warnings ++ [Warning "Extra Hazard requires 4-A min (or two 2.5 gal water units)."]
          else warnings in
        let max_area_unit :=
          Z.min (RatingParser.rating_A ratings * max_area_per_unit_a reqs)
                (max_area_per_ext reqs) in
        quotient <~ float_div_int area_sqft max_area_unit ;;
        min_qty_area <~ of_outcome (Builtins.ceil quotient) ;;
        Done (Required req_dist min_qty_area warnings)
    end
  else if Builtins.contains_sub "Spill" hz_type then
    let req_dist := 30%Z in
    let rating_b := RatingParser.rating_B ratings in
    let '(req_dist, warnings) :=
      if String.eqb hz_class "Light" then
        if (10 <=? rating_b)%Z then (50%Z, warnings)
        else if (rating_b <? 5)%Z
             then (req_dist, warnings ++ [Warning "Light Hazard Spill requires 5-B min."])
             else (req_dist, warnings)
      else if String.eqb hz_class "Ordinary" then
        if (20 <=? rating_b)%Z then (50%Z, warnings)
        else if (rating_b <? 10)%Z
             then (req_dist, warnings ++ [Warning "Ordinary Hazard Spill requires 10-B min."])
             else (req_dist, warnings)
      else if String.eqb hz_class "Extra" then
        if (80 <=? rating_b)%Z then (50%Z, warnings)
        else if (rating_b <? 40)%Z
             then (req_dist, warnings ++ [Warning "Extra Hazard Spill requires 40-B min."])
             else (req_dist, warnings)
      else (req_dist, warnings) in
    Done (Required req_dist 0 warnings)
  else if Builtins.contains_sub "Appreciable Depth" hz_type then
    let req_dist := 50%Z in
    l_area <~ (if String.eqb liquid_area_text "" then Done 0
               else of_outcome (float_of_string liquid_area_text)) ;;
    let l_area := if (current_system =? UnitManager.METRIC)%Z then (l_area * 10.7639)%float else l_area in
    if (10.0 <? l_area)%float then Done CodeViolation
    else
      let req_b := (l_area * 2)%float in
      let warnings :=
        if Builtins.int_lt_float (RatingParser.rating_B ratings) req_b
        then warnings ++ [RatingTooLow req_b] else warnings in
      Done (Required req_dist 0 warnings)
  else if Builtins.contains_sub "Class C" hz_type then
    let req_dist := 75%Z in
    let warnings :=
      if negb (RatingParser.rating_C ratings)
      then warnings ++ [Warning "Must be Class C listed (Non-Conductive)."] else warnings in
    let warnings :=
      if Builtins.contains_sub "Dry" rating_str
         || (Builtins.contains_sub "A" rating_str && Builtins.contains_sub "B" rating_str
             && Builtins.contains_sub "C" rating_str)
      then warnings ++ [Warning "WARNING: Dry chemical extinguishers should not be used on sensitive electronic equipment (NFPA 10 5.5.4.6.2)."]
      else warnings in
    Done (Required req_dist min_qty_area warnings)
  else if Builtins.contains_sub "Class K" hz_type then
    let req_dist := 30%Z in
    let warnings :=
      if negb (RatingParser.rating_K ratings)
      then warnings ++ [Warning "Must be Class K listed."] else warnings in
    Done (Required req_dist 0 warnings)
  else if Builtins.contains_sub "Class D" hz_type then
    let req_dist := 75%Z in
    let warnings :=
      if negb (RatingParser.rating_D ratings)
      then warnings ++ [Warning "Must be Class D listed."] else warnings in
    Done (Required req_dist 0 warnings)
  else Done (Required req_dist min_qty_area warnings).

(** [last_analysis_meta] *)
Record meta : Type := {
  area_sqft : float;
  req_dist : Z;
  safety_factor : float;
  min_qty_area : Z;
  warnings : list warning;
  inputs_project : string;
  inputs_class : string;
  inputs_type : string;
  inputs_rating : string
}.

(** What [update_result] gives to [ReportEngine.generate_html]. *)
Record report : Type := {
  option_name : string;
  current_warnings : list warning;
  final_qty : Z;
  dist_qty : Z
}.

(** The fields of the window that the analysis and the paging read and
    write, and the widgets [update_result] sets. *)
Record window (Geo : Shapely) : Type := {
  generated_solutions : list solution;
  current_solution_idx : Z;
  last_analysis_meta : option meta;
  last_polygon : option Polygon;
  opt_lbl : string;
  report_view : option report;
  prev_enabled : bool;
  next_enabled : bool;
  messages : list string
}.

Arguments generated_solutions {Geo} w.
Arguments current_solution_idx {Geo} w.
Arguments last_analysis_meta {Geo} w.
Arguments last_polygon {Geo} w.
Arguments opt_lbl {Geo} w.
Arguments report_view {Geo} w.
Arguments prev_enabled {Geo} w.
Arguments next_enabled {Geo} w.
Arguments messages {Geo} w.

(** [__init__] leaves no solution, no analysis and no polygon. *)
Definition init {Geo : Shapely} : window Geo := {|
  generated_solutions := [];
  current_solution_idx := 0;
  last_analysis_meta := None;
  last_polygon := None;
  opt_lbl := "Option 1 of 3";
  report_view := None;
  prev_enabled := true;
  next_enabled := true;
  messages := []
|}.

Section Methods.

Context {Math : PyMath} {Geo : Shapely} {Ovl : Overlay Geo} {Bld : Builder Geo}
  {Txt : PyFloat}.

(** The verifier as [update_result] calls it, on [self.last_polygon]:
    with no polygon yet, the operations on it raise inside the [try]. *)
Definition is_covered (w : window Geo) (pts : list point) (m : meta) : ending bool :=
  match last_polygon w with
  | Some poly =>
      of_outcome
        (fst (check_geometric_coverage poly pts (Py.float_of_int (req_dist m))
                (safety_factor m)))
  | None => Done (match pts with [] => false | _ => true end)
  end.

(** [update_result], without the three calls between the verifier and
    the buttons: [ReportEngine.generate_html], [report_view.setHtml] and
    [plot_map] draw through Qt and matplotlib from the current canvas and
    can raise there.  The model is the method when they return: [Done]
    stands for a return of the method only then, and a failure of the
    model is one of the method, at the same place. *)
Definition update_result (w : window Geo) : window Geo * ending unit :=
  match Builtins.index (generated_solutions w) (current_solution_idx w) with
  | None => (w, Failed (IndexError "list index out of range"))
  | Some sol =>
      let pts := points sol in
      let label :=
        (name sol ++ " (" ++ Builtins.str_of_int (current_solution_idx w + 1) ++ " of "
         ++ Builtins.str_of_int (Z.of_nat (List.length (generated_solutions w))) ++ ")")%string
      in
      let labelled :=
        {| generated_solutions := generated_solutions w;
           current_solution_idx := current_solution_idx w;
           last_analysis_meta := last_analysis_meta w;
           last_polygon := last_polygon w;
           opt_lbl := label;
           report_view := report_view w;
           prev_enabled := prev_enabled w;
           next_enabled := next_enabled w;
           messages := messages w |} in
      let qty_dist := Z.of_nat (List.length pts) in
      match last_analysis_meta w with
      | None => (labelled, Failed (KeyError "min_qty_area"))
      | Some m =>
          let qty_final := Z.max qty_dist (min_qty_area m) in
          match is_covered w pts m with
          | Done covered =>
              let shown_warnings :=
                if covered then warnings m
                else warnings m ++ [NotCovered (safety_factor m)] in
              ({| generated_solutions := generated_solutions w;
                  current_solution_idx := current_solution_idx w;
                  last_analysis_meta := last_analysis_meta w;
                  last_polygon := last_polygon w;
                  opt_lbl := label;
                  report_view :=
                    Some {| option_name := name sol; current_warnings := shown_warnings;
                            final_qty := qty_final; dist_qty := qty_dist |};
                  prev_enabled := (0 <? current_solution_idx w)%Z;
                  next_enabled :=
                    (current_solution_idx w
                     <? Z.of_nat (List.length (generated_solutions w)) - 1)%Z;
                  messages := messages w |},
               Done tt)
          | Failed e => (labelled, Failed e)
          | Unfinished => (labelled, Unfinished)
          end
      end
  end.

Definition change_sol (w : window Geo) (delta : Z) : window Geo * ending unit :=
  update_result
    {| generated_solutions := generated_solutions w;
       current_solution_idx :=
         Z.max 0 (Z.min (Z.of_nat (List.length (generated_solutions w)) - 1)
                        (current_solution_idx w + delta));
       last_analysis_meta := last_analysis_meta w;
       last_polygon := last_polygon w;
       opt_lbl := opt_lbl w;
       report_view := report_view w;
       prev_enabled := prev_enabled w;
       next_enabled := next_enabled w;
       messages := messages w |}.

Definition with_message (w : window Geo) (text : string) : window Geo :=
  {| generated_solutions := generated_solutions w;
     current_solution_idx := current_solution_idx w;
     last_analysis_meta := last_analysis_meta w;
     last_polygon := last_polygon w;
     opt_lbl := opt_lbl w;
     report_view := report_view w;
     prev_enabled := prev_enabled w;
     next_enabled := next_enabled w;
     messages := messages w ++ [text] |}.

Definition with_polygon (w : window Geo) (poly : Polygon) : window Geo :=
  {| generated_solutions := generated_solutions w;
     current_solution_idx := current_solution_idx w;
     last_analysis_meta := last_analysis_meta w;
     last_polygon := Some poly;
     opt_lbl := opt_lbl w;
     report_view := report_view w;
     prev_enabled := prev_enabled w;
     next_enabled := next_enabled w;
     messages := messages w |}.

Definition saved (cad : CADCanvas.state) : CADCanvas.state :=
  {| CADCanvas.points := CADCanvas.points cad;
     CADCanvas.scale_unit_per_grid := CADCanvas.scale_unit_per_grid cad;
     CADCanvas.grid_size_logical := CADCanvas.grid_size_logical cad;
     CADCanvas.zoom := CADCanvas.zoom cad;
     CADCanvas.offset := CADCanvas.offset cad;
     CADCanvas.last_mouse_pos := CADCanvas.last_mouse_pos cad;
     CADCanvas.current_mouse_logical := CADCanvas.current_mouse_logical cad;
     CADCanvas.panning := CADCanvas.panning cad;
     CADCanvas.drawing_active := CADCanvas.drawing_active cad;
     CADCanvas.polygon_closed := CADCanvas.polygon_closed cad;
     CADCanvas.snap_enabled := CADCanvas.snap_enabled cad;
     CADCanvas.snapped_pos := CADCanvas.snapped_pos cad;
     CADCanvas.has_unsaved_changes := false |}.

(** [run_analysis]: the window and the canvas it leaves, and how it ends.
    An assignment made before an exception or an early return stays. *)
Definition run_analysis (fuel : nat) (HAS_SHAPELY : bool) (current_system : Z)
  (input : form) (cad : CADCanvas.state) (w : window Geo)
  : window Geo * CADCanvas.state * ending unit :=
  if negb HAS_SHAPELY then
    (with_message w "Shapely library missing. Install via: pip install shapely", cad, Done tt)
  else
    let pts := CADCanvas.get_coordinates_in_ft current_system cad in
    if (List.length pts <? 3)%nat then
      (with_message w "Draw a closed area first.", cad, Done tt)
    else
      match polygon_of_coords pts with
      | Raise e => (w, cad, Failed (EngineError e))
      | OutOfFuel => (w, cad, Unfinished)
      | Ret poly =>
          match (if is_valid poly then Ret poly else buffer_zero poly) with
          | Raise e => (w, cad, Failed (EngineError e))
          | OutOfFuel => (w, cad, Unfinished)
          | Ret poly =>
              let w := with_polygon w poly in
              let rating_str := rating_combo input in
              let prepared :=
                hz_class <~ match Builtins.first_word (hazard_class input) with
                            | Some word => Done word
                            | None => Failed (IndexError "list index out of range")
                            end ;;
                ratings <~ of_outcome (RatingParser.parse rating_str) ;;
                area_sqft <~ of_outcome (area poly) ;;
                rules <~ hazard_rules current_system hz_class (hazard_type input)
                           rating_str ratings area_sqft (liquid_area input) ;;
                Done (hz_class, area_sqft, rules) in
              match prepared with
              | Failed e => (w, cad, Failed e)
              | Unfinished => (w, cad, Unfinished)
              | Done (_, _, CodeViolation) =>
                  (with_message w "Code Violation", cad, Done tt)
              | Done (hz_class, area_sqft, Required req_dist min_qty_area warnings) =>
                  match generate_multiple_solutions fuel poly (Py.float_of_int req_dist)
                          (safety_factor_spin input) with
                  | Raise e => (w, cad, Failed (EngineError e))
                  | OutOfFuel => (w, cad, Unfinished)
                  | Ret solutions =>
                      let m :=
                        {| area_sqft := area_sqft; req_dist := req_dist;
                           safety_factor := safety_factor_spin input;
                           min_qty_area := min_qty_area; warnings := warnings;
                           inputs_project :=
                             if String.eqb (project_name input) "" then "Untitled Project"
                             else project_name input;
                           inputs_class := hz_class;
                           inputs_type := hazard_type input;
                           inputs_rating := rating_str |} in
                      let w :=
                        {| generated_solutions := solutions;
                           current_solution_idx := 0;
                           last_analysis_meta := Some m;
                           last_polygon := last_polygon w;
                           opt_lbl := opt_lbl w;
                           report_view := report_view w;
                           prev_enabled := prev_enabled w;
                           next_enabled := next_enabled w;
                           messages := messages w |} in
                      match update_result w with
                      | (w, Done _) => (w, saved cad, Done tt)
                      | (w, other) => (w, cad, other)
                      end
                  end
              end
          end
      end.

(** The fields an analysis leaves as they were when it does not come to
    its solutions. *)
Definition kept (w w' : window Geo) : Prop :=
  generated_solutions w' = generated_solutions w /\
  current_solution_idx w' = current_solution_idx w /\
  last_analysis_meta w' = last_analysis_meta w /\
  report_view w' = report_view w /\
  opt_lbl w' = opt_lbl w /\
  prev_enabled w' = prev_enabled w /\
  next_enabled w' = next_enabled w.

(** What holds of the window whatever was done to it. *)
Definition consistent (w : window Geo) : Prop :=
  (generated_solutions w = [] /\ last_analysis_meta w = None /\
   current_solution_idx w = 0%Z)
  \/
  (List.length (generated_solutions w) = 3%nat /\ last_analysis_meta w <> None /\
   last_polygon w <> None /\ (0 <= current_solution_idx w <= 2)%Z).

(** The slots that write these fields, as the buttons call them: the
    analysis with what it reads, and the paging by [delta].  An exception
    of a slot goes to the hook of the application, which shows it and
    lets the window go on with what was assigned. *)
Inductive action : Type :=
| Analyse (fuel : nat) (HAS_SHAPELY : bool) (current_system : Z) (input : form)
    (cad : CADCanvas.state)
| Page (delta : Z).

Definition perform (w : window Geo) (a : action) : window Geo :=
  match a with
  | Analyse fuel HAS_SHAPELY current_system input cad =>
      fst (fst (run_analysis fuel HAS_SHAPELY current_system input cad w))
  | Page delta => fst (change_sol w delta)
  end.

End Methods.

End MainWindow.

(** ** Stand-ins for the examples of the application

    [Polygon(pts)] on the four corners of an axis-aligned rectangle, given
    counter-clockwise from the lower left one, and [float(text)] on a run
    of decimal digits; other inputs are outside what the stand-ins
    compute. *)

Module RectApp.

#[global] Instance builder : MainWindow.Builder Rect.shapely := {|
  MainWindow.polygon_of_coords pts :=
    match pts with
    | [(a, b); (c, b'); (c', d); (a', d')] =>
        if (a =? a') && (c =? c') && (b =? b') && (d =? d')
        then Ret {| Rect.x0 := a; Rect.y0 := b; Rect.x1 := c; Rect.y1 := d |}
        else Raise (GEOSException "Polygon: not computed")
    | _ => Raise (GEOSException "Polygon: not computed")
    end;
  MainWindow.is_valid r := (Rect.x0 r <? Rect.x1 r) && (Rect.y0 r <? Rect.y1 r);
  MainWindow.buffer_zero r := Raise (GEOSException "buffer: not computed")
|}.

#[global] Instance text : MainWindow.PyFloat := {|
  MainWindow.float_of_string s :=
    match NilEmpty.uint_of_string s with
    | Some (Decimal.Nil) | None => Raise (ValueError "could not convert string to float")
    | Some d => Ret (Py.float_of_int (Z.of_N (N.of_uint d)))
    end
|}.

(** The hall, drawn at 5 ft per grid cell of 40 pixels and closed. *)
Definition hall_clicks : list CADCanvas.event :=
  [ CADCanvas.Press CADCanvas.LeftButton (0, 0);
    CADCanvas.Press CADCanvas.LeftButton (801, 3);
    CADCanvas.Press CADCanvas.LeftButton (799, 398);
    CADCanvas.Press CADCanvas.LeftButton (2, 401);
    CADCanvas.Press CADCanvas.RightButton (2, 401) ].

Definition hall_canvas : CADCanvas.state :=
  fold_left CADCanvas.handle hall_clicks CADCanvas.init.

Definition office : MainWindow.form := {|
  MainWindow.project_name := "";
  MainWindow.hazard_class := "Light Hazard";
  MainWindow.hazard_type := "Class A (Ordinary Combustibles)";
  MainWindow.rating_combo := "4-A:60-B:C";
  MainWindow.liquid_area := "0";
  MainWindow.safety_factor_spin := 1.0
|}.

(** The same form with the entry of the ratings for metal fires, and for
    a tank of 12 square feet. *)
Definition workshop : MainWindow.form := {|
  MainWindow.project_name := "";
  MainWindow.hazard_class := "Light Hazard";
  MainWindow.hazard_type := "Class A (Ordinary Combustibles)";
  MainWindow.rating_combo := "Class D (Metal)";
  MainWindow.liquid_area := "0";
  MainWindow.safety_factor_spin := 1.0
|}.

Definition tank : MainWindow.form := {|
  MainWindow.project_name := "";
  MainWindow.hazard_class := "Extra Hazard";
  MainWindow.hazard_type := "Class B (Appreciable Depth)";
  MainWindow.rating_combo := "40-A:240-B:C";
  MainWindow.liquid_area := "12";
  MainWindow.safety_factor_spin := 1.0
|}.

(** The hall with its four corners clicked and the outline left open. *)
Definition open_hall_canvas : CADCanvas.state :=
  fold_left CADCanvas.handle (firstn 4 hall_clicks) CADCanvas.init.

(** The window after the analysis of the hall for the office. *)
Definition analysed : MainWindow.window Rect.shapely :=
  MainWindow.perform MainWindow.init
    (MainWindow.Analyse 10 true 0 office hall_canvas).

End RectApp.

(** * Facts *)

(** ** Python numbers on small inputs *)

Example int_of_float_truncates :
  Py.int_of_float 3.53 = Ret 3%Z /\ Py.int_of_float (-3.5) = Ret (-3)%Z /\
  Py.int_of_float 1e22 = Ret 10000000000000000000000%Z.
Proof. repeat split; vm_compute; reflexivity. Qed.

Example int_of_float_raises :
  Py.int_of_float nan = Raise (ValueError "cannot convert float NaN to integer") /\
  Py.int_of_float infinity
  = Raise (OverflowError "cannot convert float infinity to integer").
Proof. split; reflexivity. Qed.

Example float_of_int_rounds :
  Py.float_of_int 3 = 3 /\ Py.float_of_int 9007199254740993 = 9007199254740992.
Proof. split; vm_compute; reflexivity. Qed.

Example range_1_4 : Py.range 1 4 = [1; 2; 3]%Z /\ Py.range 1 1 = [] /\ Py.range 1 0 = [].
Proof. repeat split. Qed.



(** ** Outcomes *)

Lemma bind_Ret_inv {A B : Type} (o : outcome A) (k : A -> outcome B) (b : B) :
  bind o k = Ret b -> exists a, o = Ret a /\ k a = Ret b.
Proof.
  destruct o as [a | e |]; simpl; intros H; try discriminate.
  exists a. split; [reflexivity | exact H].
Qed.

(** ** The order of floats through ranks *)

Module FloatOrderFacts.
Import FloatOrder.

Lemma digits2_pos_bound (m : positive) : (Zpos m < 2 ^ Zpos (digits2_pos m))%Z.
Proof.
  induction m as [m IH | m IH |]; simpl digits2_pos.
  - rewrite Pos2Z.inj_succ, Z.pow_succ_r by lia. lia.
  - rewrite Pos2Z.inj_succ, Z.pow_succ_r by lia. lia.
  - reflexivity.
Qed.

Lemma valid_finite (s : bool) (m : positive) (e : Z) :
  valid_binary (S754_finite s m e) = true ->
  (-1074 <= e <= 971 /\ Zpos m < two53)%Z.
Proof.
  unfold valid_binary, SpecFloat.valid_binary, bounded, canonical_mantissa, fexp.
  intros H. apply andb_true_iff in H. destruct H as [Hc He].
  apply Z.eqb_eq in Hc. apply Z.leb_le in He.
  change (SpecFloat.emin prec emax) with (-1074)%Z in Hc.
  change (emax - prec)%Z with 971%Z in He.
  change prec with 53%Z in Hc.
  assert (Hd : (Zpos (digits2_pos m) <= 53)%Z) by lia.
  split; [lia |].
  pose proof (digits2_pos_bound m) as Hm.
  assert (Hp : (2 ^ Zpos (digits2_pos m) <= 2 ^ 53)%Z)
    by (apply Z.pow_le_mono_r; lia).
  change (2 ^ 53)%Z with two53 in Hp. lia.
Qed.

Lemma mag_pos (s : bool) (m : positive) (e : Z) :
  valid_binary (S754_finite s m e) = true ->
  (0 < mag m e < 2048 * two53)%Z.
Proof.
  intros H. apply valid_finite in H. unfold mag, two53 in *. lia.
Qed.

Lemma mag_compare (s1 s2 : bool) (m1 m2 : positive) (e1 e2 : Z) :
  valid_binary (S754_finite s1 m1 e1) = true ->
  valid_binary (S754_finite s2 m2 e2) = true ->
  match (e1 ?= e2)%Z with
  | Lt => Lt
  | Gt => Gt
  | Eq => Pos.compare_cont Eq m1 m2
  end = (mag m1 e1 ?= mag m2 e2)%Z.
Proof.
  intros H1 H2. apply valid_finite in H1, H2.
  unfold mag, two53 in *. symmetry.
  destruct (Z.compare_spec e1 e2) as [He | He | He].
  - subst e2. change (Pos.compare_cont Eq m1 m2) with (Zpos m1 ?= Zpos m2)%Z.
    destruct (Z.compare_spec (Zpos m1) (Zpos m2)) as [Hm | Hm | Hm].
    + apply Z.compare_eq_iff. lia.
    + apply Z.compare_lt_iff. lia.
    + apply Z.compare_gt_iff. lia.
  - apply Z.compare_lt_iff. lia.
  - apply Z.compare_gt_iff. lia.
Qed.

Lemma sf_compare_rank (a b : spec_float) :
  valid_binary a = true -> valid_binary b = true ->
  sf_is_nan a = false -> sf_is_nan b = false ->
  SFcompare a b = Some (sf_rank a ?= sf_rank b)%Z.
Proof.
  intros Va Vb Na Nb.
  destruct a as [sa | sa | | sa ma ea]; try discriminate;
    destruct b as [sb | sb | | sb mb eb]; try discriminate;
    try pose proof (mag_pos _ _ _ Va) as Ha;
    try pose proof (mag_pos _ _ _ Vb) as Hb;
    try pose proof (mag_compare _ _ _ _ _ _ Va Vb) as Hab;
    unfold SFcompare, sf_rank;
    try destruct sa; try destruct sb; f_equal; symmetry;
    try reflexivity;
    try (apply Z.compare_lt_iff; unfold two53 in *; lia);
    try (apply Z.compare_gt_iff; unfold two53 in *; lia).
  - rewrite Z.compare_opp. rewrite <- (mag_compare _ _ _ _ _ _ Vb Va).
    rewrite (Z.compare_antisym eb ea).
    destruct (eb ?= ea)%Z; simpl; try reflexivity.
    rewrite Pos.compare_cont_antisym. reflexivity.
  - rewrite <- Hab. reflexivity.
Qed.

Lemma compare_rank (x y : float) :
  is_NaN x = false -> is_NaN y = false ->
  SFcompare (Prim2SF x) (Prim2SF y) = Some (rank x ?= rank y)%Z.
Proof.
  intros Nx Ny. apply sf_compare_rank; auto using Prim2SF_valid.
Qed.

Lemma compare_NaN (x y : float) :
  is_NaN x = true \/ is_NaN y = true ->
  SFcompare (Prim2SF x) (Prim2SF y) = None.
Proof.
  unfold is_NaN. intros [H | H].
  - destruct (Prim2SF x); try discriminate. reflexivity.
  - destruct (Prim2SF y); try discriminate; destruct (Prim2SF x); reflexivity.
Qed.

Lemma ltb_rank (x y : float) :
  (x <? y) = negb (is_NaN x) && negb (is_NaN y) && (rank x <? rank y)%Z.
Proof.
  rewrite ltb_spec. unfold SFltb, Z.ltb.
  destruct (is_NaN x) eqn:Nx; [rewrite compare_NaN by auto; reflexivity |].
  destruct (is_NaN y) eqn:Ny; [rewrite compare_NaN by auto; reflexivity |].
  rewrite compare_rank by assumption. reflexivity.
Qed.

Lemma leb_rank (x y : float) :
  (x <=? y) = negb (is_NaN x) && negb (is_NaN y) && (rank x <=? rank y)%Z.
Proof.
  rewrite leb_spec. unfold SFleb, Z.leb.
  destruct (is_NaN x) eqn:Nx; [rewrite compare_NaN by auto; reflexivity |].
  destruct (is_NaN y) eqn:Ny; [rewrite compare_NaN by auto; reflexivity |].
  rewrite compare_rank by assumption. simpl.
  destruct (rank x ?= rank y)%Z; reflexivity.
Qed.

Lemma ltb_true (x y : float) :
  (x <? y) = true -> is_NaN x = false /\ is_NaN y = false /\ (rank x < rank y)%Z.
Proof.
  rewrite ltb_rank. intros H.
  apply andb_true_iff in H. destruct H as [H Hr].
  apply andb_true_iff in H. destruct H as [Hx Hy].
  apply negb_true_iff in Hx, Hy. apply Z.ltb_lt in Hr. auto.
Qed.

Lemma ltb_false (x y : float) :
  is_NaN x = false -> is_NaN y = false ->
  (x <? y) = false -> (rank y <= rank x)%Z.
Proof.
  intros Nx Ny. rewrite ltb_rank, Nx, Ny. simpl. intros H.
  apply Z.ltb_ge in H. exact H.
Qed.

Lemma ltb_of_rank (x y : float) :
  is_NaN x = false -> is_NaN y = false -> (rank x < rank y)%Z -> (x <? y) = true.
Proof.
  intros Nx Ny H. rewrite ltb_rank, Nx, Ny. simpl. apply Z.ltb_lt. exact H.
Qed.

End FloatOrderFacts.

(** ** Scans that advance end *)

Lemma visited_shift (start step : float) (k : nat) :
  visited start step (S k) = visited (start + step) step k.
Proof.
  unfold visited. exact (Nat.iter_succ_r k float (fun v => v + step) start).
Qed.

Lemma advances_leaves (start step bound : float) :
  advances start step bound ->
  exists n : nat, (visited start step n <? bound) = false.
Proof.
  intros Hadv.
  assert (Hm : forall (m k : nat),
             (forall j, (j <= k)%nat -> (visited start step j <? bound) = true) ->
             (FloatOrder.rank bound - FloatOrder.rank (visited start step k)
              <= Z.of_nat m)%Z ->
             exists n : nat, (visited start step n <? bound) = false).
  { induction m as [| m IH]; intros k Hrun Hgap.
    - pose proof (Hrun k (le_n k)) as Hk.
      apply FloatOrderFacts.ltb_true in Hk. lia.
    - destruct (visited start step (S k) <? bound) eqn:Hnext.
      + apply (IH (S k)).
        * intros j Hj. destruct (Nat.eq_dec j (S k)) as [-> | Hne];
            [exact Hnext | apply Hrun; lia].
        * pose proof (Hadv k Hrun) as Hstep.
          apply FloatOrderFacts.ltb_true in Hstep. lia.
      + exists (S k). exact Hnext. }
  destruct (visited start step 0 <? bound) eqn:H0.
  - apply (Hm (Z.to_nat (FloatOrder.rank bound - FloatOrder.rank (visited start step 0))) 0%nat).
    + intros j Hj. replace j with 0%nat by lia. exact H0.
    + lia.
  - exists 0%nat. exact H0.
Qed.

(** ** The scan loop *)

Lemma while_lt_returns {A : Type} (bound step : float) (body : float -> A -> outcome A) :
  (forall v a, exists a', body v a = Ret a') ->
  forall (n : nat) (start : float) (acc : A) (fuel : nat),
    (visited start step n <? bound) = false -> (n < fuel)%nat ->
    exists r, while_lt fuel bound step start acc body = Ret r.
Proof.
  intros Hbody. induction n as [| n IH]; intros start acc fuel Hout Hfuel.
  - destruct fuel as [| fuel]; [lia |]. simpl in *. unfold visited in Hout. simpl in Hout.
    rewrite Hout. eauto.
  - destruct fuel as [| fuel]; [lia |]. simpl.
    destruct (start <? bound); [| eauto].
    destruct (Hbody start acc) as [a' Ha']. rewrite Ha'. simpl.
    apply IH; [| lia]. rewrite <- visited_shift. exact Hout.
Qed.

Lemma while_lt_stuck {A : Type} (bound step v : float) (body : float -> A -> outcome A) :
  (v <? bound) = true -> v + step = v ->
  (forall a, exists a', body v a = Ret a') ->
  forall (fuel : nat) (acc : A), while_lt fuel bound step v acc body = OutOfFuel.
Proof.
  intros Hin Hsame Hbody. induction fuel as [| fuel IH]; intros acc; simpl.
  - reflexivity.
  - rewrite Hin. destruct (Hbody acc) as [a' Ha']. rewrite Ha'. simpl.
    rewrite Hsame. apply IH.
Qed.

Lemma while_lt_first_diverges {A : Type} (bound step v : float) (acc : A)
  (body : float -> A -> outcome A) :
  (v <? bound) = true -> body v acc = OutOfFuel ->
  forall fuel : nat, while_lt fuel bound step v acc body = OutOfFuel.
Proof.
  intros Hin Hbody [| fuel]; simpl; [reflexivity |].
  rewrite Hin, Hbody. reflexivity.
Qed.

(** ** The generators end when their scans advance *)

Section Termination.

Context {Math : PyMath} {Geo : Shapely}.

Lemma int_of_float_terminates (x : float) : terminates (Py.int_of_float x).
Proof.
  unfold terminates, Py.int_of_float. destruct (Prim2SF x); discriminate.
Qed.

Lemma find_internal_spot_terminates (poly : Polygon) (v : point) (radius : float) :
  terminates (find_internal_spot poly v radius).
Proof.
  unfold terminates, find_internal_spot.
  destruct (hypot _ _ =? 0); [discriminate |].
  pose proof (int_of_float_terminates
                (hypot (fst (representative_point poly) - fst v)
                       (snd (representative_point poly) - snd v) / 2)) as Hi.
  unfold terminates in Hi.
  destruct (Py.int_of_float _); simpl; [discriminate | discriminate | contradiction].
Qed.

Lemma cover_vertices_terminates (poly : Polygon) (radius : float) (tps : list point) :
  forall fps : list point, terminates (cover_vertices poly radius tps fps).
Proof.
  induction tps as [| tp tps IH]; intros fps; simpl.
  - discriminate.
  - destruct (radius <? distance fps tp); [| apply IH].
    pose proof (find_internal_spot_terminates poly tp radius) as Hs.
    unfold terminates in *.
    destruct (find_internal_spot poly tp radius); simpl;
      [apply IH | discriminate | contradiction].
Qed.

Lemma ensure_coverage_terminates (poly : Polygon) (pts : list point) (radius : float) :
  terminates (ensure_coverage poly pts radius).
Proof.
  unfold ensure_coverage. apply cover_vertices_terminates.
Qed.

Lemma grid_scan_returns (poly : Polygon) (radius : float) (offset_ratio : float * float) :
  grid_advances poly radius offset_ratio ->
  exists fuel0 : nat, forall fuel : nat, (fuel0 <= fuel)%nat ->
    exists pts, grid_scan fuel poly radius offset_ratio = Ret pts.
Proof.
  unfold grid_advances, grid_scan.
  destruct (bounds poly) as [[[minx miny] maxx] maxy].
  intros [Hx Hy].
  apply advances_leaves in Hx, Hy.
  destruct Hx as [nx Hx]. destruct Hy as [ny Hy].
  exists (S (Nat.max nx ny)). intros fuel Hfuel.
  apply (while_lt_returns _ _ _) with (n := nx); [| exact Hx | lia].
  intros x acc.
  apply (while_lt_returns _ _ _) with (n := ny); [| exact Hy | lia].
  intros y a. eauto.
Qed.

Lemma hex_scan_returns (poly : Polygon) (radius : float) :
  hex_advances poly radius ->
  exists fuel0 : nat, forall fuel : nat, (fuel0 <= fuel)%nat ->
    exists pts, hex_scan fuel poly radius = Ret pts.
Proof.
  unfold hex_advances, hex_scan.
  destruct (bounds poly) as [[[minx miny] maxx] maxy].
  intros (Hy & He & Ho).
  apply advances_leaves in Hy, He, Ho.
  destruct Hy as [ny Hy]. destruct He as [ne He]. destruct Ho as [no Ho].
  exists (S (Nat.max ny (Nat.max ne no))). intros fuel Hfuel.
  match goal with
  | |- exists pts, bind ?w _ = _ =>
      assert (Hw : exists st, w = Ret st)
  end.
  { apply (while_lt_returns _ _ _) with (n := ny); [| exact Hy | lia].
    intros y [pts row].
    destruct (row mod 2 =? 0)%Z.
    - destruct (while_lt_returns (maxx + radius) (radius * 1.732 * 0.95)
                  (fun x points => Ret (keep_inside poly x y points))
                  (fun v a => ex_intro _ _ eq_refl) ne
                  (minx + 0 + radius / 2) pts fuel He ltac:(lia)) as [r Hr].
      rewrite Hr. simpl. eauto.
    - destruct (while_lt_returns (maxx + radius) (radius * 1.732 * 0.95)
                  (fun x points => Ret (keep_inside poly x y points))
                  (fun v a => ex_intro _ _ eq_refl) no
                  (minx + radius * 1.732 * 0.95 / 2 + radius / 2) pts fuel Ho ltac:(lia))
        as [r Hr].
      rewrite Hr. simpl. eauto. }
  destruct Hw as [st Hw]. rewrite Hw. simpl. eauto.
Qed.

(** C8 (amended): both placement generators end, with a placement set or
    with an exception of the repair, for every amount of fuel from some
    point on, provided their scans advance: every addition of the spacing
    made while a scan loop is running strictly increases the scan
    coordinate. *)
Theorem generators_end_when_scans_advance (poly : Polygon) (radius : float)
  (offset_ratio : float * float) :
  grid_advances poly radius offset_ratio ->
  hex_advances poly radius ->
  exists fuel0 : nat, forall fuel : nat, (fuel0 <= fuel)%nat ->
    terminates (calculate_grid_placement fuel poly radius offset_ratio) /\
    terminates (calculate_hex_placement fuel poly radius).
Proof.
  intros Hg Hh.
  destruct (grid_scan_returns _ _ _ Hg) as [fg Hfg].
  destruct (hex_scan_returns _ _ Hh) as [fh Hfh].
  exists (Nat.max fg fh). intros fuel Hfuel.
  destruct (Hfg fuel ltac:(lia)) as [pg Hpg].
  destruct (Hfh fuel ltac:(lia)) as [ph Hph].
  unfold calculate_grid_placement, calculate_hex_placement.
  rewrite Hpg, Hph. simpl.
  split; apply ensure_coverage_terminates.
Qed.

End Termination.

(** A scan whose first [n] coordinates are inside the range, each below the
    next, and whose coordinate number [n] is outside. *)
Tactic Notation "advances_by_run" integer(n) constr(c) :=
  let k := fresh "k" in
  let Hrun := fresh "Hrun" in
  intros k Hrun;
  do n (destruct k as [| k]; [vm_compute; reflexivity |]);
  specialize (Hrun c ltac:(lia)); vm_compute in Hrun; discriminate.

Lemma hall_grid_advances : grid_advances Rect.hall 40 (0, 0).
Proof.
  split; [advances_by_run 3 3%nat | advances_by_run 2 2%nat].
Qed.

Lemma hall_offset_grid_advances : grid_advances Rect.hall 40 (0.5, 0.5).
Proof.
  split; [advances_by_run 3 3%nat | advances_by_run 2 2%nat].
Qed.

Lemma hall_hex_advances : hex_advances Rect.hall 40.
Proof.
  split; [| split]; advances_by_run 2 2%nat.
Qed.

Lemma generators_end_hall :
  grid_advances Rect.hall 40 (0, 0) /\ hex_advances Rect.hall 40 /\
  exists fuel0 : nat, forall fuel : nat, (fuel0 <= fuel)%nat ->
    terminates (calculate_grid_placement fuel Rect.hall 40 (0, 0)) /\
    terminates (calculate_hex_placement fuel Rect.hall 40).
Proof.
  split; [exact hall_grid_advances |].
  split; [exact hall_hex_advances |].
  exact (generators_end_when_scans_advance Rect.hall 40 (0, 0)
           hall_grid_advances hall_hex_advances).
Defined.

(** On the unit square at (1, 1) with radius 1e-17 the spacing is lost in
    the rounding of [y += spacing] and of [x += spacing_x]: the coordinate
    stays 1.0, below the bound 2.0, and neither generator ends. *)
Lemma unit_square_grid_scan_never_ends :
  never_ends (fun fuel => grid_scan fuel Rect.unit_square 1e-17 (0, 0)).
Proof.
  intros fuel. unfold grid_scan. simpl bounds. cbv iota beta zeta.
  apply while_lt_first_diverges; [vm_compute; reflexivity |].
  apply while_lt_stuck; [vm_compute; reflexivity | vm_compute; reflexivity |].
  intros a. eauto.
Qed.

Lemma unit_square_hex_scan_never_ends :
  never_ends (fun fuel => hex_scan fuel Rect.unit_square 1e-17).
Proof.
  intros fuel. unfold hex_scan. simpl bounds. cbv iota beta zeta.
  rewrite while_lt_first_diverges; [reflexivity | vm_compute; reflexivity |].
  cbv iota beta zeta. simpl Z.eqb. cbv iota.
  rewrite while_lt_stuck; [reflexivity | vm_compute; reflexivity | vm_compute; reflexivity |].
  intros a. eauto.
Qed.

Lemma generators_never_end_unit_square :
  never_ends (fun fuel => calculate_grid_placement fuel Rect.unit_square 1e-17 (0, 0)) /\
  never_ends (fun fuel => calculate_hex_placement fuel Rect.unit_square 1e-17).
Proof.
  split; intros fuel.
  - unfold calculate_grid_placement.
    rewrite (unit_square_grid_scan_never_ends fuel). reflexivity.
  - unfold calculate_hex_placement.
    rewrite (unit_square_hex_scan_never_ends fuel). reflexivity.
Qed.

(** ** Two facts of binary64 arithmetic *)

Lemma float_mul_comm (x y : float) : x * y = y * x.
Proof.
  apply Prim2SF_inj. rewrite !mul_spec. unfold SF64mul, SFmul.
  destruct (Prim2SF x) as [sx | sx | | sx mx ex];
    destruct (Prim2SF y) as [sy | sy | | sy my ey];
    try reflexivity; try (rewrite (xorb_comm sx sy); reflexivity).
  rewrite (xorb_comm sx sy), (Pos.mul_comm mx my), (Z.add_comm ex ey).
  reflexivity.
Qed.

(** ** The grid scan is the lattice of the specification *)

Section Lattice.

Context {Geo : Shapely}.

Lemma row_scan (poly : Polygon) (bound s x : float) (fuel : nat) :
  forall (y : float) (acc : list point),
    while_lt fuel bound s y acc (fun y points => Ret (keep_inside poly x y points))
    = (ys <- lattice_axis fuel bound s y ;;
       Ret (acc ++ filter (contains poly) (map (pair x) ys))).
Proof.
  induction fuel as [| fuel IH]; intros y acc; simpl; [reflexivity |].
  destruct (y <? bound); simpl.
  - rewrite IH. destruct (lattice_axis fuel bound s (y + s)) as [ys | e |]; simpl;
      try reflexivity.
    unfold keep_inside. destruct (contains poly (x, y)).
    + rewrite <- app_assoc. reflexivity.
    + reflexivity.
  - rewrite app_nil_r. reflexivity.
Qed.

Lemma column_scan (poly : Polygon) (bound_x bound_y s start_y : float)
  (inner : nat) (ys : list float) :
  lattice_axis inner bound_y s start_y = Ret ys ->
  forall (fuel : nat) (x : float) (acc : list point),
    while_lt fuel bound_x s x acc
      (fun x points =>
         while_lt inner bound_y s start_y points
           (fun y points => Ret (keep_inside poly x y points)))
    = (xs <- lattice_axis fuel bound_x s x ;;
       Ret (acc ++ filter (contains poly) (list_prod xs ys))).
Proof.
  intros Hys. induction fuel as [| fuel IH]; intros x acc; simpl; [reflexivity |].
  destruct (x <? bound_x); simpl.
  - rewrite row_scan, Hys. simpl. rewrite IH.
    destruct (lattice_axis fuel bound_x s (x + s)) as [xs | e |]; simpl;
      try reflexivity.
    rewrite filter_app, app_assoc. reflexivity.
  - rewrite app_nil_r. reflexivity.
Qed.

(** C6 (amended): with the cell spacing [s = r * 1.414 * 0.95], whenever
    the lattice scanned from [(minX + offsetRatio.x * s, minY +
    offsetRatio.y * s)], stepping by [s] in both axes up to [max + s], is
    finite, the grid generator produces before repair exactly its points
    inside the polygon, in scan order. *)
Theorem grid_scan_is_lattice (fuel : nat) (poly : Polygon) (radius : float)
  (offset_ratio : float * float) (lattice : list point) :
  lattice_inside fuel poly (radius * 1.414 * 0.95) offset_ratio = Ret lattice ->
  grid_scan fuel poly radius offset_ratio = Ret lattice.
Proof.
  unfold lattice_inside, grid_scan.
  destruct (bounds poly) as [[[minx miny] maxx] maxy].
  rewrite (float_mul_comm (fst offset_ratio)), (float_mul_comm (snd offset_ratio)).
  intros H.
  apply bind_Ret_inv in H. destruct H as (xs & Hxs & H).
  apply bind_Ret_inv in H. destruct H as (ys & Hys & H).
  cbv zeta. rewrite (column_scan poly _ _ _ _ _ _ Hys), Hxs. simpl. exact H.
Qed.

End Lattice.

Lemma grid_scan_is_lattice_hall :
  lattice_inside 4 Rect.hall (40 * 1.414 * 0.95) (0.5, 0.5)
  = Ret [(26.865999999999996, 26.865999999999996);
         (80.597999999999985, 26.865999999999996)] /\
  grid_scan 4 Rect.hall 40 (0.5, 0.5)
  = Ret [(26.865999999999996, 26.865999999999996);
         (80.597999999999985, 26.865999999999996)].
Proof.
  split; [vm_compute; reflexivity |].
  apply (@grid_scan_is_lattice Rect.shapely 4 Rect.hall 40 (0.5, 0.5)).
  vm_compute. reflexivity.
Defined.

(** The program's constant is 1.414, not the square root of 2: for radius
    10 on the 100 x 50 hall the first point scanned inside is at
    13.432999999999998 on both axes, and the lattice of spacing
    [10 * sqrt 2 * 0.95] starts at 13.435028842544403. *)
Lemma grid_scan_is_not_sqrt2_lattice :
  exists pts lattice : list point,
    grid_scan 12 Rect.hall 10 (0, 0) = Ret pts /\
    lattice_inside 12 Rect.hall (10 * sqrt 2 * 0.95) (0, 0) = Ret lattice /\
    hd_error pts = Some (13.432999999999998, 13.432999999999998) /\
    hd_error lattice = Some (13.435028842544403, 13.435028842544403) /\
    pts <> lattice.
Proof.
  eexists. eexists.
  split; [vm_compute; reflexivity |].
  split; [vm_compute; reflexivity |].
  split; [reflexivity |].
  split; [reflexivity |].
  intros H.
  apply (f_equal (fun l : list point =>
                    match l with (x, _) :: _ => x <? 13.434 | [] => false end)) in H.
  vm_compute in H. discriminate.
Qed.

(** ** The repair *)

Section Repair.

Context {Math : PyMath} {Geo : Shapely}.
Variable poly : Polygon.
Variable radius : float.

Lemma cover_vertices_incl (tps : list point) :
  forall fps result : list point,
    cover_vertices poly radius tps fps = Ret result -> incl fps result.
Proof.
  induction tps as [| tp tps IH]; intros fps result; simpl.
  - intros H. injection H as <-. apply incl_refl.
  - destruct (radius <? distance fps tp).
    + intros H. apply bind_Ret_inv in H. destruct H as (p & _ & H).
      apply IH in H. intros q Hq. apply H. apply in_or_app. auto.
    + apply IH.
Qed.

(** Each vertex was found covered when its turn came, or its insertion
    point was appended. *)
Lemma cover_vertices_each (tps : list point) :
  forall fps result : list point,
    cover_vertices poly radius tps fps = Ret result ->
    forall v : point, In v tps ->
      (exists seen, incl seen result /\ (radius <? distance seen v) = false) \/
      (exists p, find_internal_spot poly v radius = Ret p /\ In p result).
Proof.
  induction tps as [| tp tps IH]; intros fps result; simpl; [contradiction |].
  destruct (radius <? distance fps tp) eqn:Hfar.
  - intros H v [<- | Hv].
    + apply bind_Ret_inv in H. destruct H as (p & Hp & H).
      right. exists p. split; [exact Hp |].
      apply cover_vertices_incl in H. apply H. apply in_or_app. simpl. auto.
    + apply bind_Ret_inv in H. destruct H as (p & _ & H).
      exact (IH _ _ H v Hv).
  - intros H v [<- | Hv].
    + left. exists fps. split; [exact (cover_vertices_incl _ _ _ H) | exact Hfar].
    + exact (IH _ _ H v Hv).
Qed.

Lemma cover_vertices_returns (tps : list point) :
  (forall v, In v tps -> exists p, find_internal_spot poly v radius = Ret p) ->
  forall fps : list point, exists result, cover_vertices poly radius tps fps = Ret result.
Proof.
  induction tps as [| tp tps IH]; intros Hspot fps; simpl; [eauto |].
  assert (Htl : forall v, In v tps -> exists p, find_internal_spot poly v radius = Ret p)
    by (intros v Hv; apply Hspot; simpl; auto).
  destruct (radius <? distance fps tp); [| apply IH; exact Htl].
  destruct (Hspot tp (or_introl eq_refl)) as [p Hp]. rewrite Hp. simpl.
  apply IH. exact Htl.
Qed.

(** C1 (amended): when every insertion point the search gives for a
    boundary vertex lies within [r] of that vertex, Coverage Repair returns
    a placement set in which every boundary vertex is within [r] of some
    point.  The two facts of the distance of a multipoint that the proof
    uses are hypotheses: more points never lie farther, and a distance
    that does not exceed [r] is at most [r]. *)
Theorem ensure_coverage_covers_vertices (points : list point) :
  (forall (l l' : list point) (v : point),
      incl l l' -> (distance l v <=? radius) = true -> (distance l' v <=? radius) = true) ->
  (forall (l : list point) (v : point),
      (radius <? distance l v) = false -> (distance l v <=? radius) = true) ->
  (forall v, In v (exterior_coords poly) ->
     exists p, find_internal_spot poly v radius = Ret p /\
               (distance [p] v <=? radius) = true) ->
  exists result : list point,
    ensure_coverage poly points radius = Ret result /\
    forall v, In v (exterior_coords poly) -> (distance result v <=? radius) = true.
Proof.
  intros Hmono Htotal Hspot.
  unfold ensure_coverage.
  assert (Hret : forall v, In v (exterior_coords poly) ->
                 exists p, find_internal_spot poly v radius = Ret p).
  { intros v Hv. destruct (Hspot v Hv) as (p & Hp & _). eauto. }
  match goal with
  | |- exists r, cover_vertices _ _ _ ?fps = _ /\ _ =>
      destruct (cover_vertices_returns _ Hret fps) as [result Hres]
  end.
  exists result. split; [exact Hres |].
  intros v Hv.
  destruct (cover_vertices_each _ _ _ Hres v Hv) as [(seen & Hincl & Hnear) | (p & Hp & Hin)].
  - apply (Hmono seen result v Hincl). apply Htotal. exact Hnear.
  - destruct (Hspot v Hv) as (p' & Hp' & Hd).
    rewrite Hp in Hp'. injection Hp' as <-.
    apply (Hmono [p] result v); [| exact Hd].
    intros q [<- | []]. exact Hin.
Qed.

End Repair.

(** ** The least distance on rectangles *)

Module RectFacts.
Import FloatOrder FloatOrderFacts Rect.

Lemma fold_min_rank (v : point) (l : list point) :
  forall m0 : float,
    is_NaN m0 = false ->
    let m := fold_left (nearer v) l m0 in
    is_NaN m = false /\
    (rank m <= rank m0)%Z /\
    (forall q, In q l -> is_NaN (point_distance q v) = false ->
               (rank m <= rank (point_distance q v))%Z) /\
    (rank m = rank m0 \/
     exists q, In q l /\ is_NaN (point_distance q v) = false /\
               rank m = rank (point_distance q v)).
Proof.
  induction l as [| q l IH]; intros m0 Hm0; cbn [fold_left]; cbv zeta.
  - split; [exact Hm0 |]. split; [lia |]. split; [intros q [] | left; reflexivity].
  - change (nearer v m0 q)
      with (if point_distance q v <? m0 then point_distance q v else m0).
    destruct (point_distance q v <? m0) eqn:Hlt.
    + apply ltb_true in Hlt. destruct Hlt as (Nd & _ & Hr).
      destruct (IH _ Nd) as (Nm & Hle & Hall & Hex).
      repeat split; [exact Nm | lia | |].
      * intros q' [<- | Hq'] Nq'; [lia | auto].
      * right. destruct Hex as [Heq | (q' & Hq' & Nq' & Heq)].
        -- exists q. split; [left; reflexivity | split; [exact Nd | exact Heq]].
        -- exists q'. split; [right; exact Hq' | split; assumption].
    + destruct (IH _ Hm0) as (Nm & Hle & Hall & Hex).
      repeat split; [exact Nm | exact Hle | |].
      * intros q' [<- | Hq'] Nq'; [| auto].
        pose proof (ltb_false _ _ Nq' Hm0 Hlt). lia.
      * destruct Hex as [Heq | (q' & Hq' & Nq' & Heq)]; [auto |].
        right. exists q'. split; [right; exact Hq' | split; assumption].
Qed.

Lemma infinity_not_NaN : is_NaN infinity = false.
Proof. reflexivity. Qed.

Lemma min_distance_not_NaN (l : list point) (v : point) :
  is_NaN (min_distance l v) = false.
Proof.
  exact (proj1 (fold_min_rank v l infinity infinity_not_NaN)).
Qed.

Lemma min_distance_incl (l l' : list point) (v : point) :
  incl l l' -> (rank (min_distance l' v) <= rank (min_distance l v))%Z.
Proof.
  intros Hincl.
  destruct (fold_min_rank v l infinity infinity_not_NaN) as (_ & _ & _ & Hex).
  destruct (fold_min_rank v l' infinity infinity_not_NaN) as (_ & Hle & Hall & _).
  fold (min_distance l v) in Hex. fold (min_distance l' v) in Hle, Hall.
  destruct Hex as [Heq | (q & Hq & Nq & Heq)].
  - lia.
  - rewrite Heq. apply Hall; auto.
Qed.

(** More points never lie farther. *)
Lemma min_distance_mono (r : float) (l l' : list point) (v : point) :
  incl l l' -> (min_distance l v <=? r) = true -> (min_distance l' v <=? r) = true.
Proof.
  intros Hincl. rewrite !leb_rank, !min_distance_not_NaN. simpl.
  destruct (is_NaN r); simpl; [auto |].
  intros H. apply Z.leb_le in H. apply Z.leb_le.
  pose proof (min_distance_incl _ _ v Hincl). lia.
Qed.

(** A distance that does not exceed a radius is at most the radius. *)
Lemma min_distance_total (r : float) (l : list point) (v : point) :
  is_NaN r = false ->
  (r <? min_distance l v) = false -> (min_distance l v <=? r) = true.
Proof.
  intros Nr H. apply ltb_false in H; auto using min_distance_not_NaN.
  rewrite leb_rank, Nr, min_distance_not_NaN. simpl. apply Z.leb_le. exact H.
Qed.

End RectFacts.

(** On the 100 x 50 hall with radius 40 every corner gets an insertion
    point 2 units away, so the repair covers every corner. *)
Lemma ensure_coverage_covers_hall :
  exists result : list point,
    ensure_coverage Rect.hall [] 40 = Ret result /\
    forall v, In v (exterior_coords Rect.hall) -> (distance result v <=? 40) = true.
Proof.
  apply (@ensure_coverage_covers_vertices Rect.math Rect.shapely Rect.hall 40 []).
  - intros l l' v. apply RectFacts.min_distance_mono.
  - intros l v. apply RectFacts.min_distance_total. reflexivity.
  - intros v Hv. simpl in Hv.
    repeat (destruct Hv as [<- | Hv];
            [eexists; split; [vm_compute; reflexivity | vm_compute; reflexivity] |]).
    contradiction.
Defined.

(** With radius 1 on the 10 x 10 room the grid keeps 49 points, the
    nearest to the corner (0, 0) is 1.8997130783357785 away, and the
    insertion point of that corner is 2 units away from it: the corner is
    within radius 1 of no point of the returned set. *)
Lemma room_corner_stays_uncovered :
  exists result : list point,
    calculate_grid_placement 10 Rect.room 1 (0, 0) = Ret result /\
    In (0, 0) (exterior_coords Rect.room) /\
    (distance result (0, 0) <=? 1) = false /\
    forallb (fun p => 1 <? Rect.point_distance p (0, 0)) result = true.
Proof.
  eexists. split; [vm_compute; reflexivity |].
  split; [simpl; auto |].
  split; vm_compute; reflexivity.
Qed.

(** ** Every point placed is inside the polygon *)


Section Inside.

Context {Math : PyMath} {Geo : Shapely}.
Variable poly : Polygon.




Hypothesis target_inside : contains poly (representative_point poly) = true.

Lemma walk_inside (v : point) (vec_x vec_y dist : float) (indices : list Z) :
  contains poly (walk poly v (representative_point poly) vec_x vec_y dist indices) = true.
Proof.
  induction indices as [| i rest IH]; simpl.
  - exact target_inside.
  - match goal with |- context [if ?c then _ else _] => destruct c eqn:Hc end.
    + exact Hc.
    + exact IH.
Qed.

Lemma find_internal_spot_inside (v : point) (radius : float) (p : point) :
  find_internal_spot poly v radius = Ret p -> contains poly p = true.
Proof.
  unfold find_internal_spot.
  destruct (hypot _ _ =? 0).
  - intros H. injection H as <-. exact target_inside.
  - intros H. apply bind_Ret_inv in H. destruct H as (steps & _ & H).
    injection H as <-. apply walk_inside.
Qed.




End Inside.


(** ** The insertion search *)

Lemma float_sub_diag (x : float) : Py.isfinite x = true -> x - x = 0.
Proof.
  unfold Py.isfinite. intros Hfin.
  apply Prim2SF_inj. rewrite sub_spec. unfold SF64sub, SFsub.
  destruct (Prim2SF x) as [s | s | | s m e]; try discriminate.
  - destruct s; reflexivity.
  - rewrite Z.sub_diag. reflexivity.
Qed.

Lemma int_of_float_finite (x : float) :
  Py.isfinite x = true -> exists z : Z, Py.int_of_float x = Ret z.
Proof.
  unfold Py.isfinite, Py.int_of_float.
  destruct (Prim2SF x); try discriminate; eauto.
Qed.

Section Search.

Context {Math : PyMath} {Geo : Shapely}.
Variable poly : Polygon.

Lemma walk_first_inside (v target : point) (vec_x vec_y dist : float) (indices : list Z) :
  walk poly v target vec_x vec_y dist indices
  = first_inside poly (map (step_point v vec_x vec_y dist) indices) target.
Proof.
  unfold first_inside.
  induction indices as [| i rest IH]; simpl; [reflexivity |].
  unfold step_point at 1. cbv zeta.
  match goal with |- context [if ?c then _ else _] => destruct c end.
  - reflexivity.
  - exact IH.
Qed.

(** C4 (amended): the search returns the target directly when the vertex
    coincides with it (its coordinates being finite, and [hypot(0, 0)]
    zero); otherwise, with [steps = int(dist / 2.0)], it returns the first
    of the points [2 * i] along the segment from the vertex toward the
    target, [i = 1 .. steps - 1], that is inside the polygon, or the
    target when none is.  It always ends; it returns a point whenever the
    distance is zero or half of it is a finite float (an infinite distance
    makes [int] raise); and with the target inside the polygon every point
    it returns is inside. *)
Theorem find_internal_spot_walk (v : point) (radius : float) :
  let target := representative_point poly in
  let dist := walk_length poly v in
  (target = v -> Py.isfinite (fst v) = true -> Py.isfinite (snd v) = true ->
   (hypot 0 0 =? 0) = true ->
   find_internal_spot poly v radius = Ret target) /\
  (forall steps : Z,
      (dist =? 0) = false -> Py.int_of_float (dist / 2) = Ret steps ->
      find_internal_spot poly v radius
      = Ret (first_inside poly
               (map (step_point v (fst target - fst v) (snd target - snd v) dist)
                    (Py.range 1 steps))
               target)) /\
  terminates (find_internal_spot poly v radius) /\
  ((dist =? 0) = true \/ Py.isfinite (dist / 2) = true ->
   exists p, find_internal_spot poly v radius = Ret p) /\
  (contains poly target = true ->
   forall p, find_internal_spot poly v radius = Ret p -> contains poly p = true).
Proof.
  intros target dist. split; [| split; [| split; [| split]]].
  - intros Heq Hx Hy Hzero. unfold find_internal_spot. fold target. rewrite Heq.
    rewrite (float_sub_diag _ Hx), (float_sub_diag _ Hy), Hzero. reflexivity.
  - intros steps Hnz Hsteps. unfold find_internal_spot.
    fold target. unfold dist, walk_length in Hnz, Hsteps. fold target in Hnz, Hsteps.
    rewrite Hnz, Hsteps. simpl. rewrite walk_first_inside. reflexivity.
  - apply find_internal_spot_terminates.
  - unfold find_internal_spot. fold target.
    unfold dist, walk_length. fold target.
    intros [Hz | Hfin].
    + rewrite Hz. eauto.
    + destruct (_ =? 0); [eauto |].
      destruct (int_of_float_finite _ Hfin) as [z Hz]. rewrite Hz. simpl. eauto.
  - intros Hin p. apply find_internal_spot_inside. exact Hin.
Qed.

End Search.

(** From the corner (0, 0) of the 10 x 10 room toward its centre: the
    distance is 7.07..., [steps] is 3, and the first point of the walk,
    2 units along, is inside.  From the centre itself the search returns
    the centre. *)
Lemma find_internal_spot_walk_room :
  (walk_length Rect.room (0, 0) =? 0) = false /\
  Py.int_of_float (walk_length Rect.room (0, 0) / 2) = Ret 3%Z /\
  contains Rect.room (representative_point Rect.room) = true /\
  find_internal_spot Rect.room (0, 0) 1 = Ret (1.4142135623730949, 1.4142135623730949) /\
  contains Rect.room (1.4142135623730949, 1.4142135623730949) = true /\
  find_internal_spot Rect.room (5, 5) 1 = Ret (5, 5).
Proof.
  destruct (@find_internal_spot_walk Rect.math Rect.shapely Rect.room (0, 0) 1)
    as (_ & Hwalk & _ & _ & Hin).
  destruct (@find_internal_spot_walk Rect.math Rect.shapely Rect.room (5, 5) 1)
    as (Hsame & _).
  assert (Hspot : find_internal_spot Rect.room (0, 0) 1
                  = Ret (1.4142135623730949, 1.4142135623730949)).
  { rewrite (Hwalk 3%Z); [vm_compute; reflexivity | reflexivity | reflexivity]. }
  split; [reflexivity |]. split; [reflexivity |]. split; [reflexivity |].
  split; [exact Hspot |].
  split; [exact (Hin eq_refl _ Hspot) |].
  exact (Hsame eq_refl eq_refl eq_refl eq_refl).
Defined.

(** On the square from -1.5e308 to 1.5e308 the centre (0, 0) is inside,
    the distance from a corner to it overflows to infinity, and
    [int(dist / 2.0)] raises: the search returns no point. *)
Lemma find_internal_spot_overflows :
  In (-1.5e308, -1.5e308) (exterior_coords Rect.huge) /\
  representative_point Rect.huge = (0, 0) /\
  contains Rect.huge (0, 0) = true /\
  walk_length Rect.huge (-1.5e308, -1.5e308) = infinity /\
  find_internal_spot Rect.huge (-1.5e308, -1.5e308) 1
  = Raise (OverflowError "cannot convert float infinity to integer").
Proof.
  split; [simpl; auto |].
  repeat split; vm_compute; reflexivity.
Qed.

(** ** The solution set *)

Section Solutions.

Context {Math : PyMath} {Geo : Shapely}.
Variable poly : Polygon.

(** The point an empty generated set is seeded with. *)
Lemma cover_vertices_extends (radius : float) (tps : list point) :
  forall fps result : list point,
    cover_vertices poly radius tps fps = Ret result ->
    exists extra, result = fps ++ extra.
Proof.
  induction tps as [| tp tps IH]; intros fps result; simpl.
  - intros H. injection H as <-. exists []. symmetry. apply app_nil_r.
  - destruct (radius <? distance fps tp); [| apply IH].
    intros H. apply bind_Ret_inv in H. destruct H as (p & _ & H).
    apply IH in H. destruct H as [extra ->].
    exists (p :: extra). rewrite <- app_assoc. reflexivity.
Qed.

Lemma ensure_coverage_seed (radius : float) (result : list point) :
  ensure_coverage poly [] radius = Ret result ->
  exists extra,
    result = (if contains poly (centroid poly) then centroid poly
              else representative_point poly) :: extra.
Proof.
  unfold ensure_coverage. intros H.
  apply cover_vertices_extends in H. destruct H as [extra ->].
  exists extra. destruct (contains poly (centroid poly)); reflexivity.
Qed.

Lemma ensure_coverage_nonempty (pts : list point) (radius : float) (result : list point) :
  ensure_coverage poly pts radius = Ret result -> (1 <= List.length result)%nat.
Proof.
  unfold ensure_coverage. intros H.
  apply cover_vertices_extends in H. destruct H as [extra ->].
  rewrite length_app.
  destruct pts as [| q pts]; [destruct (contains poly (centroid poly)) |]; simpl; lia.
Qed.

Lemma ensure_coverage_returns (pts : list point) (radius : float) :
  (forall v, In v (exterior_coords poly) ->
     exists p, find_internal_spot poly v radius = Ret p) ->
  exists result, ensure_coverage poly pts radius = Ret result.
Proof.
  intros Hspot. unfold ensure_coverage. apply cover_vertices_returns. exact Hspot.
Qed.

(** C3 (amended): when the three lattice scans advance and the insertion
    search returns a point for every boundary vertex, the Solution Set
    Builder returns, for every amount of fuel from some point on, exactly
    3 solutions, in the order Standard Grid, Offset Grid, Hexagonal
    Packing, each with at least one point; and the repair puts first in
    an empty generated set the centroid if the polygon contains it, else
    the representative point. *)
Theorem three_solutions_when_scans_advance (radius safety_factor : float) :
  grid_advances poly (radius * safety_factor) (0, 0) ->
  grid_advances poly (radius * safety_factor) (0.5, 0.5) ->
  hex_advances poly (radius * safety_factor) ->
  (forall v, In v (exterior_coords poly) ->
     exists p, find_internal_spot poly v (radius * safety_factor) = Ret p) ->
  (exists fuel0 : nat, forall fuel : nat, (fuel0 <= fuel)%nat ->
     exists s1 s2 s3 : list point,
       generate_multiple_solutions fuel poly radius safety_factor
       = Ret [ {| name := "Option A: Standard Grid"; points := s1 |};
               {| name := "Option B: Offset Grid"; points := s2 |};
               {| name := "Option C: Hexagonal Packing"; points := s3 |} ] /\
       (1 <= List.length s1)%nat /\ (1 <= List.length s2)%nat /\
       (1 <= List.length s3)%nat) /\
  (forall (r : float) (result : list point),
     ensure_coverage poly [] r = Ret result ->
     exists extra,
       result = (if contains poly (centroid poly) then centroid poly
                 else representative_point poly) :: extra).
Proof.
  intros Ha Hb Hh Hspot. split; [| intros r result; apply ensure_coverage_seed].
  destruct (grid_scan_returns _ _ _ Ha) as [fa Hfa].
  destruct (grid_scan_returns _ _ _ Hb) as [fb Hfb].
  destruct (hex_scan_returns _ _ Hh) as [fh Hfh].
  exists (Nat.max fa (Nat.max fb fh)). intros fuel Hfuel.
  destruct (Hfa fuel ltac:(lia)) as [ga Hga].
  destruct (Hfb fuel ltac:(lia)) as [gb Hgb].
  destruct (Hfh fuel ltac:(lia)) as [gh Hgh].
  destruct (ensure_coverage_returns ga _ Hspot) as [s1 H1].
  destruct (ensure_coverage_returns gb _ Hspot) as [s2 H2].
  destruct (ensure_coverage_returns gh _ Hspot) as [s3 H3].
  exists s1, s2, s3.
  unfold generate_multiple_solutions, calculate_grid_placement, calculate_hex_placement.
  rewrite Hga, Hgb, Hgh. simpl. rewrite H1, H2, H3. simpl.
  split; [reflexivity |].
  split; [exact (ensure_coverage_nonempty _ _ _ H1) |].
  split; [exact (ensure_coverage_nonempty _ _ _ H2) |].
  exact (ensure_coverage_nonempty _ _ _ H3).
Qed.

End Solutions.

Lemma hall_spots_return :
  forall v, In v (exterior_coords Rect.hall) ->
    exists p, find_internal_spot Rect.hall v (40 * 1) = Ret p.
Proof.
  intros v Hv. simpl in Hv.
  repeat (destruct Hv as [<- | Hv]; [eexists; vm_compute; reflexivity |]).
  contradiction.
Qed.

Lemma three_solutions_hall :
  exists fuel0 : nat, forall fuel : nat, (fuel0 <= fuel)%nat ->
    exists s1 s2 s3 : list point,
      generate_multiple_solutions fuel Rect.hall 40 1
      = Ret [ {| name := "Option A: Standard Grid"; points := s1 |};
              {| name := "Option B: Offset Grid"; points := s2 |};
              {| name := "Option C: Hexagonal Packing"; points := s3 |} ] /\
      (1 <= List.length s1)%nat /\ (1 <= List.length s2)%nat /\
      (1 <= List.length s3)%nat.
Proof.
  exact (proj1 (@three_solutions_when_scans_advance Rect.math Rect.shapely Rect.hall 40 1
                  hall_grid_advances hall_offset_grid_advances hall_hex_advances
                  hall_spots_return)).
Defined.

(** The unit square at (1, 1) has area 1; with the effective radius
    1e-17 the first grid scan never ends, and the builder returns no
    solution. *)
Lemma no_solution_unit_square :
  never_ends (fun fuel => generate_multiple_solutions fuel Rect.unit_square 1e-17 1).
Proof.
  intros fuel.
  unfold generate_multiple_solutions, calculate_grid_placement.
  change (1e-17 * 1) with 1e-17.
  rewrite (unit_square_grid_scan_never_ends fuel). reflexivity.
Qed.

(** The Standard Grid solution of the 100 x 50 hall with effective radius
    40: no lattice point is strictly inside, the set is seeded with the
    centroid, and each corner gets one insertion point. *)
Example standard_grid_hall :
  calculate_grid_placement 4 Rect.hall 40 (0, 0)
  = Ret [(50, 25); (1.7888543819998319, 0.89442719099991597);
         (98.211145618000174, 0.89442719099991597);
         (98.211145618000174, 49.105572809000087);
         (1.7888543819998319, 49.105572809000087)].
Proof. vm_compute. reflexivity. Qed.

(** ** The coverage verifier *)

Section Verifier.

Context {Geo : Shapely} {Ovl : Overlay Geo}.

(** C5: the verifier never raises: for an empty placement set it returns
    false; when the geometric computation raises, it logs the error and
    returns true; and whenever the geometric computation ends, the
    verifier returns a boolean. *)
Theorem verifier_fails_open (poly : Polygon) (radius safety_factor : float) :
  check_geometric_coverage poly [] radius safety_factor = (Ret false, []) /\
  (forall (pts : list point) (e : exn),
     pts <> [] ->
     coverage_test poly pts (radius * safety_factor) = Raise e ->
     check_geometric_coverage poly pts radius safety_factor
     = (Ret true, [("Coverage check failed: " ++ exn_msg e)%string])) /\
  (forall (pts : list point) (e : exn),
     fst (check_geometric_coverage poly pts radius safety_factor) <> Raise e) /\
  (forall pts : list point,
     terminates (coverage_test poly pts (radius * safety_factor)) ->
     exists b : bool,
       fst (check_geometric_coverage poly pts radius safety_factor) = Ret b).
Proof.
  split; [reflexivity |]. split; [| split].
  - intros pts e Hne Hraise. unfold check_geometric_coverage.
    destruct pts as [| q pts]; [contradiction |]. rewrite Hraise. reflexivity.
  - intros pts e. unfold check_geometric_coverage.
    destruct pts as [| q pts]; [discriminate |].
    destruct (coverage_test poly (q :: pts) (radius * safety_factor)); discriminate.
  - intros pts Hend. unfold check_geometric_coverage. unfold terminates in Hend.
    destruct pts as [| q pts]; [exists false; reflexivity |].
    destruct (coverage_test poly (q :: pts) (radius * safety_factor)) as [b | e |].
    + exists b. reflexivity.
    + exists true. reflexivity.
    + contradiction.
Qed.






End Verifier.

Lemma verifier_fails_open_hall :
  check_geometric_coverage Rect.hall [(50, 25)] 40 1
  = (Ret true, ["Coverage check failed: buffer: not computed"%string]).
Proof.
  exact (proj1 (proj2 (@verifier_fails_open Rect.shapely Rect.stub_overlay Rect.hall 40 1))
           [(50, 25)] (GEOSException "buffer: not computed")
           ltac:(discriminate) eq_refl).
Defined.






(** * More of the engine *)

Section RepairMore.

Context {Math : PyMath} {Geo : Shapely}.
Variable poly : Polygon.
Variable radius : float.

Lemma cover_vertices_appends (tps : list point) :
  forall fps result : list point,
    cover_vertices poly radius tps fps = Ret result ->
    exists extra, result = fps ++ extra /\ (List.length extra <= List.length tps)%nat.
Proof.
  induction tps as [| tp tps IH]; intros fps result; simpl.
  - intros H. injection H as <-. exists []. split; [symmetry; apply app_nil_r | simpl; lia].
  - destruct (radius <? distance fps tp).
    + intros H. apply bind_Ret_inv in H. destruct H as (p & _ & H).
      apply IH in H. destruct H as (extra & -> & Hlen).
      exists (p :: extra). rewrite <- app_assoc. split; [reflexivity | simpl; lia].
    + intros H. apply IH in H. destruct H as (extra & -> & Hlen).
      exists extra. split; [reflexivity | simpl; lia].
Qed.

(** X1: the repair never removes or reorders a point: what it returns is
    the set it started from (the generated points, or the seed of an empty
    set) followed by the inserted points, at most one for each coordinate
    of the exterior ring. *)
Theorem ensure_coverage_appends (pts result : list point) :
  ensure_coverage poly pts radius = Ret result ->
  exists extra : list point,
    result = seeded poly pts ++ extra /\
    (List.length extra <= List.length (exterior_coords poly))%nat.
Proof.
  unfold ensure_coverage, seeded. intros H.
  apply cover_vertices_appends in H. destruct H as (extra & -> & Hlen).
  exists extra. split; [| exact Hlen].
  destruct pts as [| q pts]; [destruct (contains poly (centroid poly)) |]; reflexivity.
Qed.

Lemma cover_vertices_covered (tps : list point) (fps : list point) :
  (forall v, In v tps -> (radius <? distance fps v) = false) ->
  cover_vertices poly radius tps fps = Ret fps.
Proof.
  induction tps as [| tp tps IH]; intros Hcov; simpl; [reflexivity |].
  rewrite (Hcov tp (or_introl eq_refl)). apply IH.
  intros v Hv. apply Hcov. right. exact Hv.
Qed.

(** X2: a set that is not empty and from which no coordinate of the
    exterior ring is farther than the radius comes back from the repair
    unchanged. *)
Theorem ensure_coverage_keeps_covering_set (pts : list point) :
  pts <> [] ->
  (forall v, In v (exterior_coords poly) -> (radius <? distance pts v) = false) ->
  ensure_coverage poly pts radius = Ret pts.
Proof.
  intros Hne Hcov. unfold ensure_coverage.
  destruct pts as [| q pts]; [contradiction |].
  apply cover_vertices_covered. exact Hcov.
Qed.

End RepairMore.

Lemma ensure_coverage_appends_hall :
  exists result extra : list point,
    ensure_coverage Rect.hall [] 40 = Ret result /\
    result = seeded Rect.hall [] ++ extra /\
    (List.length extra <= List.length (exterior_coords Rect.hall))%nat.
Proof.
  destruct (@ensure_coverage_appends Rect.math Rect.shapely Rect.hall 40 []
              [(50, 25); (1.7888543819998319, 0.89442719099991597);
               (98.211145618000174, 0.89442719099991597);
               (98.211145618000174, 49.105572809000087);
               (1.7888543819998319, 49.105572809000087)])
    as (extra & Hres & Hlen); [vm_compute; reflexivity |].
  eexists. exists extra. split; [vm_compute; reflexivity |].
  split; [exact Hres | exact Hlen].
Defined.

Lemma ensure_coverage_keeps_hall_solution :
  ensure_coverage Rect.hall
    [(50, 25); (1.7888543819998319, 0.89442719099991597);
     (98.211145618000174, 0.89442719099991597);
     (98.211145618000174, 49.105572809000087);
     (1.7888543819998319, 49.105572809000087)] 40
  = Ret [(50, 25); (1.7888543819998319, 0.89442719099991597);
         (98.211145618000174, 0.89442719099991597);
         (98.211145618000174, 49.105572809000087);
         (1.7888543819998319, 49.105572809000087)].
Proof.
  apply (@ensure_coverage_keeps_covering_set Rect.math Rect.shapely Rect.hall 40).
  - discriminate.
  - intros v Hv. simpl in Hv.
    repeat (destruct Hv as [<- | Hv]; [vm_compute; reflexivity |]).
    contradiction.
Defined.

(** ** The hexagonal scan is the staggered lattice *)

Section HexLattice.

Context {Geo : Shapely}.

Lemma hex_row_scan (poly : Polygon) (bound s y : float) (fuel : nat) :
  forall (x : float) (acc : list point),
    while_lt fuel bound s x acc (fun x points => Ret (keep_inside poly x y points))
    = (xs <- lattice_axis fuel bound s x ;;
       Ret (acc ++ filter (contains poly) (map (fun x => (x, y)) xs))).
Proof.
  induction fuel as [| fuel IH]; intros x acc; simpl; [reflexivity |].
  destruct (x <? bound); simpl.
  - rewrite IH. destruct (lattice_axis fuel bound s (x + s)) as [xs | e |]; simpl;
      try reflexivity.
    unfold keep_inside. destruct (contains poly (x, y)).
    + rewrite <- app_assoc. reflexivity.
    + reflexivity.
  - rewrite app_nil_r. reflexivity.
Qed.

Lemma hex_column_scan (poly : Polygon) (bound_x bound_y sx sy : float)
  (start : bool -> float) (inner : nat) (even_xs odd_xs : list float) :
  lattice_axis inner bound_x sx (start true) = Ret even_xs ->
  lattice_axis inner bound_x sx (start false) = Ret odd_xs ->
  forall (fuel : nat) (y : float) (acc : list point) (row : Z),
    while_lt fuel bound_y sy y (acc, row)
      (fun y st =>
         let '(points, row) := st in
         points' <- while_lt inner bound_x sx (start (row mod 2 =? 0)%Z) points
                      (fun x points => Ret (keep_inside poly x y points)) ;;
         Ret (points', (row + 1)%Z))
    = (ys <- lattice_axis fuel bound_y sy y ;;
       Ret (acc ++ hex_rows poly even_xs odd_xs ys row,
            (row + Z.of_nat (List.length ys))%Z)).
Proof.
  intros He Ho. induction fuel as [| fuel IH]; intros y acc row; simpl; [reflexivity |].
  destruct (y <? bound_y); simpl.
  - rewrite hex_row_scan.
    assert (Hrow : lattice_axis inner bound_x sx (start (row mod 2 =? 0)%Z)
                   = Ret (if (row mod 2 =? 0)%Z then even_xs else odd_xs))
      by (destruct (row mod 2 =? 0)%Z; assumption).
    rewrite Hrow. simpl. rewrite IH.
    destruct (lattice_axis fuel bound_y sy (y + sy)) as [ys | e |]; simpl;
      try reflexivity.
    rewrite <- app_assoc. do 2 f_equal. lia.
  - rewrite app_nil_r, Z.add_0_r. reflexivity.
Qed.

(** X3: whenever the staggered lattice of the hexagonal generator is
    finite, the generator produces before repair exactly its points
    inside the polygon, row by row. *)
Theorem hex_scan_is_lattice (fuel : nat) (poly : Polygon) (radius : float)
  (lattice : list point) :
  hex_lattice fuel poly radius = Ret lattice ->
  hex_scan fuel poly radius = Ret lattice.
Proof.
  unfold hex_lattice, hex_scan.
  destruct (bounds poly) as [[[minx miny] maxx] maxy]. cbv zeta.
  intros H.
  apply bind_Ret_inv in H. destruct H as (ys & Hys & H).
  apply bind_Ret_inv in H. destruct H as (even_xs & He & H).
  apply bind_Ret_inv in H. destruct H as (odd_xs & Ho & H).
  injection H as <-.
  pose proof (hex_column_scan poly (maxx + radius) (maxy + radius)
                (radius * 1.732 * 0.95) (radius * 1.5 * 0.95)
                (fun even => minx + (if even then 0 else radius * 1.732 * 0.95 / 2)
                             + radius / 2)
                fuel even_xs odd_xs He Ho fuel (miny + radius / 2) [] 0%Z) as Hw.
  cbv beta in Hw. rewrite Hw, Hys. reflexivity.
Qed.

End HexLattice.

Lemma hex_scan_is_lattice_hall :
  hex_lattice 4 Rect.hall 40 = Ret [(20, 20); (85.816000000000003, 20)] /\
  hex_scan 4 Rect.hall 40 = Ret [(20, 20); (85.816000000000003, 20)].
Proof.
  split; [vm_compute; reflexivity |].
  apply (@hex_scan_is_lattice Rect.shapely 4 Rect.hall 40).
  vm_compute. reflexivity.
Defined.

(** ** The coverage verifier, once more *)

Section VerifierMore.

Context {Geo : Shapely} {Ovl : Overlay Geo}.

(** X4: a false verdict is never a fail-open one: it comes from an empty
    placement set or from a geometric computation that ran to its end,
    and nothing was logged; and a log record is written only with the
    verdict true, when the computation raised. *)
Theorem verifier_false_is_computed (poly : Polygon) (pts : list point)
  (radius safety_factor : float) :
  (fst (check_geometric_coverage poly pts radius safety_factor) = Ret false ->
   snd (check_geometric_coverage poly pts radius safety_factor) = [] /\
   (pts = [] \/ coverage_test poly pts (radius * safety_factor) = Ret false)) /\
  (snd (check_geometric_coverage poly pts radius safety_factor) <> [] ->
   fst (check_geometric_coverage poly pts radius safety_factor) = Ret true /\
   exists e, coverage_test poly pts (radius * safety_factor) = Raise e).
Proof.
  unfold check_geometric_coverage.
  destruct pts as [| q pts].
  - split; [auto | intros H; contradiction H; reflexivity].
  - destruct (coverage_test poly (q :: pts) (radius * safety_factor)) as [b | e |];
      simpl; split; intros H; try discriminate; try (contradiction H; reflexivity).
    + injection H as ->. auto.
    + eauto.
Qed.

End VerifierMore.

(** * The rating parser *)

Module RatingParserFacts.
Import Builtins RatingParser.
Open Scope string_scope.

Lemma all_chars_app (p : ascii -> bool) (s t : string) :
  all_chars p (s ++ t) = all_chars p s && all_chars p t.
Proof.
  induction s as [| c s IH]; simpl; [reflexivity |].
  rewrite IH, andb_assoc. reflexivity.
Qed.

Lemma all_chars_weaken (p q : ascii -> bool) (s : string) :
  (forall c, p c = true -> q c = true) ->
  all_chars p s = true -> all_chars q s = true.
Proof.
  intros Hpq. induction s as [| c s IH]; simpl; [reflexivity |].
  intros H. apply andb_true_iff in H. destruct H as [Hc Hs].
  rewrite (Hpq c Hc), (IH Hs). reflexivity.
Qed.

Lemma upper_char_digit (c : ascii) : is_digit (upper_char c) = is_digit c.
Proof.
  destruct c as [[|] [|] [|] [|] [|] [|] [|] [|]]; reflexivity.
Qed.

Lemma upper_char_of_digit (c : ascii) : is_digit c = true -> upper_char c = c.
Proof.
  destruct c as [[|] [|] [|] [|] [|] [|] [|] [|]]; intros H; try discriminate; reflexivity.
Qed.

Lemma digit_not_space (c : ascii) : is_digit c = true -> Ascii.eqb c " " = false.
Proof.
  destruct c as [[|] [|] [|] [|] [|] [|] [|] [|]]; intros H; try discriminate; reflexivity.
Qed.

Lemma upper_app (s t : string) : upper (s ++ t) = upper s ++ upper t.
Proof.
  induction s as [| c s IH]; simpl; [reflexivity | rewrite IH; reflexivity].
Qed.

Lemma remove_spaces_app (s t : string) :
  remove_spaces (s ++ t) = remove_spaces s ++ remove_spaces t.
Proof.
  induction s as [| c s IH]; simpl; [reflexivity |].
  destruct (Ascii.eqb c " "); simpl; rewrite IH; reflexivity.
Qed.

Lemma upper_digits (s : string) : all_chars is_digit s = true -> upper s = s.
Proof.
  induction s as [| c s IH]; simpl; [reflexivity |].
  intros H. apply andb_true_iff in H. destruct H as [Hc Hs].
  rewrite (upper_char_of_digit c Hc), (IH Hs). reflexivity.
Qed.

Lemma remove_spaces_digits (s : string) :
  all_chars is_digit s = true -> remove_spaces s = s.
Proof.
  induction s as [| c s IH]; simpl; [reflexivity |].
  intros H. apply andb_true_iff in H. destruct H as [Hc Hs].
  rewrite (digit_not_space c Hc), (IH Hs). reflexivity.
Qed.

(** The run of digits of a text that starts with digits and goes on with
    another character. *)
Lemma digit_run_app (d : string) (c : ascii) (rest : string) :
  all_chars is_digit d = true -> is_digit c = false ->
  digit_run (d ++ String c rest) = (d, String c rest).
Proof.
  intros Hd Hc. induction d as [| x d IH]; simpl.
  - rewrite Hc. reflexivity.
  - simpl in Hd. apply andb_true_iff in Hd. destruct Hd as [Hx Hd].
    rewrite Hx, (IH Hd). reflexivity.
Qed.

Lemma digit_run_digits (s : string) :
  all_chars is_digit (fst (digit_run s)) = true /\
  (String.length (fst (digit_run s)) <= String.length s)%nat.
Proof.
  induction s as [| c s IH]; simpl; [auto |].
  destruct (is_digit c) eqn:Hc; simpl; [| split; [reflexivity | lia]].
  destruct (digit_run s) as [d r]. simpl in *. rewrite Hc. destruct IH. split; [auto | lia].
Qed.

Lemma search_found (letter : ascii) (d rest : string) :
  d <> EmptyString -> all_chars is_digit d = true ->
  search letter (d ++ String "-" (String letter rest)) = Some d.
Proof.
  intros Hne Hd. destruct d as [| x d]; [contradiction |].
  change (search letter (String x d ++ String "-" (String letter rest)))
    with (match digit_run (String x d ++ String "-" (String letter rest)) with
          | (String d0 ds, String "-" (String l _)) =>
              if Ascii.eqb l letter then Some (String d0 ds)
              else search letter (d ++ String "-" (String letter rest))
          | _ => search letter (d ++ String "-" (String letter rest))
          end).
  rewrite (digit_run_app (String x d) "-" (String letter rest) Hd eq_refl).
  rewrite Ascii.eqb_refl. reflexivity.
Qed.

Lemma search_skips (letter other : ascii) (d rest : string) :
  all_chars is_digit d = true -> Ascii.eqb other letter = false ->
  search letter (d ++ String "-" (String other rest))
  = search letter (String "-" (String other rest)).
Proof.
  intros Hd Hl. induction d as [| x d IH]; [reflexivity |].
  change (search letter (String x d ++ String "-" (String other rest)))
    with (match digit_run (String x d ++ String "-" (String other rest)) with
          | (String d0 ds, String "-" (String l _)) =>
              if Ascii.eqb l letter then Some (String d0 ds)
              else search letter (d ++ String "-" (String other rest))
          | _ => search letter (d ++ String "-" (String other rest))
          end).
  rewrite (digit_run_app (String x d) "-" (String other rest) Hd eq_refl).
  rewrite Hl. simpl in Hd. apply andb_true_iff in Hd. apply IH. apply Hd.
Qed.

Lemma search_no_digit (letter : ascii) (s : string) :
  all_chars (fun c => negb (is_digit c)) s = true -> search letter s = None.
Proof.
  induction s as [| c s IH]; simpl; [reflexivity |].
  intros H. apply andb_true_iff in H. destruct H as [Hc Hs].
  apply negb_true_iff in Hc. rewrite Hc. apply IH. exact Hs.
Qed.

Lemma search_digits (letter : ascii) (s d : string) :
  search letter s = Some d ->
  all_chars is_digit d = true /\ (String.length d <= String.length s)%nat.
Proof.
  induction s as [| c s IH]; [discriminate |].
  pose proof (digit_run_digits (String c s)) as Hrun.
  change (search letter (String c s))
    with (match digit_run (String c s) with
          | (String d0 ds, String "-" (String l _)) =>
              if Ascii.eqb l letter then Some (String d0 ds) else search letter s
          | _ => search letter s
          end).
  assert (Htail : search letter s = Some d ->
                  all_chars is_digit d = true /\
                  (String.length d <= String.length (String c s))%nat)
    by (intros H; apply IH in H; simpl; destruct H; split; [auto | lia]).
  destruct (digit_run (String c s)) as [run rest]. simpl fst in Hrun.
  destruct run as [| d0 ds]; [exact Htail |].
  destruct rest as [| r rest]; [exact Htail |].
  destruct (Ascii.eqb_spec r "-") as [-> | Hr].
  - destruct rest as [| l rest]; [exact Htail |].
    destruct (Ascii.eqb l letter); [| exact Htail].
    intros H. injection H as <-. exact Hrun.
  - destruct r as [[|] [|] [|] [|] [|] [|] [|] [|]];
      try exact Htail; contradiction Hr; reflexivity.
Qed.

(** Decimal texts *)

Lemma digits_of_uint (d : Decimal.uint) :
  all_chars is_digit (NilEmpty.string_of_uint d) = true.
Proof.
  induction d; simpl; auto.
Qed.

Lemma str_of_N (a : N) :
  str_of_int (Z.of_N a) = NilZero.string_of_uint (N.to_uint a).
Proof.
  destruct a; reflexivity.
Qed.

Lemma str_of_N_digits (a : N) :
  all_chars is_digit (str_of_int (Z.of_N a)) = true /\
  str_of_int (Z.of_N a) <> EmptyString.
Proof.
  rewrite str_of_N. unfold NilZero.string_of_uint.
  destruct (N.to_uint a) eqn:Hu; simpl;
    try (split; [apply digits_of_uint | discriminate]).
  split; [reflexivity | discriminate].
Qed.

Lemma uint_of_digits (s : string) :
  all_chars is_digit s = true -> exists d, NilEmpty.uint_of_string s = Some d.
Proof.
  induction s as [| c s IH]; simpl; [eauto |].
  intros H. apply andb_true_iff in H. destruct H as [Hc Hs].
  destruct (IH Hs) as [d Hd]. rewrite Hd.
  destruct c as [[|] [|] [|] [|] [|] [|] [|] [|]]; try discriminate; simpl; eauto.
Qed.

Lemma int_of_str (a : N) :
  (String.length (str_of_int (Z.of_N a)) <= 4300)%nat ->
  int_of_digits (str_of_int (Z.of_N a)) = Ret (Z.of_N a).
Proof.
  intros Hlen. unfold int_of_digits.
  destruct (Nat.ltb_spec 4300 (String.length (str_of_int (Z.of_N a)))) as [Hgt | _];
    [lia |].
  rewrite str_of_N.
  pose proof (DecimalN.Unsigned.of_to a) as Hof.
  unfold NilZero.string_of_uint.
  destruct (N.to_uint a) eqn:Hu;
    try (rewrite NilEmpty.usu, Hof; reflexivity).
  simpl. simpl in Hof. rewrite <- Hof. reflexivity.
Qed.

Lemma int_of_digits_returns (s : string) :
  all_chars is_digit s = true -> (String.length s <= 4300)%nat ->
  exists z, int_of_digits s = Ret z.
Proof.
  intros Hd Hlen. unfold int_of_digits.
  destruct (Nat.ltb_spec 4300 (String.length s)) as [Hgt | _]; [lia |].
  destruct (uint_of_digits s Hd) as [d ->]. eauto.
Qed.

End RatingParserFacts.

Module RatingParserProofs.
Import Builtins RatingParser RatingParserFacts.
Open Scope string_scope.

Lemma search_head (letter c : ascii) (s : string) :
  is_digit c = false -> search letter (String c s) = search letter s.
Proof.
  intros Hc. simpl. rewrite Hc. reflexivity.
Qed.

Lemma contains_sub_app (sub s t : string) :
  contains_sub sub t = true -> contains_sub sub (s ++ t) = true.
Proof.
  intros H. induction s as [| c s IH]; simpl; [exact H |].
  rewrite IH. apply orb_true_r.
Qed.

Lemma occurs_app (c : ascii) (s t : string) :
  occurs c (s ++ t) = occurs c s || occurs c t.
Proof.
  induction s as [| x s IH]; simpl; [reflexivity |].
  rewrite IH, orb_assoc. reflexivity.
Qed.

Lemma occurs_digits (c : ascii) (s : string) :
  is_digit c = false -> all_chars is_digit s = true -> occurs c s = false.
Proof.
  intros Hc. induction s as [| x s IH]; simpl; [reflexivity |].
  intros H. apply andb_true_iff in H. destruct H as [Hx Hs].
  rewrite (IH Hs), orb_false_r.
  destruct (Ascii.eqb_spec x c) as [-> |]; [congruence | reflexivity].
Qed.

Lemma prefix_occurs (c : ascii) (sub s : string) :
  prefix sub s = true -> occurs c sub = true -> occurs c s = true.
Proof.
  revert s. induction sub as [| x sub IH]; intros s Hp Ho; [discriminate |].
  destruct s as [| y s]; [discriminate |]. simpl in Hp.
  destruct (ascii_dec x y) as [-> | Hne]; [| discriminate].
  simpl in *. destruct (Ascii.eqb y c); [reflexivity |].
  simpl in *. eapply IH; eauto.
Qed.

Lemma contains_sub_occurs (c : ascii) (sub s : string) :
  occurs c sub = true -> contains_sub sub s = true -> occurs c s = true.
Proof.
  intros Ho. induction s as [| x s IH]; simpl.
  - destruct sub; [discriminate | discriminate].
  - intros H. apply orb_true_iff in H. destruct H as [H | H].
    + apply (prefix_occurs c sub (String x s) H Ho).
    + rewrite (IH H). apply orb_true_r.
Qed.

Lemma not_listed (c : ascii) (s : string) :
  occurs c s = false -> listed (String c EmptyString) s = false.
Proof.
  intros Hs. unfold listed.
  assert (Hno : forall sub, occurs c sub = true -> contains_sub sub s = false).
  { intros sub Ho. destruct (contains_sub sub s) eqn:Hc; [| reflexivity].
    rewrite (contains_sub_occurs c sub s Ho Hc) in Hs. discriminate. }
  rewrite !Hno; [reflexivity | | |]; simpl; rewrite Ascii.eqb_refl;
    rewrite ?orb_true_r; reflexivity.
Qed.

Lemma standard_text_normal (a b : N) :
  remove_spaces (upper (standard_text a b)) = standard_text a b.
Proof.
  unfold standard_text.
  destruct (str_of_N_digits a) as [Ha _]. destruct (str_of_N_digits b) as [Hb _].
  rewrite !upper_app, !remove_spaces_app.
  rewrite (upper_digits _ Ha), (upper_digits _ Hb).
  rewrite (remove_spaces_digits _ Ha), (remove_spaces_digits _ Hb).
  reflexivity.
Qed.

Lemma upper_no_digit (s : string) :
  all_chars (fun c => negb (is_digit c)) s = true ->
  all_chars (fun c => negb (is_digit c)) (remove_spaces (upper s)) = true.
Proof.
  induction s as [| c s IH]; simpl; [reflexivity |].
  intros H. apply andb_true_iff in H. destruct H as [Hc Hs].
  destruct (Ascii.eqb (upper_char c) " "); simpl; [auto |].
  rewrite upper_char_digit, Hc. auto.
Qed.

Lemma normal_length (s : string) :
  (String.length (remove_spaces (upper s)) <= String.length s)%nat.
Proof.
  induction s as [| c s IH]; simpl; [lia |].
  destruct (Ascii.eqb (upper_char c) " "); simpl; lia.
Qed.

Lemma number_before_returns (letter : ascii) (s : string) :
  (String.length s <= 4300)%nat ->
  exists z, number_before letter s = Ret z /\ (0 <= z)%Z.
Proof.
  intros Hlen. unfold number_before.
  destruct (search letter s) as [d |] eqn:Hs; [| exists 0%Z; split; [reflexivity | lia]].
  destruct (search_digits letter s d Hs) as [Hd Hl].
  unfold int_of_digits.
  destruct (Nat.ltb_spec 4300 (String.length d)) as [Hgt | _]; [lia |].
  destruct (uint_of_digits d Hd) as [u ->].
  eexists. split; [reflexivity | lia].
Qed.

Lemma parse_no_digit (rating_str : string) :
  all_chars (fun c => negb (is_digit c)) rating_str = true ->
  exists r, parse rating_str = Ret r /\ rating_A r = 0%Z /\ rating_B r = 0%Z.
Proof.
  intros H. apply upper_no_digit in H.
  unfold parse. cbv zeta. unfold number_before.
  rewrite !(search_no_digit _ _ H). simpl.
  eexists. split; [reflexivity | split; reflexivity].
Qed.

Lemma parse_total (rating_str : string) :
  (String.length rating_str <= 4300)%nat ->
  exists r, parse rating_str = Ret r /\ (0 <= rating_A r)%Z /\ (0 <= rating_B r)%Z.
Proof.
  intros Hlen. unfold parse. cbv zeta.
  pose proof (normal_length rating_str) as Hn.
  destruct (number_before_returns "A" (remove_spaces (upper rating_str)))
    as [a [Ha Hpa]]; [lia |].
  destruct (number_before_returns "B" (remove_spaces (upper rating_str)))
    as [b [Hb Hpb]]; [lia |].
  rewrite Ha. simpl bind. rewrite Hb. simpl bind.
  eexists. split; [reflexivity | simpl; split; assumption].
Qed.

End RatingParserProofs.

(** X5: the parser reads back what a numbered entry of the list of
    standard ratings says: for every two numbers whose decimal texts
    CPython converts (at most 4300 digits), the text [a-A:b-B:C] parses
    to the rating A = a, B = b, listed for class C and for neither D nor
    K. *)
Theorem parse_standard_text (a b : N) :
  (String.length (Builtins.str_of_int (Z.of_N a)) <= 4300)%nat ->
  (String.length (Builtins.str_of_int (Z.of_N b)) <= 4300)%nat ->
  RatingParser.parse (RatingParser.standard_text a b)
  = Ret {| RatingParser.rating_A := Z.of_N a; RatingParser.rating_B := Z.of_N b;
           RatingParser.rating_C := true; RatingParser.rating_D := false;
           RatingParser.rating_K := false |}.
Proof.
  intros Ha Hb. unfold RatingParser.parse.
  rewrite RatingParserProofs.standard_text_normal. cbv zeta.
  destruct (RatingParserFacts.str_of_N_digits a) as [Hda Hna].
  destruct (RatingParserFacts.str_of_N_digits b) as [Hdb Hnb].
  pose proof (RatingParserFacts.int_of_str a Ha) as Hia.
  pose proof (RatingParserFacts.int_of_str b Hb) as Hib.
  unfold RatingParser.standard_text.
  set (da := Builtins.str_of_int (Z.of_N a)) in *.
  set (db := Builtins.str_of_int (Z.of_N b)) in *.
  change (da ++ "-A:" ++ db ++ "-B:C")%string
    with (da ++ String "-" (String "A" (String ":" (db ++ String "-" (String "B" ":C")))))%string.
  assert (HA : RatingParser.number_before "A"
                 (da ++ String "-" (String "A" (String ":" (db ++ String "-" (String "B" ":C")))))
               = Ret (Z.of_N a)).
  { unfold RatingParser.number_before.
    rewrite (RatingParserFacts.search_found "A" da _ Hna Hda). exact Hia. }
  assert (HB : RatingParser.number_before "B"
                 (da ++ String "-" (String "A" (String ":" (db ++ String "-" (String "B" ":C")))))
               = Ret (Z.of_N b)).
  { unfold RatingParser.number_before.
    rewrite (RatingParserFacts.search_skips "B" "A" da _ Hda eq_refl).
    rewrite !RatingParserProofs.search_head by reflexivity.
    rewrite (RatingParserFacts.search_found "B" db _ Hnb Hdb). exact Hib. }
  rewrite HA. simpl bind. rewrite HB. simpl bind.
  assert (HC : RatingParser.listed "C"
                 (da ++ String "-" (String "A" (String ":" (db ++ String "-" (String "B" ":C")))))
               = true).
  { unfold RatingParser.listed.
    rewrite (RatingParserProofs.contains_sub_app (":" ++ "C") da).
    - reflexivity.
    - change (String "-" (String "A" (String ":" (db ++ String "-" (String "B" ":C")))))
        with ("-A:" ++ (db ++ "-B:C"))%string.
      apply RatingParserProofs.contains_sub_app.
      apply RatingParserProofs.contains_sub_app. reflexivity. }
  assert (Hno : forall c : ascii,
             Builtins.is_digit c = false ->
             Builtins.occurs c "-A:" = false ->
             Builtins.occurs c "-B:C" = false ->
             RatingParser.listed (String c EmptyString)
               (da ++ String "-" (String "A" (String ":" (db ++ String "-" (String "B" ":C")))))
             = false).
  { intros c Hc H1 H2. apply RatingParserProofs.not_listed.
    change (String "-" (String "A" (String ":" (db ++ String "-" (String "B" ":C")))))
      with ("-A:" ++ (db ++ "-B:C"))%string.
    rewrite !RatingParserProofs.occurs_app.
    rewrite (RatingParserProofs.occurs_digits c da Hc Hda),
            (RatingParserProofs.occurs_digits c db Hc Hdb), H1, H2.
    reflexivity. }
  rewrite HC, (Hno "D"%char eq_refl eq_refl eq_refl), (Hno "K"%char eq_refl eq_refl eq_refl).
  reflexivity.
Qed.

Lemma parse_standard_text_40_240 :
  RatingParser.parse "40-A:240-B:C"
  = Ret {| RatingParser.rating_A := 40; RatingParser.rating_B := 240;
           RatingParser.rating_C := true; RatingParser.rating_D := false;
           RatingParser.rating_K := false |}.
Proof.
  apply (parse_standard_text 40 240); vm_compute; lia.
Defined.

(** X6: an ASCII rating text with no digit in it has no number for class A and
    none for class B: the parser returns with both at zero. *)
Theorem parse_without_digits (rating_str : string) :
  Builtins.all_chars (fun c => Builtins.is_ascii c && negb (Builtins.is_digit c)) rating_str
  = true ->
  exists r, RatingParser.parse rating_str = Ret r /\
            RatingParser.rating_A r = 0%Z /\ RatingParser.rating_B r = 0%Z.
Proof.
  intros H. apply RatingParserProofs.parse_no_digit.
  revert H. apply RatingParserFacts.all_chars_weaken.
  intros c Hc. apply andb_true_iff in Hc. apply Hc.
Qed.

Lemma parse_without_digits_class_K :
  exists r, RatingParser.parse "Class K (Kitchen)" = Ret r /\
            RatingParser.rating_A r = 0%Z /\ RatingParser.rating_B r = 0%Z.
Proof.
  apply (parse_without_digits "Class K (Kitchen)"). reflexivity.
Defined.

(** X7: on an ASCII text of at most 4300 characters the parser raises
    nothing: it returns a rating whose two numbers are not negative. *)
Theorem parse_returns (rating_str : string) :
  Builtins.all_chars Builtins.is_ascii rating_str = true ->
  (String.length rating_str <= 4300)%nat ->
  exists r, RatingParser.parse rating_str = Ret r /\
            (0 <= RatingParser.rating_A r)%Z /\ (0 <= RatingParser.rating_B r)%Z.
Proof.
  intros _ Hlen. unfold RatingParser.parse. cbv zeta.
  pose proof (RatingParserProofs.normal_length rating_str) as Hn.
  destruct (RatingParserProofs.number_before_returns "A"
              (Builtins.remove_spaces (Builtins.upper rating_str))) as [a [Ha Hpa]]; [lia |].
  destruct (RatingParserProofs.number_before_returns "B"
              (Builtins.remove_spaces (Builtins.upper rating_str))) as [b [Hb Hpb]]; [lia |].
  rewrite Ha. simpl bind. rewrite Hb. simpl bind.
  eexists. split; [reflexivity | simpl; split; assumption].
Qed.

Lemma parse_returns_dry_chemical :
  exists r, RatingParser.parse "Dry chemical 10-a : 60-b" = Ret r /\
            (0 <= RatingParser.rating_A r)%Z /\ (0 <= RatingParser.rating_B r)%Z.
Proof.
  apply (parse_returns "Dry chemical 10-a : 60-b"); [reflexivity | vm_compute; lia].
Defined.

(** * The analysis and the paging of its solutions *)

Module MainWindowFacts.
Import MainWindow.
Open Scope string_scope.
Open Scope list_scope.

Section Facts.

Context {Math : PyMath} {Geo : Shapely} {Ovl : Overlay Geo} {Bld : Builder Geo}
  {Txt : PyFloat}.

(** The three options, in their order. *)
Lemma generate_multiple_solutions_shape (fuel : nat) (poly : Polygon)
  (radius safety_factor : float) (solutions : list solution) :
  generate_multiple_solutions fuel poly radius safety_factor = Ret solutions ->
  exists s1 s2 s3,
    solutions = [ {| name := "Option A: Standard Grid"; points := s1 |};
                  {| name := "Option B: Offset Grid"; points := s2 |};
                  {| name := "Option C: Hexagonal Packing"; points := s3 |} ].
Proof.
  unfold generate_multiple_solutions. intros H.
  apply bind_Ret_inv in H. destruct H as [s1 [_ H]].
  apply bind_Ret_inv in H. destruct H as [s2 [_ H]].
  apply bind_Ret_inv in H. destruct H as [s3 [_ H]].
  injection H as <-. exists s1, s2, s3. reflexivity.
Qed.

(** [update_result] writes the label, the report and the two buttons. *)
Lemma update_result_frame (w : window Geo) :
  generated_solutions (fst (update_result w)) = generated_solutions w /\
  current_solution_idx (fst (update_result w)) = current_solution_idx w /\
  last_analysis_meta (fst (update_result w)) = last_analysis_meta w /\
  last_polygon (fst (update_result w)) = last_polygon w /\
  messages (fst (update_result w)) = messages w.
Proof.
  unfold update_result.
  destruct (Builtins.index (generated_solutions w) (current_solution_idx w)) as [sol |];
    [| simpl; auto].
  destruct (last_analysis_meta w) as [m |] eqn:Hm; [| simpl; auto].
  destruct (is_covered w (points sol) m); simpl; rewrite ?Hm; auto.
Qed.

Lemma index_Some {A : Type} (l : list A) (i : Z) (a : A) :
  Builtins.index l i = Some a -> l <> [].
Proof.
  unfold Builtins.index. intros H ->. simpl in H.
  destruct (i <? 0)%Z; destruct (0 <=? _)%Z; simpl in H;
    try discriminate; destruct (_ <? 0)%Z; simpl in H; try discriminate;
    destruct (Z.to_nat _); discriminate.
Qed.

End Facts.

End MainWindowFacts.

Section HazardRules.

Import MainWindow.

Context {Txt : PyFloat}.

Open Scope string_scope.

(** X8: whatever is asked, the hazard rules that return give a travel
    distance of 30, 50 or 75 ft and at most two warnings, and they give a
    quantity by area only for a Class A hazard, at 75 ft. *)
Theorem hazard_rules_ranges (current_system : Z) (hz_class hz_type rating_str : string)
  (ratings : RatingParser.ratings) (area_sqft : float) (liquid_area_text : string)
  (req_dist min_qty_area : Z) (warnings : list warning) :
  hazard_rules current_system hz_class hz_type rating_str ratings area_sqft liquid_area_text
  = Done (Required req_dist min_qty_area warnings) ->
  (req_dist = 30 \/ req_dist = 50 \/ req_dist = 75)%Z /\
  (min_qty_area <> 0%Z ->
   Builtins.contains_sub "Class A" hz_type = true /\ req_dist = 75%Z) /\
  (List.length warnings <= 2)%nat.
Proof.
  unfold hazard_rules. intros H.
  destruct (Builtins.contains_sub "Class A" hz_type).
  { destruct (NFPA_DATA_A hz_class) as [reqs |]; [| discriminate].
    destruct (float_div_int area_sqft _) as [q | |]; simpl in H; try discriminate.
    destruct (of_outcome (Builtins.ceil q)) as [n | |]; simpl in H; try discriminate.
    injection H as <- <- <-.
    split; [auto |]. split; [auto |].
    destruct (String.eqb_spec hz_class "Light") as [-> | _];
      [simpl; destruct (_ <? 2)%Z; simpl; lia |].
    destruct (String.eqb_spec hz_class "Ordinary") as [-> | _];
      [simpl; destruct (_ <? 2)%Z; simpl; lia |].
    destruct (String.eqb hz_class "Extra"); simpl; [destruct (_ <? 4)%Z |]; simpl; lia. }
  destruct (Builtins.contains_sub "Spill" hz_type).
  { repeat match type of H with
           | context [if ?b then _ else _] => destruct b
           end;
      injection H as <- <- <-; (split; [auto |]); (split; [intros C; contradiction C; reflexivity |]);
      simpl; lia. }
  destruct (Builtins.contains_sub "Appreciable Depth" hz_type).
  { destruct (if String.eqb liquid_area_text "" then Done 0%float
              else of_outcome (float_of_string liquid_area_text)) as [l | |];
      simpl in H; try discriminate.
    repeat match type of H with
           | context [if ?b then _ else _] => destruct b
           end; try discriminate;
      injection H as <- <- <-; (split; [auto |]); (split; [intros C; contradiction C; reflexivity |]);
      simpl; lia. }
  repeat match type of H with
         | context [if ?b then _ else _] => destruct b
         end;
    injection H as <- <- <-; (split; [auto |]); (split; [intros C; contradiction C; reflexivity |]);
    simpl; lia.
Qed.

(** X10: outside Class A and the liquids of appreciable depth the hazard
    rules raise nothing, whatever the hazard class and the rating are:
    they return a distance and warnings, with no quantity by area. *)
Theorem hazard_rules_return (current_system : Z) (hz_class hz_type rating_str : string)
  (ratings : RatingParser.ratings) (area_sqft : float) (liquid_area_text : string) :
  Builtins.contains_sub "Class A" hz_type = false ->
  Builtins.contains_sub "Spill" hz_type = true \/
  Builtins.contains_sub "Appreciable Depth" hz_type = false ->
  exists req_dist warnings,
    hazard_rules current_system hz_class hz_type rating_str ratings area_sqft
      liquid_area_text
    = Done (Required req_dist 0 warnings).
Proof.
  intros HA H. unfold hazard_rules. rewrite HA.
  destruct (Builtins.contains_sub "Spill" hz_type).
  { repeat match goal with
           | |- context [if ?b then _ else _] => destruct b
           end; eauto. }
  destruct H as [H | H]; [discriminate |]. rewrite H.
  repeat match goal with
         | |- context [if ?b then _ else _] => destruct b
         end; eauto.
Qed.

(** X11: for a spill fire the rules return with no quantity by area and
    a distance of 30 or 50 ft.  The distance is 50 ft exactly when the
    B-rating reaches 10 for a Light, 20 for an Ordinary and 80 for an
    Extra hazard, and there is a warning exactly when it is below 5, 10
    and 40: so 50 ft never comes with a warning.  A hazard class outside
    the three gets 30 ft and no warning. *)
Theorem spill_distance (current_system : Z) (hz_class hz_type rating_str : string)
  (ratings : RatingParser.ratings) (area_sqft : float) (liquid_area_text : string)
  (req_dist min_qty_area : Z) (warnings : list warning) :
  Builtins.contains_sub "Class A" hz_type = false ->
  Builtins.contains_sub "Spill" hz_type = true ->
  hazard_rules current_system hz_class hz_type rating_str ratings area_sqft liquid_area_text
  = Done (Required req_dist min_qty_area warnings) ->
  min_qty_area = 0%Z /\
  (req_dist = 30 \/ req_dist = 50)%Z /\
  (req_dist = 50%Z -> warnings = []) /\
  (hz_class = "Light" ->
   (req_dist = 50%Z <-> (10 <= RatingParser.rating_B ratings)%Z) /\
   (warnings <> [] <-> (RatingParser.rating_B ratings < 5)%Z)) /\
  (hz_class = "Ordinary" ->
   (req_dist = 50%Z <-> (20 <= RatingParser.rating_B ratings)%Z) /\
   (warnings <> [] <-> (RatingParser.rating_B ratings < 10)%Z)) /\
  (hz_class = "Extra" ->
   (req_dist = 50%Z <-> (80 <= RatingParser.rating_B ratings)%Z) /\
   (warnings <> [] <-> (RatingParser.rating_B ratings < 40)%Z)) /\
  (hz_class <> "Light" -> hz_class <> "Ordinary" -> hz_class <> "Extra" ->
   req_dist = 30%Z /\ warnings = []).
Proof.
  intros HA HS. unfold hazard_rules. rewrite HA, HS.
  destruct (String.eqb_spec hz_class "Light") as [-> | NL].
  { destruct (Z.leb_spec 10 (RatingParser.rating_B ratings));
      [| destruct (Z.ltb_spec (RatingParser.rating_B ratings) 5)];
      intros Heq; injection Heq as <- <- <-;
      repeat split; try solve [intros; discriminate | intros; congruence | intros; lia | auto]. }
  destruct (String.eqb_spec hz_class "Ordinary") as [-> | NO].
  { destruct (Z.leb_spec 20 (RatingParser.rating_B ratings));
      [| destruct (Z.ltb_spec (RatingParser.rating_B ratings) 10)];
      intros Heq; injection Heq as <- <- <-;
      repeat split; try solve [intros; discriminate | intros; congruence | intros; lia | auto]. }
  destruct (String.eqb_spec hz_class "Extra") as [-> | NE].
  { destruct (Z.leb_spec 80 (RatingParser.rating_B ratings));
      [| destruct (Z.ltb_spec (RatingParser.rating_B ratings) 40)];
      intros Heq; injection Heq as <- <- <-;
      repeat split; try solve [intros; discriminate | intros; congruence | intros; lia | auto]. }
  intros Heq; injection Heq as <- <- <-.
  repeat split; try solve [intros; discriminate | intros; congruence | intros; lia | auto].
Qed.

End HazardRules.

Section Analysis.

Import MainWindow.

Context {Math : PyMath} {Geo : Shapely} {Ovl : Overlay Geo} {Bld : Builder Geo}
  {Txt : PyFloat}.

Open Scope string_scope.
Open Scope list_scope.

Lemma get_coordinates_length (current_system : Z) (cad : CADCanvas.state) :
  List.length (CADCanvas.get_coordinates_in_ft current_system cad)
  = List.length (CADCanvas.points cad).
Proof.
  unfold CADCanvas.get_coordinates_in_ft.
  destruct (current_system =? UnitManager.METRIC)%Z; rewrite ?length_map; reflexivity.
Qed.

Lemma run_analysis_paths (fuel : nat) (HAS_SHAPELY : bool) (current_system : Z)
  (input : form) (cad : CADCanvas.state) (w : window Geo) :
  (kept w (fst (fst (run_analysis fuel HAS_SHAPELY current_system input cad w))) /\
   snd (fst (run_analysis fuel HAS_SHAPELY current_system input cad w)) = cad /\
   (last_polygon (fst (fst (run_analysis fuel HAS_SHAPELY current_system input cad w)))
    = last_polygon w \/
    exists poly,
      last_polygon (fst (fst (run_analysis fuel HAS_SHAPELY current_system input cad w)))
      = Some poly) /\
   (messages (fst (fst (run_analysis fuel HAS_SHAPELY current_system input cad w)))
    = messages w \/
    messages (fst (fst (run_analysis fuel HAS_SHAPELY current_system input cad w)))
    = messages w ++ ["Code Violation"] \/
    (messages (fst (fst (run_analysis fuel HAS_SHAPELY current_system input cad w)))
     = messages w ++ ["Draw a closed area first."] /\
     (List.length (CADCanvas.points cad) < 3)%nat) \/
    (messages (fst (fst (run_analysis fuel HAS_SHAPELY current_system input cad w)))
     = messages w ++ ["Shapely library missing. Install via: pip install shapely"] /\
     HAS_SHAPELY = false)))
  \/
  (exists poly m s1 s2 s3,
     last_polygon (fst (fst (run_analysis fuel HAS_SHAPELY current_system input cad w)))
     = Some poly /\
     last_analysis_meta (fst (fst (run_analysis fuel HAS_SHAPELY current_system input cad w)))
     = Some m /\
     generated_solutions (fst (fst (run_analysis fuel HAS_SHAPELY current_system input cad w)))
     = [ {| name := "Option A: Standard Grid"; points := s1 |};
         {| name := "Option B: Offset Grid"; points := s2 |};
         {| name := "Option C: Hexagonal Packing"; points := s3 |} ] /\
     current_solution_idx (fst (fst (run_analysis fuel HAS_SHAPELY current_system input cad w)))
     = 0%Z /\
     messages (fst (fst (run_analysis fuel HAS_SHAPELY current_system input cad w)))
     = messages w /\
     (snd (fst (run_analysis fuel HAS_SHAPELY current_system input cad w)) = cad \/
      snd (run_analysis fuel HAS_SHAPELY current_system input cad w) = Done tt /\
      snd (fst (run_analysis fuel HAS_SHAPELY current_system input cad w)) = saved cad)).
Proof.
  unfold run_analysis.
  destruct HAS_SHAPELY; simpl negb; cbv iota;
    [| left; simpl; split; [repeat split | auto 10]].
  rewrite get_coordinates_length.
  destruct (Nat.ltb_spec (List.length (CADCanvas.points cad)) 3) as [Hlt | Hge];
    [left; simpl; split; [repeat split | auto 10] |].
  destruct (polygon_of_coords _) as [p0 | e |];
    [| left; simpl; split; [repeat split | auto] ..].
  destruct (if is_valid p0 then Ret p0 else buffer_zero p0) as [poly | e |];
    [| left; simpl; split; [repeat split | auto] ..].
  match goal with
  | |- context [match ?p with Done _ => _ | Failed _ => _ | Unfinished => _ end] =>
      destruct p as [[[hz_class area_sqft] [req_dist min_qty_area warnings |]] | e |]
  end;
    [| left; simpl; split; [repeat split | eauto 10] ..].
  destruct (generate_multiple_solutions fuel poly _ _) as [solutions | e |] eqn:Hgen;
    [| left; simpl; split; [repeat split | eauto 10] ..].
  destruct (MainWindowFacts.generate_multiple_solutions_shape _ _ _ _ _ Hgen)
    as [s1 [s2 [s3 ->]]].
  right.
  match goal with
  | |- context [update_result ?x] =>
      pose proof (MainWindowFacts.update_result_frame x) as [F1 [F2 [F3 [F4 F5]]]];
      destruct (update_result x) as [w' [[] | e |]]
  end; simpl in *; exists poly; eexists; exists s1, s2, s3;
    repeat (split; [eassumption |]); auto.
Qed.

End Analysis.

Section AnalysisPaths.

Import MainWindow.

Context {Math : PyMath} {Geo : Shapely} {Ovl : Overlay Geo} {Bld : Builder Geo}
  {Txt : PyFloat}.

Open Scope string_scope.
Open Scope list_scope.

Lemma first_word_of_class (text : string) :
  In text hazard_class_items ->
  exists hz_class reqs,
    Builtins.first_word text = Some hz_class /\ NFPA_DATA_A hz_class = Some reqs /\
    (0 < max_area_per_unit_a reqs)%Z /\ (0 < max_area_per_ext reqs)%Z.
Proof.
  intros [<- | [<- | [<- | []]]]; do 2 eexists;
    (split; [reflexivity | split; [reflexivity | split; reflexivity]]).
Qed.

Lemma messages_grow (l : list string) (text : string) : l ++ [text] <> l.
Proof.
  intros H. apply (f_equal (@List.length string)) in H.
  rewrite length_app in H. simpl in H. lia.
Qed.

(** What [update_result] has set when it returns. *)
Lemma update_result_done (w w' : window Geo) :
  update_result w = (w', Done tt) ->
  exists sol m r,
    Builtins.index (generated_solutions w) (current_solution_idx w) = Some sol /\
    last_analysis_meta w = Some m /\
    opt_lbl w'
    = (name sol ++ " (" ++ Builtins.str_of_int (current_solution_idx w + 1) ++ " of "
       ++ Builtins.str_of_int (Z.of_nat (List.length (generated_solutions w))) ++ ")")%string /\
    prev_enabled w' = (0 <? current_solution_idx w)%Z /\
    next_enabled w'
    = (current_solution_idx w <? Z.of_nat (List.length (generated_solutions w)) - 1)%Z /\
    report_view w' = Some r /\
    option_name r = name sol /\
    dist_qty r = Z.of_nat (List.length (points sol)) /\
    final_qty r = Z.max (Z.of_nat (List.length (points sol))) (min_qty_area m) /\
    (current_warnings r = warnings m \/
     current_warnings r = warnings m ++ [NotCovered (safety_factor m)]).
Proof.
  unfold update_result.
  destruct (Builtins.index (generated_solutions w) (current_solution_idx w)) as [sol |];
    [| discriminate].
  destruct (last_analysis_meta w) as [m |]; [| discriminate].
  destruct (is_covered w (points sol) m) as [covered | e |]; try discriminate.
  intros H. injection H as <-. exists sol, m. eexists. simpl.
  repeat (split; [reflexivity |]).
  destruct covered; auto.
Qed.

(** X9: a Class A hazard with an ASCII rating text that has no digit, as
    the entries [Class D (Metal)] and [Class K (Kitchen)] of the list of
    ratings: the analysis divides the area by zero.  The exception leaves
    the polygon of the new drawing in the window, with the solutions, the
    index, the analysis record and the report of before. *)
Theorem run_analysis_divides_by_zero (fuel : nat) (current_system : Z) (input : form)
  (cad : CADCanvas.state) (w : window Geo) (drawn poly : Polygon) (area_sqft : float) :
  (3 <= List.length (CADCanvas.points cad))%nat ->
  polygon_of_coords (CADCanvas.get_coordinates_in_ft current_system cad) = Ret drawn ->
  (if is_valid drawn then Ret drawn else buffer_zero drawn) = Ret poly ->
  In (hazard_class input) hazard_class_items ->
  Builtins.contains_sub "Class A" (hazard_type input) = true ->
  Builtins.all_chars (fun c => Builtins.is_ascii c && negb (Builtins.is_digit c))
    (rating_combo input) = true ->
  area poly = Ret area_sqft ->
  exists msg,
    run_analysis fuel true current_system input cad w
    = (with_polygon w poly, cad, Failed (ZeroDivisionError msg)).
Proof.
  intros Hlen Hdrawn Hpoly Hclass Htype Hrating Harea.
  unfold run_analysis. simpl negb. cbv iota.
  rewrite get_coordinates_length.
  destruct (Nat.ltb_spec (List.length (CADCanvas.points cad)) 3) as [Hlt | _]; [lia |].
  rewrite Hdrawn, Hpoly.
  destruct (first_word_of_class _ Hclass) as [hz_class [reqs [-> [Hreqs [_ Hext]]]]].
  assert (Hdigits : Builtins.all_chars (fun c => negb (Builtins.is_digit c))
                      (rating_combo input) = true).
  { revert Hrating. apply RatingParserFacts.all_chars_weaken.
    intros c Hc. apply andb_true_iff in Hc. apply Hc. }
  destruct (RatingParserProofs.parse_no_digit _ Hdigits) as [r [-> [HA _]]].
  rewrite Harea. cbv beta iota delta [then_ of_outcome].
  unfold hazard_rules. rewrite Htype, Hreqs, HA.
  rewrite Z.mul_0_l, Z.min_l by lia.
  eexists. reflexivity.
Qed.

(** X12: a liquid of appreciable depth with a surface of more than 10
    square feet: the analysis returns after the dialog of the code
    violation.  It has stored the polygon of the new drawing by then, and
    it leaves the solutions, the index, the analysis record and the
    report of before, and the canvas unsaved. *)
Theorem run_analysis_code_violation (fuel : nat) (current_system : Z) (input : form)
  (cad : CADCanvas.state) (w : window Geo) (drawn poly : Polygon) (area_sqft l_area : float) :
  (3 <= List.length (CADCanvas.points cad))%nat ->
  polygon_of_coords (CADCanvas.get_coordinates_in_ft current_system cad) = Ret drawn ->
  (if is_valid drawn then Ret drawn else buffer_zero drawn) = Ret poly ->
  In (hazard_class input) hazard_class_items ->
  hazard_type input = "Class B (Appreciable Depth)" ->
  (String.length (rating_combo input) <= 4300)%nat ->
  area poly = Ret area_sqft ->
  liquid_area input <> "" ->
  float_of_string (liquid_area input) = Ret l_area ->
  (10.0 <? (if (current_system =? UnitManager.METRIC)%Z then l_area * 10.7639 else l_area))%float
  = true ->
  run_analysis fuel true current_system input cad w
  = (with_message (with_polygon w poly) "Code Violation", cad, Done tt).
Proof.
  intros Hlen Hdrawn Hpoly Hclass Htype Hrating Harea Htext Hfloat Hbig.
  unfold run_analysis. simpl negb. cbv iota.
  rewrite get_coordinates_length.
  destruct (Nat.ltb_spec (List.length (CADCanvas.points cad)) 3) as [Hlt | _]; [lia |].
  rewrite Hdrawn, Hpoly.
  destruct (first_word_of_class _ Hclass) as [hz_class [reqs [-> _]]].
  destruct (RatingParserProofs.parse_total _ Hrating) as [r [-> _]].
  rewrite Harea. cbv beta iota delta [then_ of_outcome].
  unfold hazard_rules. rewrite Htype.
  change (Builtins.contains_sub "Class A" "Class B (Appreciable Depth)") with false.
  change (Builtins.contains_sub "Spill" "Class B (Appreciable Depth)") with false.
  change (Builtins.contains_sub "Appreciable Depth" "Class B (Appreciable Depth)") with true.
  cbv iota.
  destruct (String.eqb_spec (liquid_area input) "") as [Hempty | _]; [contradiction |].
  rewrite Hfloat. simpl of_outcome. simpl then_. rewrite Hbig. reflexivity.
Qed.

(** X13: an analysis that returns without a dialog has the three options
    in the window, shows the first of them with its label, with the
    button to the previous option off and the one to the next on, and a
    report whose quantity is the larger of the number of placements and
    the quantity by area; the drawing counts as saved. *)
Theorem run_analysis_complete (fuel : nat) (HAS_SHAPELY : bool) (current_system : Z)
  (input : form) (cad cad' : CADCanvas.state) (w w' : window Geo) :
  run_analysis fuel HAS_SHAPELY current_system input cad w = (w', cad', Done tt) ->
  messages w' = messages w ->
  exists s1 s2 s3 m r,
    generated_solutions w'
    = [ {| name := "Option A: Standard Grid"; points := s1 |};
        {| name := "Option B: Offset Grid"; points := s2 |};
        {| name := "Option C: Hexagonal Packing"; points := s3 |} ] /\
    current_solution_idx w' = 0%Z /\
    last_analysis_meta w' = Some m /\
    safety_factor m = safety_factor_spin input /\
    last_polygon w' <> None /\
    opt_lbl w' = "Option A: Standard Grid (1 of 3)" /\
    prev_enabled w' = false /\ next_enabled w' = true /\
    report_view w' = Some r /\
    option_name r = "Option A: Standard Grid" /\
    dist_qty r = Z.of_nat (List.length s1) /\
    final_qty r = Z.max (Z.of_nat (List.length s1)) (min_qty_area m) /\
    cad' = saved cad.
Proof.
  unfold run_analysis.
  destruct HAS_SHAPELY; simpl negb; cbv iota;
    [| intros H; injection H as <- _; intros Hm; apply messages_grow in Hm; contradiction].
  destruct (_ <? 3)%nat;
    [intros H; injection H as <- _; intros Hm; apply messages_grow in Hm; contradiction |].
  destruct (polygon_of_coords _) as [p0 | e |]; try discriminate.
  destruct (if is_valid p0 then Ret p0 else buffer_zero p0) as [poly | e |];
    try discriminate.
  match goal with
  | |- context [match ?p with Done _ => _ | Failed _ => _ | Unfinished => _ end] =>
      destruct p as [[[hz_class area_sqft] [req_dist min_qty_area warnings |]] | e |]
  end; try discriminate;
    [| intros H; injection H as <- _; intros Hm; apply messages_grow in Hm; contradiction].
  destruct (generate_multiple_solutions fuel poly _ _) as [solutions | e |] eqn:Hgen;
    try discriminate.
  destruct (MainWindowFacts.generate_multiple_solutions_shape _ _ _ _ _ Hgen)
    as [s1 [s2 [s3 ->]]].
  match goal with
  | |- context [update_result ?x] =>
      pose proof (MainWindowFacts.update_result_frame x) as [F1 [F2 [F3 [F4 F5]]]];
      pose proof (update_result_done x) as Hdone;
      destruct (update_result x) as [w'' [[] | e |]]
  end; try discriminate.
  intros H. injection H as <- <-. intros _.
  destruct (Hdone w'' eq_refl) as [sol [m [r [Hsol [Hmeta [Hlbl [Hprev [Hnext [Hr [Hn [Hd [Hf _]]]]]]]]]]]].
  simpl in *. injection Hsol as <-. injection Hmeta as <-.
  exists s1, s2, s3. eexists. exists r.
  repeat (split; [eassumption || reflexivity |]).
  split; [rewrite F4; discriminate |].
  auto 10.
Qed.

(** X14: an analysis replaces the solutions, the index and the analysis
    record together or not at all.  When it does not come to its
    solutions, because of a dialog, an exception or a scan without end,
    they and the report are the ones of before and the canvas is as it
    was, while the polygon may already be the one of the new drawing;
    when it does, the window has a polygon, an analysis record and the
    three options in their order, at index 0. *)
Theorem run_analysis_all_or_nothing (fuel : nat) (HAS_SHAPELY : bool) (current_system : Z)
  (input : form) (cad : CADCanvas.state) (w : window Geo) :
  (kept w (fst (fst (run_analysis fuel HAS_SHAPELY current_system input cad w))) /\
   snd (fst (run_analysis fuel HAS_SHAPELY current_system input cad w)) = cad /\
   (last_polygon (fst (fst (run_analysis fuel HAS_SHAPELY current_system input cad w)))
    = last_polygon w \/
    last_polygon (fst (fst (run_analysis fuel HAS_SHAPELY current_system input cad w)))
    <> None))
  \/
  (exists poly m s1 s2 s3,
     last_polygon (fst (fst (run_analysis fuel HAS_SHAPELY current_system input cad w)))
     = Some poly /\
     last_analysis_meta (fst (fst (run_analysis fuel HAS_SHAPELY current_system input cad w)))
     = Some m /\
     generated_solutions (fst (fst (run_analysis fuel HAS_SHAPELY current_system input cad w)))
     = [ {| name := "Option A: Standard Grid"; points := s1 |};
         {| name := "Option B: Offset Grid"; points := s2 |};
         {| name := "Option C: Hexagonal Packing"; points := s3 |} ] /\
     current_solution_idx (fst (fst (run_analysis fuel HAS_SHAPELY current_system input cad w)))
     = 0%Z).
Proof.
  destruct (run_analysis_paths fuel HAS_SHAPELY current_system input cad w)
    as [[Hkept [Hcad [Hpoly _]]] | [poly [m [s1 [s2 [s3 [H1 [H2 [H3 [H4 _]]]]]]]]]].
  - left. split; [exact Hkept | split; [exact Hcad |]].
    destruct Hpoly as [Hpoly | [poly Hpoly]]; [left; exact Hpoly |].
    right. rewrite Hpoly. discriminate.
  - right. exists poly, m, s1, s2, s3. auto.
Qed.

(** X15: the analysis reads the outline of the canvas and its scale, and
    not whether the outline was closed: two canvases with the same
    points, scale and grid give the same window and the same way to end. *)
Theorem run_analysis_reads_the_outline (fuel : nat) (HAS_SHAPELY : bool)
  (current_system : Z) (input : form) (cad cad' : CADCanvas.state) (w : window Geo) :
  CADCanvas.points cad = CADCanvas.points cad' ->
  CADCanvas.scale_unit_per_grid cad = CADCanvas.scale_unit_per_grid cad' ->
  CADCanvas.grid_size_logical cad = CADCanvas.grid_size_logical cad' ->
  fst (fst (run_analysis fuel HAS_SHAPELY current_system input cad w))
  = fst (fst (run_analysis fuel HAS_SHAPELY current_system input cad' w)) /\
  snd (run_analysis fuel HAS_SHAPELY current_system input cad w)
  = snd (run_analysis fuel HAS_SHAPELY current_system input cad' w).
Proof.
  intros Hp Hs Hg.
  assert (Hc : CADCanvas.get_coordinates_in_ft current_system cad
               = CADCanvas.get_coordinates_in_ft current_system cad')
    by (unfold CADCanvas.get_coordinates_in_ft; rewrite Hp, Hs, Hg; reflexivity).
  unfold run_analysis. rewrite Hc.
  destruct HAS_SHAPELY; simpl negb; cbv iota; [| auto].
  destruct (_ <? 3)%nat; [auto |].
  destruct (polygon_of_coords _) as [p0 | e |]; [| auto ..].
  destruct (if is_valid p0 then Ret p0 else buffer_zero p0) as [poly | e |]; [| auto ..].
  match goal with
  | |- context [match ?p with Done _ => _ | Failed _ => _ | Unfinished => _ end] =>
      destruct p as [[[hz_class area_sqft] [req_dist min_qty_area warnings |]] | e |]
  end; [| auto ..].
  destruct (generate_multiple_solutions fuel poly _ _) as [solutions | e |]; [| auto ..].
  match goal with
  | |- context [update_result ?x] => destruct (update_result x) as [w'' [[] | e |]]
  end; auto.
Qed.

End AnalysisPaths.

Section Paging.

Import MainWindow.

Context {Math : PyMath} {Geo : Shapely} {Ovl : Overlay Geo} {Bld : Builder Geo}
  {Txt : PyFloat}.

Open Scope string_scope.
Open Scope list_scope.

Lemma change_sol_frame (w : window Geo) (delta : Z) :
  generated_solutions (fst (change_sol w delta)) = generated_solutions w /\
  current_solution_idx (fst (change_sol w delta))
  = Z.max 0 (Z.min (Z.of_nat (List.length (generated_solutions w)) - 1)
                   (current_solution_idx w + delta)) /\
  last_analysis_meta (fst (change_sol w delta)) = last_analysis_meta w /\
  last_polygon (fst (change_sol w delta)) = last_polygon w /\
  messages (fst (change_sol w delta)) = messages w.
Proof.
  unfold change_sol.
  match goal with
  | |- context [update_result ?x] => exact (MainWindowFacts.update_result_frame x)
  end.
Qed.

Lemma perform_consistent (w : window Geo) (a : action) :
  consistent w -> consistent (perform w a).
Proof.
  intros Hw. destruct a as [fuel hs sys input cad | delta]; simpl.
  - destruct (run_analysis_paths fuel hs sys input cad w)
      as [[[K1 [K2 [K3 _]]] [_ [Hpoly _]]]
         | [poly [m [s1 [s2 [s3 [H1 [H2 [H3 [H4 _]]]]]]]]]].
    + destruct Hw as [[W1 [W2 W3]] | [W1 [W2 [W3 W4]]]]; [left | right];
        rewrite K1, K2, K3; [auto |].
      repeat (split; [assumption |]). split; [| assumption].
      destruct Hpoly as [-> | [poly ->]]; [assumption | discriminate].
    + right. rewrite H1, H2, H3, H4. simpl.
      repeat split; try discriminate; lia.
  - destruct (change_sol_frame w delta) as [F1 [F2 [F3 [F4 _]]]].
    destruct Hw as [[W1 [W2 W3]] | [W1 [W2 [W3 W4]]]]; [left | right];
      rewrite F1, F2, F3, ?F4.
    + rewrite W1. simpl. repeat split; try assumption. lia.
    + rewrite W1. repeat split; try assumption; lia.
Qed.

Lemma window_init_consistent : consistent (@init Geo).
Proof. left. repeat split. Qed.

(** X16: paging keeps the index on a solution: whatever the index and
    the step were, with solutions in the window the index after
    [change_sol] is one of theirs, and the solutions are the same. *)
Theorem change_sol_in_range (w : window Geo) (delta : Z) :
  generated_solutions w <> [] ->
  (0 <= current_solution_idx (fst (change_sol w delta))
   < Z.of_nat (List.length (generated_solutions (fst (change_sol w delta)))))%Z /\
  generated_solutions (fst (change_sol w delta)) = generated_solutions w.
Proof.
  intros Hne. destruct (change_sol_frame w delta) as [F1 [F2 _]].
  rewrite F1, F2. split; [| reflexivity].
  destruct (generated_solutions w) as [| s l]; [contradiction |].
  simpl List.length. lia.
Qed.

(** X17: the two buttons say what a click does: after a paging that
    returned, the click on an enabled button moves the index by one and
    the click on a disabled one would leave it. *)
Theorem buttons_agree_with_paging (w : window Geo) (delta : Z) :
  snd (change_sol w delta) = Done tt ->
  current_solution_idx (fst (change_sol (fst (change_sol w delta)) (-1)))
  = (if prev_enabled (fst (change_sol w delta))
     then current_solution_idx (fst (change_sol w delta)) - 1
     else current_solution_idx (fst (change_sol w delta)))%Z /\
  current_solution_idx (fst (change_sol (fst (change_sol w delta)) 1))
  = (if next_enabled (fst (change_sol w delta))
     then current_solution_idx (fst (change_sol w delta)) + 1
     else current_solution_idx (fst (change_sol w delta)))%Z.
Proof.
  intros Hdone.
  destruct (change_sol_frame (fst (change_sol w delta)) (-1)) as [_ [B _]].
  destruct (change_sol_frame (fst (change_sol w delta)) 1) as [_ [N _]].
  rewrite B, N. clear B N.
  destruct (change_sol_frame w delta) as [F1 [F2 _]].
  rewrite F1. revert Hdone. unfold change_sol at 1 2 3 4 5 6 7.
  match goal with
  | |- context [update_result ?x] =>
      pose proof (update_result_done x) as Hd;
      pose proof (MainWindowFacts.update_result_frame x) as [_ [Fi _]];
      destruct (update_result x) as [w' e]
  end.
  simpl fst in *. simpl snd. intros ->.
  destruct (Hd w' eq_refl) as [sol [m [r [Hsol [_ [_ [Hprev [Hnext _]]]]]]]].
  simpl in Hsol, Hprev, Hnext, Fi. apply MainWindowFacts.index_Some in Hsol.
  rewrite Hprev, Hnext, Fi.
  destruct (generated_solutions w) as [| s l]; [contradiction |].
  simpl List.length in *.
  destruct (Z.ltb_spec 0 (Z.max 0 (Z.min (Z.of_nat (S (List.length l)) - 1)
                                        (current_solution_idx w + delta))));
    destruct (Z.ltb_spec (Z.max 0 (Z.min (Z.of_nat (S (List.length l)) - 1)
                                         (current_solution_idx w + delta)))
                         (Z.of_nat (S (List.length l)) - 1)); lia.
Qed.

(** X18: from the start of the application, whatever analyses and
    pagings were asked and however they ended, the window has either no
    solution, no analysis record and the index 0, or three solutions, an
    analysis record, a polygon and an index from 0 to 2. *)
Theorem window_consistent (actions : list action) :
  (generated_solutions (fold_left perform actions (@init Geo)) = [] /\
   last_analysis_meta (fold_left perform actions (@init Geo)) = None /\
   current_solution_idx (fold_left perform actions (@init Geo)) = 0%Z)
  \/
  (List.length (generated_solutions (fold_left perform actions (@init Geo))) = 3%nat /\
   last_analysis_meta (fold_left perform actions (@init Geo)) <> None /\
   last_polygon (fold_left perform actions (@init Geo)) <> None /\
   (0 <= current_solution_idx (fold_left perform actions (@init Geo)) <= 2)%Z).
Proof.
  change (consistent (fold_left perform actions (@init Geo))).
  generalize (@window_init_consistent). generalize (@init Geo).
  induction actions as [| a actions IH]; intros w Hw; simpl; [exact Hw |].
  apply IH, perform_consistent, Hw.
Qed.

(** X19: paging before any analysis: with no solution in the window,
    whatever the index and the step are, [change_sol] sets the index to 0
    and raises IndexError at the lookup of the solution, before anything
    is shown; the rest of the window is as it was. *)
Theorem paging_without_solutions (w : window Geo) (delta : Z) :
  generated_solutions w = [] ->
  snd (change_sol w delta) = Failed (IndexError "list index out of range") /\
  current_solution_idx (fst (change_sol w delta)) = 0%Z /\
  generated_solutions (fst (change_sol w delta)) = [] /\
  last_analysis_meta (fst (change_sol w delta)) = last_analysis_meta w /\
  last_polygon (fst (change_sol w delta)) = last_polygon w /\
  opt_lbl (fst (change_sol w delta)) = opt_lbl w /\
  report_view (fst (change_sol w delta)) = report_view w /\
  prev_enabled (fst (change_sol w delta)) = prev_enabled w /\
  next_enabled (fst (change_sol w delta)) = next_enabled w /\
  messages (fst (change_sol w delta)) = messages w.
Proof.
  intros Hnil.
  assert (Hnone : forall i : Z, Builtins.index (@nil solution) i = None).
  { intros i. unfold Builtins.index. simpl List.length.
    destruct (i <? 0)%Z;
      match goal with
      | |- context [(0 <=? ?j)%Z && (?j <? ?n)%Z] =>
          destruct (Z.leb_spec 0 j); destruct (Z.ltb_spec j n); simpl; try reflexivity; lia
      end. }
  unfold change_sol, update_result.
  cbn [generated_solutions current_solution_idx]. rewrite Hnil, Hnone.
  cbn [fst snd generated_solutions current_solution_idx last_analysis_meta last_polygon
       opt_lbl report_view prev_enabled next_enabled messages List.length].
  repeat split. lia.
Qed.

End Paging.

(** * The drawing canvas *)

Module CADCanvasFacts.
Import CADCanvas.

Lemma press_points (s : state) (b : button) (pos : point) :
  points (fst (mousePressEvent s b pos)) = points s \/
  (b = LeftButton /\ polygon_closed s = false /\ drawing_active s = true /\
   has_unsaved_changes (fst (mousePressEvent s b pos)) = true /\
   polygon_closed (fst (mousePressEvent s b pos)) = false /\
   drawing_active (fst (mousePressEvent s b pos)) = true /\
   exists pt, get_snapped_logical s (screen_to_logical s pos) = Ret pt /\
              points (fst (mousePressEvent s b pos)) = points s ++ [pt]).
Proof.
  unfold mousePressEvent.
  destruct b; try (left; destruct (negb (drawing_active s) || polygon_closed s); reflexivity).
  - destruct (drawing_active s) eqn:Hd; destruct (polygon_closed s) eqn:Hc; simpl;
      try (left; reflexivity).
    destruct (get_snapped_logical s (screen_to_logical s pos)) as [pt | e |];
      try (left; reflexivity).
    right. simpl. eauto 12.
  - left. destruct (negb (drawing_active s) || polygon_closed s); [reflexivity |].
    destruct (2 <? List.length (points s))%nat; reflexivity.
Qed.

Lemma move_frame (s : state) (pos : point) :
  points (fst (mouseMoveEvent s pos)) = points s /\
  drawing_active (fst (mouseMoveEvent s pos)) = drawing_active s /\
  polygon_closed (fst (mouseMoveEvent s pos)) = polygon_closed s /\
  grid_size_logical (fst (mouseMoveEvent s pos)) = grid_size_logical s /\
  snap_enabled (fst (mouseMoveEvent s pos)) = snap_enabled s /\
  scale_unit_per_grid (fst (mouseMoveEvent s pos)) = scale_unit_per_grid s /\
  has_unsaved_changes (fst (mouseMoveEvent s pos)) = has_unsaved_changes s.
Proof.
  unfold mouseMoveEvent. destruct (panning s); [simpl; auto 10 |].
  destruct (get_snapped_logical s (screen_to_logical s pos)); simpl; auto 10.
Qed.

Lemma press_frame (s : state) (b : button) (pos : point) :
  grid_size_logical (fst (mousePressEvent s b pos)) = grid_size_logical s /\
  snap_enabled (fst (mousePressEvent s b pos)) = snap_enabled s /\
  scale_unit_per_grid (fst (mousePressEvent s b pos)) = scale_unit_per_grid s.
Proof.
  unfold mousePressEvent.
  destruct b; simpl; auto;
    destruct (negb (drawing_active s) || polygon_closed s); simpl; auto.
  - destruct (get_snapped_logical s (screen_to_logical s pos)); simpl; auto.
  - destruct (2 <? List.length (points s))%nat; simpl; auto.
Qed.

Lemma handle_coherent (s : state) (ev : event) :
  coherent s -> coherent (handle s ev).
Proof.
  intros [Hd [Hc [Hg Hu]]].
  destruct ev as [b pos | pos | b | pos angle | | enabled | val]; simpl.
  - unfold coherent. destruct (press_frame s b pos) as [-> _].
    unfold mousePressEvent.
    destruct b.
    + destruct (drawing_active s) eqn:Ed; destruct (polygon_closed s) eqn:Ec; simpl;
        rewrite ?Ed, ?Ec; try (repeat split; assumption).
      destruct (get_snapped_logical s (screen_to_logical s pos)) as [pt | e |]; simpl;
        rewrite ?Ed, ?Ec; try (repeat split; assumption).
      repeat split; try assumption; try discriminate.
      intros _ H. apply app_eq_nil in H. destruct H as [_ H]. discriminate.
    + destruct (drawing_active s) eqn:Ed; destruct (polygon_closed s) eqn:Ec; simpl;
        rewrite ?Ed, ?Ec; try (repeat split; assumption).
      destruct (Nat.ltb_spec 2 (List.length (points s))); simpl;
        rewrite ?Ed, ?Ec; repeat split; try assumption; lia.
    + simpl. repeat split; assumption.
    + destruct (negb (drawing_active s) || polygon_closed s); repeat split; assumption.
  - destruct (move_frame s pos) as [M1 [M2 [M3 [M4 [_ [_ M7]]]]]].
    unfold coherent. rewrite M1, M2, M3, M4, M7. repeat split; assumption.
  - destruct b; simpl; repeat split; assumption.
  - repeat split; assumption.
  - repeat split; try discriminate. assumption.
  - repeat split; assumption.
  - repeat split; assumption.
Qed.

Lemma canvas_init_coherent : coherent init.
Proof.
  repeat split; discriminate.
Qed.

Lemma run_coherent (evs : list event) (s : state) :
  coherent s -> coherent (fold_left handle evs s).
Proof.
  revert s. induction evs as [| ev evs IH]; intros s Hs; simpl; [exact Hs |].
  apply IH, handle_coherent, Hs.
Qed.

Lemma snapped_on_grid (s : state) (logical_pos pt : point) :
  snap_enabled s = true -> grid_size_logical s = 40.0 ->
  get_snapped_logical s logical_pos = Ret pt -> on_grid pt.
Proof.
  intros Hs Hg. unfold get_snapped_logical. rewrite Hs, Hg. simpl negb. cbv iota.
  intros H. apply bind_Ret_inv in H. destruct H as [kx [_ H]].
  apply bind_Ret_inv in H. destruct H as [ky [_ H]].
  injection H as <-. exists kx, ky. reflexivity.
Qed.

End CADCanvasFacts.

(** X20: whatever the user did on the canvas since the start, it draws
    exactly when the outline is not closed, a closed outline has at
    least three points, the grid is 40 pixels wide, and a canvas with
    unsaved changes has a point. *)
Theorem canvas_coherent (evs : list CADCanvas.event) :
  CADCanvas.drawing_active (fold_left CADCanvas.handle evs CADCanvas.init)
  = negb (CADCanvas.polygon_closed (fold_left CADCanvas.handle evs CADCanvas.init)) /\
  (CADCanvas.polygon_closed (fold_left CADCanvas.handle evs CADCanvas.init) = true ->
   (3 <= List.length (CADCanvas.points (fold_left CADCanvas.handle evs CADCanvas.init)))%nat) /\
  CADCanvas.grid_size_logical (fold_left CADCanvas.handle evs CADCanvas.init) = 40.0 /\
  (CADCanvas.has_unsaved_changes (fold_left CADCanvas.handle evs CADCanvas.init) = true ->
   CADCanvas.points (fold_left CADCanvas.handle evs CADCanvas.init) <> []).
Proof.
  change (CADCanvas.coherent (fold_left CADCanvas.handle evs CADCanvas.init)).
  generalize CADCanvasFacts.canvas_init_coherent. generalize CADCanvas.init.
  induction evs as [| ev evs IH]; intros s Hs; simpl; [exact Hs |].
  apply IH, CADCanvasFacts.handle_coherent, Hs.
Qed.

(** X21: a closed outline is frozen: no click, move, wheel or setting
    changes its points or opens it again; only the reset does. *)
Theorem closed_outline_is_frozen (s : CADCanvas.state) (ev : CADCanvas.event) :
  CADCanvas.polygon_closed s = true ->
  ev <> CADCanvas.Reset ->
  CADCanvas.points (CADCanvas.handle s ev) = CADCanvas.points s /\
  CADCanvas.polygon_closed (CADCanvas.handle s ev) = true /\
  CADCanvas.has_unsaved_changes (CADCanvas.handle s ev) = CADCanvas.has_unsaved_changes s.
Proof.
  intros Hc Hev.
  destruct ev as [b pos | pos | b | pos angle | | enabled | val]; simpl;
    try (split; [reflexivity | split; [exact Hc | reflexivity]]).
  - unfold CADCanvas.mousePressEvent. rewrite Hc, orb_true_r.
    destruct b; simpl; auto.
  - destruct (CADCanvasFacts.move_frame s pos) as [M1 [_ [M3 [_ [_ [_ M7]]]]]].
    rewrite M1, M3, M7. auto.
  - destruct b; simpl; auto.
  - contradiction Hev. reflexivity.
Qed.

(** X22: with the snapping never switched off, every point of the
    outline is a node of the grid of 40 pixels. *)
Theorem outline_on_grid (evs : list CADCanvas.event) :
  Forall (fun ev => ev <> CADCanvas.SetSnap false) evs ->
  Forall CADCanvas.on_grid (CADCanvas.points (fold_left CADCanvas.handle evs CADCanvas.init)).
Proof.
  intros Hevs.
  assert (Hgen : forall s,
             CADCanvas.coherent s -> CADCanvas.snap_enabled s = true ->
             Forall CADCanvas.on_grid (CADCanvas.points s) ->
             CADCanvas.snap_enabled (fold_left CADCanvas.handle evs s) = true /\
             Forall CADCanvas.on_grid (CADCanvas.points (fold_left CADCanvas.handle evs s))).
  { induction Hevs as [| ev evs Hev _ IH]; intros s Hs Hsnap Hpts; simpl; [auto |].
    apply IH; [apply CADCanvasFacts.handle_coherent, Hs | |].
    - destruct ev as [b pos | pos | b | pos angle | | enabled | val]; simpl; try assumption.
      + destruct (CADCanvasFacts.press_frame s b pos) as [_ [-> _]]. exact Hsnap.
      + destruct (CADCanvasFacts.move_frame s pos) as [_ [_ [_ [_ [-> _]]]]]. exact Hsnap.
      + destruct b; exact Hsnap.
      + destruct enabled; [reflexivity | contradiction Hev; reflexivity].
    - destruct ev as [b pos | pos | b | pos angle | | enabled | val]; simpl; try assumption.
      + destruct (CADCanvasFacts.press_points s b pos)
          as [-> | [_ [_ [_ [_ [_ [_ [pt [Hpt ->]]]]]]]]]; [exact Hpts |].
        apply Forall_app. split; [exact Hpts |].
        constructor; [| constructor].
        destruct Hs as [_ [_ [Hg _]]].
        exact (CADCanvasFacts.snapped_on_grid s _ pt Hsnap Hg Hpt).
      + destruct (CADCanvasFacts.move_frame s pos) as [-> _]. exact Hpts.
      + destruct b; exact Hpts.
      + constructor. }
  apply Hgen; [apply CADCanvasFacts.canvas_init_coherent | reflexivity | constructor].
Qed.

Section CanvasAndAnalysis.

Import MainWindow.

Context {Math : PyMath} {Geo : Shapely} {Ovl : Overlay Geo} {Bld : Builder Geo}
  {Txt : PyFloat}.

Open Scope string_scope.
Open Scope list_scope.

(** X23: an outline that the canvas has closed is never refused by the
    analysis as not drawn: whatever the user did on the canvas, once the
    outline is closed the analysis does not show the dialog that asks to
    draw a closed area first. *)
Theorem closed_outline_is_analysed (evs : list CADCanvas.event) (fuel : nat)
  (current_system : Z) (input : form) (w : window Geo) :
  CADCanvas.polygon_closed (fold_left CADCanvas.handle evs CADCanvas.init) = true ->
  messages (fst (fst (run_analysis fuel true current_system input
                        (fold_left CADCanvas.handle evs CADCanvas.init) w)))
  <> messages w ++ ["Draw a closed area first."].
Proof.
  intros Hclosed.
  destruct (CADCanvasFacts.run_coherent evs CADCanvas.init CADCanvasFacts.canvas_init_coherent)
    as [_ [Hthree _]].
  specialize (Hthree Hclosed).
  destruct (run_analysis_paths fuel true current_system input
              (fold_left CADCanvas.handle evs CADCanvas.init) w)
    as [[_ [_ [_ Hm]]] | [poly [m [s1 [s2 [s3 [_ [_ [_ [_ [Hm _]]]]]]]]]]].
  - destruct Hm as [-> | [-> | [[_ Hlt] | [_ Hs]]]].
    + intros H. symmetry in H. apply messages_grow in H. exact H.
    + intros H. apply app_inv_head in H. discriminate.
    + lia.
    + discriminate.
  - rewrite Hm. intros H. symmetry in H. apply messages_grow in H. exact H.
Qed.

End CanvasAndAnalysis.

Lemma hazard_rules_ranges_office :
  (75 = 30 \/ 75 = 50 \/ 75 = 75)%Z /\
  (1%Z <> 0%Z ->
   Builtins.contains_sub "Class A" "Class A (Ordinary Combustibles)" = true /\ 75%Z = 75%Z) /\
  (List.length (@nil MainWindow.warning) <= 2)%nat.
Proof.
  apply (@hazard_rules_ranges RectApp.text 0 "Light" "Class A (Ordinary Combustibles)"
           "4-A:60-B:C"
           {| RatingParser.rating_A := 4; RatingParser.rating_B := 60;
              RatingParser.rating_C := true; RatingParser.rating_D := false;
              RatingParser.rating_K := false |}
           5000 "0" 75 1 []).
  vm_compute. reflexivity.
Defined.

Lemma hazard_rules_return_kitchen :
  exists req_dist warnings,
    @MainWindow.hazard_rules RectApp.text 0 "Ordinary" "Class K (Cooking)" "Class K (Kitchen)"
      {| RatingParser.rating_A := 0; RatingParser.rating_B := 0;
         RatingParser.rating_C := false; RatingParser.rating_D := false;
         RatingParser.rating_K := true |}
      5000 "0"
    = MainWindow.Done (MainWindow.Required req_dist 0 warnings).
Proof.
  apply (@hazard_rules_return RectApp.text); [reflexivity | right; reflexivity].
Defined.

Lemma spill_distance_light_10B :
  0%Z = 0%Z /\
  (50 = 30 \/ 50 = 50)%Z /\
  (50%Z = 50%Z -> @nil MainWindow.warning = []) /\
  ("Light"%string = "Light"%string ->
   (50%Z = 50%Z <-> (10 <= 10)%Z) /\ (@nil MainWindow.warning <> [] <-> (10 < 5)%Z)) /\
  ("Light"%string = "Ordinary"%string ->
   (50%Z = 50%Z <-> (20 <= 10)%Z) /\ (@nil MainWindow.warning <> [] <-> (10 < 10)%Z)) /\
  ("Light"%string = "Extra"%string ->
   (50%Z = 50%Z <-> (80 <= 10)%Z) /\ (@nil MainWindow.warning <> [] <-> (10 < 40)%Z)) /\
  ("Light"%string <> "Light"%string -> "Light"%string <> "Ordinary"%string ->
   "Light"%string <> "Extra"%string -> 50%Z = 30%Z /\ @nil MainWindow.warning = []).
Proof.
  apply (@spill_distance RectApp.text 0 "Light" "Class B (Spill Fires)" "1-A:10-B:C"
           {| RatingParser.rating_A := 1; RatingParser.rating_B := 10;
              RatingParser.rating_C := true; RatingParser.rating_D := false;
              RatingParser.rating_K := false |}
           5000 "0" 50 0 []); reflexivity.
Defined.

Lemma run_analysis_divides_by_zero_workshop :
  exists msg,
    MainWindow.run_analysis 10 true 0 RectApp.workshop RectApp.hall_canvas MainWindow.init
    = (MainWindow.with_polygon MainWindow.init Rect.hall, RectApp.hall_canvas,
       MainWindow.Failed (MainWindow.ZeroDivisionError msg)).
Proof.
  apply (@run_analysis_divides_by_zero Rect.math Rect.shapely Rect.stub_overlay
           RectApp.builder RectApp.text 10 0 RectApp.workshop RectApp.hall_canvas
           MainWindow.init Rect.hall Rect.hall 5000).
  - vm_compute. lia.
  - vm_compute. reflexivity.
  - vm_compute. reflexivity.
  - left. reflexivity.
  - reflexivity.
  - reflexivity.
  - vm_compute. reflexivity.
Defined.

Lemma run_analysis_code_violation_tank :
  MainWindow.run_analysis 10 true 0 RectApp.tank RectApp.hall_canvas MainWindow.init
  = (MainWindow.with_message (MainWindow.with_polygon MainWindow.init Rect.hall)
       "Code Violation",
     RectApp.hall_canvas, MainWindow.Done tt).
Proof.
  apply (@run_analysis_code_violation Rect.math Rect.shapely Rect.stub_overlay
           RectApp.builder RectApp.text 10 0 RectApp.tank RectApp.hall_canvas
           MainWindow.init Rect.hall Rect.hall 5000 12).
  - vm_compute. lia.
  - vm_compute. reflexivity.
  - vm_compute. reflexivity.
  - right. right. left. reflexivity.
  - reflexivity.
  - vm_compute. lia.
  - vm_compute. reflexivity.
  - discriminate.
  - vm_compute. reflexivity.
  - vm_compute. reflexivity.
Defined.

Lemma run_analysis_complete_office :
  exists s1 s2 s3 m r,
    MainWindow.generated_solutions RectApp.analysed
    = [ {| name := "Option A: Standard Grid"; points := s1 |};
        {| name := "Option B: Offset Grid"; points := s2 |};
        {| name := "Option C: Hexagonal Packing"; points := s3 |} ] /\
    MainWindow.current_solution_idx RectApp.analysed = 0%Z /\
    MainWindow.last_analysis_meta RectApp.analysed = Some m /\
    MainWindow.safety_factor m = MainWindow.safety_factor_spin RectApp.office /\
    MainWindow.last_polygon RectApp.analysed <> None /\
    MainWindow.opt_lbl RectApp.analysed = "Option A: Standard Grid (1 of 3)"%string /\
    MainWindow.prev_enabled RectApp.analysed = false /\
    MainWindow.next_enabled RectApp.analysed = true /\
    MainWindow.report_view RectApp.analysed = Some r /\
    MainWindow.option_name r = "Option A: Standard Grid"%string /\
    MainWindow.dist_qty r = Z.of_nat (List.length s1) /\
    MainWindow.final_qty r = Z.max (Z.of_nat (List.length s1)) (MainWindow.min_qty_area m) /\
    MainWindow.saved RectApp.hall_canvas = MainWindow.saved RectApp.hall_canvas.
Proof.
  apply (@run_analysis_complete Rect.math Rect.shapely Rect.stub_overlay
           RectApp.builder RectApp.text 10 true 0 RectApp.office RectApp.hall_canvas
           (MainWindow.saved RectApp.hall_canvas) MainWindow.init RectApp.analysed).
  - vm_compute. reflexivity.
  - vm_compute. reflexivity.
Defined.

Lemma run_analysis_reads_the_open_hall :
  fst (fst (MainWindow.run_analysis 10 true 0 RectApp.office RectApp.open_hall_canvas
              MainWindow.init))
  = fst (fst (MainWindow.run_analysis 10 true 0 RectApp.office RectApp.hall_canvas
                MainWindow.init)) /\
  snd (MainWindow.run_analysis 10 true 0 RectApp.office RectApp.open_hall_canvas
         MainWindow.init)
  = snd (MainWindow.run_analysis 10 true 0 RectApp.office RectApp.hall_canvas
           MainWindow.init).
Proof.
  apply (@run_analysis_reads_the_outline Rect.math Rect.shapely Rect.stub_overlay
           RectApp.builder RectApp.text); vm_compute; reflexivity.
Defined.

Lemma change_sol_in_range_analysed :
  (0 <= MainWindow.current_solution_idx (fst (MainWindow.change_sol RectApp.analysed 5))
   < Z.of_nat (List.length (MainWindow.generated_solutions
                              (fst (MainWindow.change_sol RectApp.analysed 5)))))%Z /\
  MainWindow.generated_solutions (fst (MainWindow.change_sol RectApp.analysed 5))
  = MainWindow.generated_solutions RectApp.analysed.
Proof.
  apply (@change_sol_in_range Rect.shapely Rect.stub_overlay RectApp.analysed 5).
  vm_compute. discriminate.
Defined.

Lemma buttons_agree_with_paging_analysed :
  MainWindow.current_solution_idx
    (fst (MainWindow.change_sol (fst (MainWindow.change_sol RectApp.analysed 1)) (-1)))
  = (if MainWindow.prev_enabled (fst (MainWindow.change_sol RectApp.analysed 1))
     then MainWindow.current_solution_idx (fst (MainWindow.change_sol RectApp.analysed 1)) - 1
     else MainWindow.current_solution_idx (fst (MainWindow.change_sol RectApp.analysed 1)))%Z /\
  MainWindow.current_solution_idx
    (fst (MainWindow.change_sol (fst (MainWindow.change_sol RectApp.analysed 1)) 1))
  = (if MainWindow.next_enabled (fst (MainWindow.change_sol RectApp.analysed 1))
     then MainWindow.current_solution_idx (fst (MainWindow.change_sol RectApp.analysed 1)) + 1
     else MainWindow.current_solution_idx (fst (MainWindow.change_sol RectApp.analysed 1)))%Z.
Proof.
  apply (@buttons_agree_with_paging Rect.shapely Rect.stub_overlay RectApp.analysed 1).
  vm_compute. reflexivity.
Defined.

Lemma closed_hall_is_frozen :
  CADCanvas.points
    (CADCanvas.handle RectApp.hall_canvas (CADCanvas.Press CADCanvas.LeftButton (400, 200)))
  = CADCanvas.points RectApp.hall_canvas /\
  CADCanvas.polygon_closed
    (CADCanvas.handle RectApp.hall_canvas (CADCanvas.Press CADCanvas.LeftButton (400, 200)))
  = true /\
  CADCanvas.has_unsaved_changes
    (CADCanvas.handle RectApp.hall_canvas (CADCanvas.Press CADCanvas.LeftButton (400, 200)))
  = CADCanvas.has_unsaved_changes RectApp.hall_canvas.
Proof.
  apply closed_outline_is_frozen; [vm_compute; reflexivity | discriminate].
Defined.

Lemma hall_outline_on_grid :
  Forall CADCanvas.on_grid
    (CADCanvas.points (fold_left CADCanvas.handle RectApp.hall_clicks CADCanvas.init)).
Proof.
  apply outline_on_grid. repeat constructor; discriminate.
Defined.

Lemma closed_hall_is_analysed :
  MainWindow.messages
    (fst (fst (MainWindow.run_analysis 10 true 0 RectApp.office
                 (fold_left CADCanvas.handle RectApp.hall_clicks CADCanvas.init)
                 MainWindow.init)))
  <> (MainWindow.messages (@MainWindow.init Rect.shapely) ++ ["Draw a closed area first."%string]).
Proof.
  apply (@closed_outline_is_analysed Rect.math Rect.shapely Rect.stub_overlay
           RectApp.builder RectApp.text RectApp.hall_clicks 10 0 RectApp.office
           MainWindow.init).
  vm_compute. reflexivity.
Defined.

Lemma paging_without_solutions_init :
  snd (MainWindow.change_sol (@MainWindow.init Rect.shapely) 1)
  = MainWindow.Failed (MainWindow.IndexError "list index out of range") /\
  MainWindow.current_solution_idx (fst (MainWindow.change_sol (@MainWindow.init Rect.shapely) 1))
  = 0%Z.
Proof.
  destruct (@paging_without_solutions Rect.shapely Rect.stub_overlay MainWindow.init 1 eq_refl)
    as (H1 & H2 & _).
  split; [exact H1 | exact H2].
Defined.
